(** * Image converter: the conversion pipeline and its batch worker

    A shallow embedding of the Python sources

    - [image_converter.py]  (class [ImageConverter]),
    - [utils.py]            (class [FileHandler]),
    - [main_nodnd.py]       (method [ImageConverterApp.convert_images]),

    and the properties of the conversion pipeline established on it.

    Conventions.  Python [int] is [Z]; Python [float] is the kernel's
    binary64 [float]; [str] is [string]; [None] is [None]; a Python
    exception is a value of [Exn] threaded through the monad [M].
    Calls into Pillow, [pathlib], [os.path], [logging] and [queue] are
    modelled by what they are documented to do on the data the
    converter hands them; the converter's own control flow is
    transcribed statement by statement. *)

From Stdlib Require Import ZArith QArith Qround Qminmax Lqa Floats Uint63 Ascii String List Lia Bool.
From stdpp Require Import gmap strings pretty list.

Local Open Scope string_scope.
Local Open Scope list_scope.
Local Open Scope Z_scope.

(** ** Python strings *)

Module PyStr.

(** [str.lower()] on the ASCII letters.  The extension and format tables
    below hold ASCII only, and none of their entries is the lower-case
    image of a non-ASCII character of the same length, so membership
    after lower-casing is decided by the ASCII letters. *)
Definition lower_ascii (c : ascii) : ascii :=
  let n := nat_of_ascii c in
  if ((65 <=? n) && (n <=? 90))%nat then ascii_of_nat (n + 32) else c.

Fixpoint lower (s : string) : string :=
  match s with
  | EmptyString => EmptyString
  | String c t => String (lower_ascii c) (lower t)
  end.

(** [s.rfind(c)]: index of the last occurrence, [None] for Python's [-1]. *)
Fixpoint rfind (c : ascii) (s : string) : option nat :=
  match s with
  | EmptyString => None
  | String a t =>
      match rfind c t with
      | Some i => Some (S i)
      | None => if Ascii.eqb a c then Some 0%nat else None
      end
  end.

(** Slices [s[i:]] and [s[:i]]. *)
Fixpoint drop (i : nat) (s : string) : string :=
  match i, s with
  | O, _ => s
  | S i', String _ t => drop i' t
  | S _, EmptyString => EmptyString
  end.

Fixpoint take (i : nat) (s : string) : string :=
  match i, s with
  | O, _ => EmptyString
  | S i', String a t => String a (take i' t)
  | S _, EmptyString => EmptyString
  end.

(** [s.split(sep)] for a one-character separator. *)
Fixpoint split (sep : ascii) (s : string) : list string :=
  match s with
  | EmptyString => [EmptyString]
  | String a t =>
      if Ascii.eqb a sep then EmptyString :: split sep t
      else match split sep t with
           | h :: r => String a h :: r
           | [] => [String a EmptyString]
           end
  end.

Definition startswith (c : ascii) (s : string) : bool :=
  match s with
  | String a _ => Ascii.eqb a c
  | EmptyString => false
  end.

Fixpoint contains (c : ascii) (s : string) : bool :=
  match s with
  | EmptyString => false
  | String a t => Ascii.eqb a c || contains c t
  end.

(** Truthiness of a string: [if s:] holds for the non-empty ones. *)
Definition truthy (s : string) : bool :=
  match s with EmptyString => false | _ => true end.

(** [sep.join(l)]. *)
Fixpoint join (sep : string) (l : list string) : string :=
  match l with
  | [] => ""
  | [x] => x
  | x :: r => x +:+ sep +:+ join sep r
  end.

End PyStr.

(** ** [pathlib] paths and [os.path]

    A [PurePath] is the tuple [Path.parts]: the components left after
    [pathlib] has dropped empty and ["."] components, with the root ["/"]
    as a first component of an absolute path. *)

Abbreviation PurePath := (list string).

Module PyPath.

Definition is_component (c : string) : bool :=
  negb (String.eqb c "") && negb (String.eqb c ".").

(** [Path(s)] *)
Definition Path (s : string) : PurePath :=
  (if PyStr.startswith "/" s then ["/"] else [])
    ++ List.filter is_component (PyStr.split "/" s).

(** The path that is the root alone. *)
Definition is_root (p : PurePath) : bool :=
  match p with
  | [r] => String.eqb r "/"
  | _ => false
  end.

(** [p.name]: the last component, [""] for the root and for [Path(".")]. *)
Definition name (p : PurePath) : string :=
  if is_root p then "" else List.last p "".

(** [p.parent]: the root and [Path(".")] are their own parents. *)
Definition parent (p : PurePath) : PurePath :=
  if is_root p then ["/"] else List.removelast p.

(** [p / s] *)
Definition joinpath (p : PurePath) (s : string) : PurePath :=
  if PyStr.startswith "/" s then Path s
  else p ++ List.filter is_component (PyStr.split "/" s).

(** [p.suffix] and [p.stem]:
    [i = name.rfind('.')]; the suffix is [name[i:]] when
    [0 < i < len(name) - 1], else empty. *)
Definition splits_at (nm : string) : option nat :=
  match PyStr.rfind "." nm with
  | Some i => if ((0 <? i) && (i <? String.length nm - 1))%nat then Some i else None
  | None => None
  end.

Definition suffix (p : PurePath) : string :=
  match splits_at (name p) with
  | Some i => PyStr.drop i (name p)
  | None => ""
  end.

Definition stem (p : PurePath) : string :=
  match splits_at (name p) with
  | Some i => PyStr.take i (name p)
  | None => name p
  end.

(** [str(p)] *)
Definition to_str (p : PurePath) : string :=
  match p with
  | [] => "."
  | c :: r => if String.eqb c "/" then "/" +:+ PyStr.join "/" r else PyStr.join "/" p
  end.

(** [os.path.basename(s)]: what follows the last ["/"]. *)
Definition basename (s : string) : string :=
  match PyStr.rfind "/" s with
  | Some i => PyStr.drop (S i) s
  | None => s
  end.

End PyPath.

(** ** Exceptions and results *)

(** The exceptions the modelled calls can raise; [str(e)] is [exn_str].
    [LoopBound] is not a Python exception: it marks the exhaustion of the
    iteration bound the model gives the [while] loop of
    [_get_output_path] (never reached, see [next_free_terminates]). *)
Inductive Exn :=
| ZeroDivisionError (msg : string)
| ValueError (msg : string)
| OSError (msg : string)
| FileExistsError (msg : string)
| FileNotFoundError (msg : string)
| UnidentifiedImageError (msg : string)
| KeyError (msg : string)
| LoopBound.

Definition exn_str (e : Exn) : string :=
  match e with
  | ZeroDivisionError m | ValueError m | OSError m | FileExistsError m
  | FileNotFoundError m | UnidentifiedImageError m | KeyError m => m
  | LoopBound => ""
  end.

Inductive Res (A : Type) :=
| Ok (a : A)
| Raise (e : Exn).
Arguments Ok {A} a.
Arguments Raise {A} e.

Definition res_bind {A B} (r : Res A) (k : A -> Res B) : Res B :=
  match r with
  | Ok a => k a
  | Raise e => Raise e
  end.

(** ** Python float arithmetic

    [_resize_image] mixes [int] and [float]: true division of two ints,
    an int divided by a float, an int multiplied by a float, a float
    comparison and [int(x)].  The interface below is exactly that set of
    operations; the function is written once over it.  Two instances:
    [binary64], which is what CPython computes (IEEE 754 double,
    round-to-nearest-even; exact for ints below [2^53]), and [exactQ],
    the same operations over the rationals without rounding. *)

Class PyFloat (F : Type) := {
  float_of_int : Z -> F;
  fzero : F -> bool;            (* x == 0.0 *)
  fdiv : F -> F -> F;           (* x / y for y != 0 *)
  fmul : F -> F -> F;
  fgt : F -> F -> bool;         (* x > y *)
  int_of_float : F -> Z         (* int(x): truncation toward zero *)
}.

(** [x / y] with a float divisor: raises when [y == 0.0]. *)
Definition truediv {F} `{PyFloat F} (x y : F) : Res F :=
  if fzero y then Raise (ZeroDivisionError "float division by zero")
  else Ok (fdiv x y).

(** [a / b] on two ints: raises when [b == 0], else the float quotient. *)
Definition int_truediv {F} `{PyFloat F} (a b : Z) : Res F :=
  if b =? 0 then Raise (ZeroDivisionError "division by zero")
  else Ok (fdiv (float_of_int a) (float_of_int b)).

Module Binary64.

Definition of_int (z : Z) : float :=
  if (0 <=? z)%Z then PrimFloat.of_uint63 (Uint63.of_Z z)
  else PrimFloat.opp (PrimFloat.of_uint63 (Uint63.of_Z (- z))).

(** [int(x)] of a finite float [(-1)^s * m * 2^e], toward zero. *)
Definition to_int (x : float) : Z :=
  match Prim2SF x with
  | S754_finite s m e =>
      let mag := match e with
                 | Z0 => Zpos m
                 | Zpos p => Z.shiftl (Zpos m) (Zpos p)
                 | Zneg p => Z.shiftr (Zpos m) (Zpos p)
                 end in
      if s then (- mag)%Z else mag
  | _ => 0%Z
  end.

End Binary64.

#[export] Instance binary64 : PyFloat float := {
  float_of_int := Binary64.of_int;
  fzero x := PrimFloat.eqb x PrimFloat.zero;
  fdiv := PrimFloat.div;
  fmul := PrimFloat.mul;
  fgt x y := PrimFloat.ltb y x;
  int_of_float := Binary64.to_int
}.

Module ExactQ.

Definition to_int (q : Q) : Z :=
  if Qle_bool 0 q then Qfloor q else Qceiling q.

End ExactQ.

#[export] Instance exactQ : PyFloat Q := {
  float_of_int := inject_Z;
  fzero x := Qeq_bool x 0;
  fdiv := Qdiv;
  fmul := Qmult;
  fgt x y := negb (Qle_bool x y);
  int_of_float := ExactQ.to_int
}.

(** ** Pillow images

    An image is the record of the Pillow calls that produced it, over
    what [Image.open] decoded.  Only the attributes the converter reads
    are interpreted: [mode], [size], ['transparency' in info] and the
    EXIF orientation tag that [ImageOps.exif_transpose] consults. *)

Inductive Image :=
| Decoded (mode : string) (size : Z * Z) (transparency : bool)
          (orientation : Z) (data : string)     (* Image.open(path) *)
| New (mode : string) (size : Z * Z) (color : string)  (* Image.new *)
| Pasted (background img mask : Image)              (* background.paste(img, mask=mask) *)
| LastBand (img : Image)                            (* img.split()[-1] *)
| Converted (img : Image) (mode : string)           (* img.convert(mode) *)
| Resized (img : Image) (size : Z * Z) (resample : string)  (* img.resize *)
| Transposed (img : Image).                         (* ImageOps.exif_transpose(img) *)

Module Img.

(** EXIF orientation, [1] (upright) when the image carries none.
    [Image.new] starts without metadata and [paste] writes pixels only;
    [convert] and [resize] copy [info]; [exif_transpose] removes the tag. *)
Fixpoint orientation (i : Image) : Z :=
  match i with
  | Decoded _ _ _ o _ => o
  | New _ _ _ => 1
  | Pasted bg _ _ => orientation bg
  | LastBand _ => 1
  | Converted i' _ => orientation i'
  | Resized i' _ _ => orientation i'
  | Transposed _ => 1
  end.

(** Orientations 5 to 8 are the transpositions and quarter turns. *)
Definition swaps_axes (o : Z) : bool := (5 <=? o) && (o <=? 8).

Fixpoint size (i : Image) : Z * Z :=
  match i with
  | Decoded _ sz _ _ _ => sz
  | New _ sz _ => sz
  | Pasted bg _ _ => size bg
  | LastBand i' => size i'
  | Converted i' _ => size i'
  | Resized _ sz _ => sz
  | Transposed i' =>
      if swaps_axes (orientation i') then (snd (size i'), fst (size i')) else size i'
  end.

Fixpoint mode (i : Image) : string :=
  match i with
  | Decoded m _ _ _ _ => m
  | New m _ _ => m
  | Pasted bg _ _ => mode bg
  | LastBand _ => "L"
  | Converted _ m => m
  | Resized i' _ _ => mode i'
  | Transposed i' => mode i'
  end.

(** ['transparency' in img.info] *)
Fixpoint has_transparency_info (i : Image) : bool :=
  match i with
  | Decoded _ _ t _ _ => t
  | New _ _ _ => false
  | Pasted bg _ _ => has_transparency_info bg
  | LastBand _ => false
  | Converted i' m => if String.eqb m "RGBA" then false else has_transparency_info i'
  | Resized i' _ _ => has_transparency_info i'
  | Transposed i' => has_transparency_info i'
  end.

(** [img.resize(size, resample)]: Pillow rejects a non-positive side. *)
Definition resize (i : Image) (sz : Z * Z) (resample : string) : Res Image :=
  if (fst sz <=? 0) || (snd sz <=? 0)
  then Raise (ValueError "height and width must be > 0")
  else Ok (Resized i sz resample).

End Img.

(** ** [ImageConverter]: the pure steps *)

Definition SUPPORTED_INPUT_FORMATS : gset string :=
  {[ ".jpg"; ".jpeg"; ".png"; ".gif"; ".bmp"; ".tiff"; ".tif";
     ".webp"; ".avif"; ".ico"; ".ppm"; ".pgm"; ".pbm" ]}.

Definition SUPPORTED_OUTPUT_FORMATS : gmap string string :=
  list_to_map
    [ ("png", "PNG"); ("jpg", "JPEG"); ("jpeg", "JPEG"); ("webp", "WEBP");
      ("tiff", "TIFF"); ("bmp", "BMP"); ("gif", "GIF"); ("ico", "ICO") ].

(** [transparent_formats], local to [_handle_transparency]. *)
Definition transparent_formats : gset string :=
  {[ "png"; "gif"; "webp"; "ico" ]}.

(** [ImageConverter._handle_transparency] *)
Definition _handle_transparency (img : Image) (output_format : string) : Image :=
  if negb (bool_decide (PyStr.lower output_format ∈ transparent_formats)) then
    if bool_decide (Img.mode img ∈ ["RGBA"; "LA"]) then
      let background := New "RGB" (Img.size img) "white" in
      if String.eqb (Img.mode img) "RGBA" then
        Pasted background img (LastBand img)
      else
        Pasted background img (LastBand img)
    else if String.eqb (Img.mode img) "P" && Img.has_transparency_info img then
      let img := Converted img "RGBA" in
      let background := New "RGB" (Img.size img) "white" in
      Pasted background img (LastBand img)
    else img
  else img.

(** The dimensions [_resize_image] asks [img.resize] for. *)
Definition resize_target {F} `{PyFloat F} (size dimensions : Z * Z) : Res (Z * Z) :=
  let '(target_width, target_height) := dimensions in
  let '(original_width, original_height) := size in
  res_bind (int_truediv original_width original_height)
    (fun original_ratio : F =>
  res_bind (int_truediv target_width target_height)
    (fun target_ratio : F =>
  if fgt original_ratio target_ratio then
    let new_width := target_width in
    res_bind (truediv (float_of_int target_width) original_ratio)
      (fun q => Ok (new_width, int_of_float q))
  else
    let new_height := target_height in
    let new_width := int_of_float (fmul (float_of_int target_height) original_ratio) in
    Ok (new_width, new_height))).

(** [ImageConverter._resize_image] *)
Definition _resize_image (img : Image) (dimensions : Z * Z) : Res Image :=
  res_bind (resize_target (F := float) (Img.size img) dimensions)
    (fun new_size => Img.resize img new_size "LANCZOS").

(** ** The world: file system and log *)

(** Keyword arguments of [img.save]. *)
Inductive Kw :=
| KwInt (n : Z)
| KwBool (b : bool)
| KwStr (s : string).

(** What a path of the file system holds: a directory, a file that was
    there before ([Some img] when its bytes decode to [img]), or a file
    the encoder wrote. *)
Inductive Node :=
| Dir
| File (content : option Image)
| Written (format : string) (kwargs : list (string * Kw)) (img : Image).

Inductive Level := ERROR | INFO.

(** The records the converter logs, one constructor per message template. *)
Inductive LogMsg :=
| InputDoesNotExist (input_path : string)
| UnsupportedInputFormat (suffix : string)
| UnsupportedOutputFormat (output_format : string)
| ErrorSaving (output_path : PurePath) (e : Exn)
| ErrorConverting (input_path : PurePath) (e : Exn)
| SuccessfullyConverted (name : string) (output_path : PurePath)
| ErrorConvertingFile (file_path : string) (e : Exn)
| ConversionThreadError (e : Exn).

Definition format_message (m : LogMsg) : string :=
  match m with
  | InputDoesNotExist p => "Input file does not exist: " +:+ p
  | UnsupportedInputFormat sfx => "Unsupported input format: " +:+ sfx
  | UnsupportedOutputFormat f => "Unsupported output format: " +:+ f
  | ErrorSaving p e =>
      "Error saving image to " +:+ PyPath.to_str p +:+ ": " +:+ exn_str e
  | ErrorConverting p e =>
      "Error converting " +:+ PyPath.to_str p +:+ ": " +:+ exn_str e
  | SuccessfullyConverted n p =>
      "Successfully converted " +:+ n +:+ " to " +:+ PyPath.to_str p
  | ErrorConvertingFile p e => "Error converting " +:+ p +:+ ": " +:+ exn_str e
  | ConversionThreadError e => "Conversion thread error: " +:+ exn_str e
  end.

(** The messages the worker puts on [conversion_queue]. *)
Inductive Message :=
| Progress (progress : float) (status_text : string)
| Complete (successful : Z) (failed : list string)
| ErrorMessage (text : string).

Record World := mkWorld {
  fs : gmap PurePath Node;
  log : list (Level * LogMsg);
  queue : list Message
}.

Definition set_fs (f : gmap PurePath Node) (w : World) : World :=
  {| fs := f; log := log w; queue := queue w |}.

Definition add_log (r : Level * LogMsg) (w : World) : World :=
  {| fs := fs w; log := log w ++ [r]; queue := queue w |}.

Definition enqueue (m : Message) (w : World) : World :=
  {| fs := fs w; log := log w; queue := queue w ++ [m] |}.

(** State and exceptions: a computation runs in a world and returns a
    value or raises, leaving the world it reached. *)
Definition M (A : Type) : Type := World -> Res A * World.

#[export] Instance M_ret : MRet M := fun A a w => (Ok a, w).
#[export] Instance M_bind : MBind M := fun A B k m w =>
  match m w with
  | (Ok a, w') => k a w'
  | (Raise e, w') => (Raise e, w')
  end.

Definition raise {A} (e : Exn) : M A := fun w => (Raise e, w).
Definition lift {A} (r : Res A) : M A := fun w => (r, w).
Definition get_world : M World := fun w => (Ok w, w).

(** [try: body  except Exception as e: handler(e)] *)
Definition try_except {A} (body : M A) (handler : Exn -> M A) : M A := fun w =>
  match body w with
  | (Ok a, w') => (Ok a, w')
  | (Raise e, w') => handler e w'
  end.

Module Logger.
Definition emit (l : Level) (m : LogMsg) : M unit := fun w =>
  (Ok tt, add_log (l, m) w).
Definition error := emit ERROR.
Definition info := emit INFO.
End Logger.

Module Queue.
(** [conversion_queue.put(m)] on the unbounded queue. *)
Definition put (m : Message) : M unit := fun w =>
  (Ok tt, enqueue m w).
End Queue.

Module FS.

(** The current directory and the root always exist. *)
Definition lookup (f : gmap PurePath Node) (p : PurePath) : option Node :=
  match p with
  | [] => Some Dir
  | _ => if PyPath.is_root p then Some Dir else f !! p
  end.

(** [p.exists()] *)
Definition path_exists (f : gmap PurePath Node) (p : PurePath) : bool :=
  match lookup f p with Some _ => true | None => false end.

Definition is_dir (f : gmap PurePath Node) (p : PurePath) : bool :=
  match lookup f p with Some Dir => true | _ => false end.

(** [os.path.exists(s)]: false on the empty string. *)
Definition os_path_exists (s : string) : M bool := fun w =>
  (Ok (PyStr.truthy s && path_exists (fs w) (PyPath.Path s)), w).

(** [p.mkdir(parents=True, exist_ok=True)], ancestors first: a
    directory that is there is kept, a missing one is created, a file
    in the way raises. *)
Fixpoint mkdir_from (done : PurePath) (rest : list string)
    (f : gmap PurePath Node) : Res (gmap PurePath Node) :=
  match rest with
  | [] => Ok f
  | c :: r =>
      let q := done ++ [c] in
      match lookup f q with
      | Some Dir => mkdir_from q r f
      | Some _ => Raise (FileExistsError ("File exists: " +:+ PyPath.to_str q))
      | None => mkdir_from q r (<[q := Dir]> f)
      end
  end.

Definition mkdir (p : PurePath) : M unit := fun w =>
  let r := match p with
           | c :: rest =>
               if String.eqb c "/" then mkdir_from ["/"] rest (fs w)
               else mkdir_from [] p (fs w)
           | [] => Ok (fs w)
           end in
  match r with
  | Ok f' => (Ok tt, set_fs f' w)
  | Raise e => (Raise e, w)
  end.

(** [Image.open(p)] *)
Definition open_image (p : PurePath) : M Image := fun w =>
  match lookup (fs w) p with
  | Some (File (Some img)) => (Ok img, w)
  | Some (Written _ _ img) => (Ok img, w)
  | Some (File None) =>
      (Raise (UnidentifiedImageError ("cannot identify image file " +:+ PyPath.to_str p)), w)
  | Some Dir => (Raise (OSError ("Is a directory: " +:+ PyPath.to_str p)), w)
  | None => (Raise (FileNotFoundError ("No such file or directory: " +:+ PyPath.to_str p)), w)
  end.

End FS.

(** ** [ImageConverter]: paths, saving and the conversion itself *)

Module Settings.
(** The [settings] dictionary: a field is [None] when its key is absent
    (or bound to [None]). *)
Record t := mk {
  output_format : option string;
  output_folder : option string;
  resize : option bool;
  resize_dimensions : option (Z * Z);
  quality : option Z
}.
End Settings.

(** The [while output_path.exists()] loop of [_get_output_path], with an
    iteration bound. *)
Fixpoint next_free (bound : nat) (f : gmap PurePath Node)
    (base_name extension : string) (output_path : PurePath) (counter : Z)
    : option PurePath :=
  match bound with
  | O => None
  | S n =>
      if FS.path_exists f output_path then
        let output_path :=
          PyPath.joinpath (PyPath.parent output_path)
            (base_name +:+ "_" +:+ pretty counter +:+ extension) in
        next_free n f base_name extension output_path (counter + 1)
      else Some output_path
  end.

(** The [if output_folder:] choice: [None] and the empty string are falsy. *)
Definition output_dir_for (input_path : PurePath) (output_folder : option string)
    : PurePath :=
  match output_folder with
  | Some folder =>
      if PyStr.truthy folder then PyPath.Path folder else PyPath.parent input_path
  | None => PyPath.parent input_path
  end.

(** [ImageConverter._get_output_path] *)
Definition _get_output_path (input_path : PurePath) (output_format : string)
    (output_folder : option string) : M PurePath :=
  let output_dir := output_dir_for input_path output_folder in
  FS.mkdir output_dir;;
  let base_name := PyPath.stem input_path in
  let extension := "." +:+ output_format in
  let output_path := PyPath.joinpath output_dir (base_name +:+ extension) in
  w ← get_world;
  match next_free (S (size (fs w))) (fs w) base_name extension output_path 1 with
  | Some p => mret p
  | None => raise LoopBound
  end.

Section Converter.

(** Whether the encoder of a Pillow format accepts an image (pixel mode
    the codec can write, room on the disk, ...): outside the converter. *)
Variable encodable : string -> Image -> bool.

(** [img.save(output_path, format=pil_format, **save_kwargs)] *)
Definition save (img : Image) (output_path : PurePath) (pil_format : string)
    (save_kwargs : list (string * Kw)) : M unit := fun w =>
  if negb (FS.is_dir (fs w) (PyPath.parent output_path)) then
    (Raise (FileNotFoundError ("No such file or directory: " +:+ PyPath.to_str output_path)), w)
  else if FS.is_dir (fs w) output_path then
    (Raise (OSError ("Is a directory: " +:+ PyPath.to_str output_path)), w)
  else if encodable pil_format img then
    (Ok tt, set_fs (<[output_path := Written pil_format save_kwargs img]> (fs w)) w)
  else
    (Raise (OSError ("cannot write mode " +:+ Img.mode img +:+ " as " +:+ pil_format)), w).

(** [quality if quality else 95] *)
Definition quality_or_default (quality : option Z) : Z :=
  match quality with
  | Some q => if q =? 0 then 95 else q
  | None => 95
  end.

(** [ImageConverter._save_image] *)
Definition _save_image (img : Image) (output_path : PurePath)
    (output_format : string) (quality : option Z) : M bool :=
  try_except
    (pil_format ← match SUPPORTED_OUTPUT_FORMATS !! output_format with
                  | Some f => mret f
                  | None => raise (KeyError output_format)
                  end;
     let '(img, save_kwargs) :=
       if String.eqb pil_format "JPEG" then
         let img := if negb (String.eqb (Img.mode img) "RGB")
                    then Converted img "RGB" else img in
         (img, [("quality", KwInt (quality_or_default quality));
                ("optimize", KwBool true)])
       else if String.eqb pil_format "PNG" then
         (img, [("optimize", KwBool true)])
       else if String.eqb pil_format "WEBP" then
         (img, [("quality", KwInt (quality_or_default quality));
                ("method", KwInt 6)])
       else if String.eqb pil_format "TIFF" then
         (img, [("compression", KwStr "lzw")])
       else (img, []) in
     save img output_path pil_format save_kwargs;;
     mret true)
    (fun e =>
       Logger.error (ErrorSaving output_path e);;
       mret false).

(** [ImageConverter.convert_image] *)
Definition convert_image (input_path : string) (settings : Settings.t) : M bool :=
  try_except
    (found ← FS.os_path_exists input_path;
     if negb found then
       Logger.error (InputDoesNotExist input_path);;
       mret false
     else
       let input_path := PyPath.Path input_path in
       if negb (bool_decide
                  (PyStr.lower (PyPath.suffix input_path) ∈ SUPPORTED_INPUT_FORMATS)) then
         Logger.error (UnsupportedInputFormat (PyPath.suffix input_path));;
         mret false
       else
         let output_format :=
           PyStr.lower (default "png" (Settings.output_format settings)) in
         let output_folder := Settings.output_folder settings in
         let resize := default false (Settings.resize settings) in
         let resize_dimensions := Settings.resize_dimensions settings in
         let quality := Settings.quality settings in
         match SUPPORTED_OUTPUT_FORMATS !! output_format with
         | None =>
             Logger.error (UnsupportedOutputFormat output_format);;
             mret false
         | Some _ =>
             output_path ← _get_output_path input_path output_format output_folder;
             img ← FS.open_image input_path;
             let processed_img := _handle_transparency img output_format in
             processed_img ←
               match resize, resize_dimensions with
               | true, Some dims => lift (_resize_image processed_img dims)
               | _, _ => mret processed_img
               end;
             let processed_img := Transposed processed_img in
             success ← _save_image processed_img output_path output_format quality;
             if (success : bool) then
               Logger.info (SuccessfullyConverted (PyPath.name input_path) output_path);;
               mret true
             else mret false
         end)
    (fun e =>
       Logger.error (ErrorConverting (PyPath.Path input_path) e);;
       mret false).

End Converter.

(** ** [FileHandler.is_image_file] *)

Definition IMAGE_MIME_TYPES : gset string :=
  {[ "image/jpeg"; "image/jpg"; "image/png"; "image/gif"; "image/bmp";
     "image/tiff"; "image/webp"; "image/avif"; "image/x-icon" ]}.

Definition IMAGE_EXTENSIONS : gset string :=
  {[ ".jpg"; ".jpeg"; ".png"; ".gif"; ".bmp"; ".tiff"; ".tif";
     ".webp"; ".avif"; ".ico"; ".ppm"; ".pgm"; ".pbm" ]}.

Section FileHandler.

(** [mimetypes.guess_type], as documented: it returns a pair
    [(type, encoding)], each possibly [None]; which type it guesses for a
    path is left open. *)
Variable guess_type : string -> option string * option string.

(** [FileHandler.is_image_file].  The calls of the [try] block
    ([Path], [suffix], [lower], [guess_type] as above) return on every
    [str]; the [except] branch, which would turn an exception into
    [False], is therefore not represented. *)
Definition is_image_file (file_path : string) : bool :=
  let file_ext := PyStr.lower (PyPath.suffix (PyPath.Path file_path)) in
  if negb (bool_decide (file_ext ∈ IMAGE_EXTENSIONS)) then false
  else
    let '(mime_type, _) := guess_type file_path in
    if match mime_type with
       | Some m => PyStr.truthy m && bool_decide (m ∈ IMAGE_MIME_TYPES)
       | None => false
       end
    then true
    else bool_decide (file_ext ∈ IMAGE_EXTENSIONS).

End FileHandler.

(** ** [ImageConverterApp.convert_images]: the batch worker *)

Module App.
(** The widget variables the worker reads. *)
Record t := mk {
  file_list : list string;
  output_format : string;
  output_folder : string;
  resize_option : bool;
  resize_width : string;
  resize_height : string;
  quality_option : bool;
  quality_value : string
}.
End App.

(** The worker's counters. *)
Record Tally := mkTally {
  successful_conversions : Z;
  failed_conversions : list string
}.

Section Worker.

Variable encodable : string -> Image -> bool.
(** The builtins [int(s)] ([None] for [ValueError]) and [s.strip()]. *)
Variable int_of_str : string -> option Z.
Variable strip : string -> string.

(** [int(v) if v.strip() else d] *)
Definition int_or (v : string) (d : Z) : option Z :=
  if PyStr.truthy (strip v) then int_of_str v else Some d.

Definition read_resize_dimensions (app : App.t) : option (Z * Z) :=
  if App.resize_option app then
    match int_or (App.resize_width app) 1920 with
    | Some width =>
        match int_or (App.resize_height app) 1080 with
        | Some height => Some (width, height)
        | None => Some (1920, 1080)
        end
    | None => Some (1920, 1080)
    end
  else None.

Definition read_quality (app : App.t) : option Z :=
  if App.quality_option app then
    match int_or (App.quality_value app) 95 with
    | Some quality_value => Some (Z.max 1 (Z.min 100 quality_value))
    | None => Some 95
    end
  else None.

Definition read_settings (app : App.t) : Settings.t :=
  {| Settings.output_format := Some (PyStr.lower (App.output_format app));
     Settings.output_folder :=
       if String.eqb (App.output_folder app) "Same as input" then None
       else Some (App.output_folder app);
     Settings.resize := Some (App.resize_option app);
     Settings.resize_dimensions := read_resize_dimensions app;
     Settings.quality := read_quality app |}.

(** The inner [try] of the loop body with its [except]. *)
Definition convert_file (app : App.t) (file_path : string) (tally : Tally) : M Tally :=
  try_except
    (let settings := read_settings app in
     success ← convert_image encodable file_path settings;
     if (success : bool) then
       mret {| successful_conversions := successful_conversions tally + 1;
               failed_conversions := failed_conversions tally |}
     else
       mret {| successful_conversions := successful_conversions tally;
               failed_conversions :=
                 failed_conversions tally ++ [PyPath.basename file_path] |})
    (fun e =>
       Logger.error (ErrorConvertingFile file_path e);;
       mret {| successful_conversions := successful_conversions tally;
               failed_conversions :=
                 failed_conversions tally ++ [PyPath.basename file_path] |}).

(** [for i, file_path in enumerate(self.file_list): ...] from index [i]. *)
Fixpoint for_each_file (app : App.t) (total_files : Z) (i : Z)
    (files : list string) (tally : Tally) : M Tally :=
  match files with
  | [] => mret tally
  | file_path :: rest =>
      progress ← lift (int_truediv i total_files);
      Queue.put (Progress progress
                   ("Converting " +:+ PyPath.basename file_path +:+ "..."));;
      tally ← convert_file app file_path tally;
      for_each_file app total_files (i + 1) rest tally
  end.

(** [ImageConverterApp.convert_images] *)
Definition convert_images (app : App.t) : M unit :=
  try_except
    (let total_files := Z.of_nat (length (App.file_list app)) in
     tally ← for_each_file app total_files 0 (App.file_list app)
               {| successful_conversions := 0; failed_conversions := [] |};
     Queue.put (Progress 1%float
                  ("Conversion complete: " +:+ pretty (successful_conversions tally)
                     +:+ "/" +:+ pretty total_files +:+ " successful"));;
     Queue.put (Complete (successful_conversions tally) (failed_conversions tally)))
    (fun e =>
       Logger.error (ConversionThreadError e);;
       Queue.put (ErrorMessage (exn_str e))).

End Worker.

(** ** [ImageConverter]: the format test and the encoder arguments *)
(** [ImageConverter.is_supported_format] *)
Definition is_supported_format (file_path : string) : bool :=
  let file_ext := PyStr.lower (PyPath.suffix (PyPath.Path file_path)) in
  bool_decide (file_ext ∈ SUPPORTED_INPUT_FORMATS).

(** The keyword arguments [_save_image] passes for a Pillow format. *)
Definition save_kwargs_for (pil_format : string) (quality : option Z)
    : list (string * Kw) :=
  if String.eqb pil_format "JPEG" then
    [("quality", KwInt (quality_or_default quality)); ("optimize", KwBool true)]
  else if String.eqb pil_format "PNG" then [("optimize", KwBool true)]
  else if String.eqb pil_format "WEBP" then
    [("quality", KwInt (quality_or_default quality)); ("method", KwInt 6)]
  else if String.eqb pil_format "TIFF" then [("compression", KwStr "lzw")]
  else [].

(** The two records with which [convert_image] turns its input down. *)
Definition input_rejection (m : LogMsg) : bool :=
  match m with
  | InputDoesNotExist _ | UnsupportedInputFormat _ => true
  | _ => false
  end.

(** ** [os.path.isfile] and [FileHandler.filter_image_files] *)

Module OsPath.
(** [os.path.isfile(s)]: a regular file, whatever it holds. *)
Definition isfile (f : gmap PurePath Node) (s : string) : bool :=
  PyStr.truthy s
  && match FS.lookup f (PyPath.Path s) with
     | Some (File _) | Some (Written _ _ _) => true
     | _ => false
     end.
End OsPath.

Section FileFilter.

Variable guess_type : string -> option string * option string.

(** The loop of [filter_image_files], [image_files] being what it has
    appended so far. *)
Fixpoint filter_image_files_from (f : gmap PurePath Node) (file_paths : list string)
    (image_files : list string) : list string :=
  match file_paths with
  | [] => image_files
  | file_path :: rest =>
      if OsPath.isfile f file_path && is_image_file guess_type file_path
      then filter_image_files_from f rest (image_files ++ [file_path])
      else filter_image_files_from f rest image_files
  end.

(** [FileHandler.filter_image_files] *)
Definition filter_image_files (f : gmap PurePath Node) (file_paths : list string)
    : list string :=
  filter_image_files_from f file_paths [].

End FileFilter.

(** ** The window: file list, labels, dialogs *)

(** A [messagebox] call. *)
Inductive Dialog :=
| ShowInfo (title message : string)
| ShowWarning (title message : string)
| ShowError (title message : string).

(** The value handed to [progress_bar.set]: the int [0] or a float. *)
Inductive Num :=
| IntNum (n : Z)
| FloatNum (x : float).

Module UI.
(** The widgets the modelled methods write: the two labels, the progress
    bar, the convert button (state and text), the dialogs shown so far
    and the callbacks handed to [root.after] (delay in ms and method
    name).  The frames of the displayed list are not represented. *)
Record t := mk {
  file_count_label : string;
  progress_label : string;
  progress_bar : Num;
  convert_btn : string * string;
  dialogs : list Dialog;
  after_calls : list (Z * string)
}.
End UI.

Definition set_file_count_label (text : string) (u : UI.t) : UI.t :=
  {| UI.file_count_label := text; UI.progress_label := UI.progress_label u;
     UI.progress_bar := UI.progress_bar u; UI.convert_btn := UI.convert_btn u;
     UI.dialogs := UI.dialogs u; UI.after_calls := UI.after_calls u |}.

Definition set_progress_label (text : string) (u : UI.t) : UI.t :=
  {| UI.file_count_label := UI.file_count_label u; UI.progress_label := text;
     UI.progress_bar := UI.progress_bar u; UI.convert_btn := UI.convert_btn u;
     UI.dialogs := UI.dialogs u; UI.after_calls := UI.after_calls u |}.

Definition set_progress_bar (value : Num) (u : UI.t) : UI.t :=
  {| UI.file_count_label := UI.file_count_label u;
     UI.progress_label := UI.progress_label u;
     UI.progress_bar := value; UI.convert_btn := UI.convert_btn u;
     UI.dialogs := UI.dialogs u; UI.after_calls := UI.after_calls u |}.

Definition set_convert_btn (state text : string) (u : UI.t) : UI.t :=
  {| UI.file_count_label := UI.file_count_label u;
     UI.progress_label := UI.progress_label u;
     UI.progress_bar := UI.progress_bar u; UI.convert_btn := (state, text);
     UI.dialogs := UI.dialogs u; UI.after_calls := UI.after_calls u |}.

Definition show (d : Dialog) (u : UI.t) : UI.t :=
  {| UI.file_count_label := UI.file_count_label u;
     UI.progress_label := UI.progress_label u;
     UI.progress_bar := UI.progress_bar u; UI.convert_btn := UI.convert_btn u;
     UI.dialogs := UI.dialogs u ++ [d]; UI.after_calls := UI.after_calls u |}.

Definition root_after (ms : Z) (callback : string) (u : UI.t) : UI.t :=
  {| UI.file_count_label := UI.file_count_label u;
     UI.progress_label := UI.progress_label u;
     UI.progress_bar := UI.progress_bar u; UI.convert_btn := UI.convert_btn u;
     UI.dialogs := UI.dialogs u;
     UI.after_calls := UI.after_calls u ++ [(ms, callback)] |}.

(** The window as [__init__] and [create_ui] leave it. *)
Definition initial_ui : UI.t :=
  {| UI.file_count_label := "0 files";
     UI.progress_label := "Ready to convert images";
     UI.progress_bar := IntNum 0;
     UI.convert_btn := ("normal", "🚀 Start Conversion");
     UI.dialogs := [];
     UI.after_calls := [(100, "check_conversion_queue")] |}.

(** [ImageConverterApp.update_file_count] *)
Definition update_file_count (file_list : list string) (u : UI.t) : UI.t :=
  let count := Z.of_nat (length file_list) in
  if count =? 0 then set_file_count_label "No files" u
  else if count =? 1 then set_file_count_label "1 file" u
  else set_file_count_label (pretty count +:+ " files") u.

(** The counters of [add_files]. *)
Record AddCounts := mkAddCounts {
  added_count : Z;
  duplicate_count : Z;
  invalid_count : Z
}.

(** [l.remove(x)] for an [x] that is in [l]: the first occurrence goes. *)
Fixpoint list_remove (x : string) (l : list string) : list string :=
  match l with
  | [] => []
  | y :: r => if String.eqb y x then r else y :: list_remove x r
  end.

Section Window.

Variable guess_type : string -> option string * option string.

(** The [for file_path in files] loop of [add_files]. *)
Fixpoint add_files_loop (f : gmap PurePath Node) (files : list string)
    (file_list : list string) (c : AddCounts) : list string * AddCounts :=
  match files with
  | [] => (file_list, c)
  | file_path :: rest =>
      if OsPath.isfile f file_path then
        if is_image_file guess_type file_path then
          if negb (bool_decide (file_path ∈ file_list)) then
            add_files_loop f rest (file_list ++ [file_path])
              {| added_count := added_count c + 1;
                 duplicate_count := duplicate_count c;
                 invalid_count := invalid_count c |}
          else
            add_files_loop f rest file_list
              {| added_count := added_count c;
                 duplicate_count := duplicate_count c + 1;
                 invalid_count := invalid_count c |}
        else
          add_files_loop f rest file_list
            {| added_count := added_count c;
               duplicate_count := duplicate_count c;
               invalid_count := invalid_count c + 1 |}
      else add_files_loop f rest file_list c
  end.

(** The label or dialog [add_files] closes with. *)
Definition add_files_report (c : AddCounts) (file_list : list string) (u : UI.t) : UI.t :=
  if 0 <? added_count c then
    set_progress_label
      ("✓ " +:+ pretty (added_count c) +:+ " files added • "
         +:+ pretty (Z.of_nat (length file_list)) +:+ " total files ready") u
  else if 0 <? duplicate_count c then
    show (ShowInfo "Duplicate Files"
            (pretty (duplicate_count c) +:+ " files were already in the list.")) u
  else if 0 <? invalid_count c then
    show (ShowWarning "Invalid Files"
            (pretty (invalid_count c) +:+ " files are not supported image formats.")) u
  else
    show (ShowWarning "No Files" "No valid image files were selected.") u.

(** [ImageConverterApp.add_files], on the file system [f]: the new file
    list and the window. *)
Definition add_files (f : gmap PurePath Node) (files : list string)
    (file_list : list string) (u : UI.t) : list string * UI.t :=
  let '(file_list, c) :=
    add_files_loop f files file_list
      {| added_count := 0; duplicate_count := 0; invalid_count := 0 |} in
  let u := update_file_count file_list u in
  (file_list, add_files_report c file_list u).

End Window.

(** [ImageConverterApp.remove_file] *)
Definition remove_file (file_path : string) (file_list : list string) (u : UI.t)
    : list string * UI.t :=
  if bool_decide (file_path ∈ file_list) then
    let file_list := list_remove file_path file_list in
    let u := update_file_count file_list u in
    if 0 <? Z.of_nat (length file_list) then
      (file_list,
       set_progress_label
         (pretty (Z.of_nat (length file_list)) +:+ " files ready for conversion") u)
    else
      (file_list,
       set_progress_bar (IntNum 0) (set_progress_label "Ready to convert images" u))
  else (file_list, u).

(** [ImageConverterApp.clear_files]; [result] is the answer to the
    [askyesno] dialog. *)
Definition clear_files (result : bool) (file_list : list string) (u : UI.t)
    : list string * UI.t :=
  match file_list with
  | [] => (file_list, u)
  | _ :: _ =>
      if result then
        let u := update_file_count [] u in
        ([], set_progress_bar (IntNum 0) (set_progress_label "Ready to convert images" u))
      else (file_list, u)
  end.

(** [ImageConverterApp.start_conversion]: the window, and whether the
    worker thread is started. *)
Definition start_conversion (file_list : list string) (u : UI.t) : UI.t * bool :=
  match file_list with
  | [] => (show (ShowWarning "No Files" "Please select files to convert first.") u, false)
  | _ :: _ => (set_convert_btn "disabled" "Converting..." u, true)
  end.

(** One message taken off the queue by [check_conversion_queue]. *)
Definition handle_message (m : Message) (u : UI.t) : UI.t :=
  match m with
  | Progress progress status_text =>
      set_progress_label status_text (set_progress_bar (FloatNum progress) u)
  | Complete successful failed =>
      let u := set_convert_btn "normal" "🚀 Start Conversion" u in
      match failed with
      | _ :: _ =>
          let failed_list := PyStr.join "\n" failed in
          show (ShowWarning "Conversion Complete with Errors"
                  ("Successfully converted: " +:+ pretty successful +:+ "\nFailed: "
                     +:+ pretty (Z.of_nat (length failed)) +:+ "\n\nFailed files:\n"
                     +:+ failed_list)) u
      | [] =>
          show (ShowInfo "Conversion Complete"
                  ("Successfully converted all " +:+ pretty successful +:+ " images!")) u
      end
  | ErrorMessage error_msg =>
      let u := set_convert_btn "normal" "🚀 Start Conversion" u in
      show (ShowError "Conversion Error"
              ("An error occurred during conversion:\n" +:+ error_msg)) u
  end.

(** The [while True: get_nowait()] loop: every queued message, in order. *)
Fixpoint drain (q : list Message) (u : UI.t) : UI.t :=
  match q with
  | [] => u
  | m :: rest => drain rest (handle_message m u)
  end.

(** [ImageConverterApp.check_conversion_queue] on the queue [q]: the
    queue is left empty, the window updated and the next check scheduled. *)
Definition check_conversion_queue (q : list Message) (u : UI.t) : list Message * UI.t :=
  ([], root_after 100 "check_conversion_queue" (drain q u)).

(** What the user can do to the file list, with the state of the disk at
    that moment where it is read. *)
Inductive UserAction :=
| AddFiles (f : gmap PurePath Node) (files : list string)
| RemoveFile (file_path : string)
| ClearFiles (result : bool).

Section Session.

Variable guess_type : string -> option string * option string.

(** A path [add_files] and [filter_image_files] let through. *)
Definition admitted (f : gmap PurePath Node) (p : string) : bool :=
  OsPath.isfile f p && is_image_file guess_type p.

(** A regular file they turn down. *)
Definition turned_down (f : gmap PurePath Node) (p : string) : bool :=
  OsPath.isfile f p && negb (is_image_file guess_type p).

Definition act (a : UserAction) (st : list string * UI.t) : list string * UI.t :=
  match a with
  | AddFiles f files => add_files guess_type f files (fst st) (snd st)
  | RemoveFile file_path => remove_file file_path (fst st) (snd st)
  | ClearFiles result => clear_files result (fst st) (snd st)
  end.

Definition session (actions : list UserAction) : list string * UI.t :=
  fold_left (fun st a => act a st) actions ([], initial_ui).

End Session.

(** ** [ProgressTracker]

    [time.time()] is the argument [now] of the methods that read the
    clock. *)

(** [x / n] with a float [x] and an int [n]. *)
Definition float_div_int (x : float) (n : Z) : Res float :=
  if n =? 0 then Raise (ZeroDivisionError "float division by zero")
  else Ok (PrimFloat.div x (Binary64.of_int n)).

(** The truth value of an [Optional[float]]: [None] and [0.0] are false. *)
Definition truthy_time (t : option float) : bool :=
  match t with
  | Some x => negb (PrimFloat.eqb x PrimFloat.zero)
  | None => false
  end.

Module ProgressTracker.

Record t := mk {
  total_files : Z;
  processed_files : Z;
  successful_conversions : Z;
  failed_conversions : Z;
  current_file : string;
  start_time : option float;
  end_time : option float
}.

Definition reset (self : t) : t :=
  {| total_files := 0; processed_files := 0; successful_conversions := 0;
     failed_conversions := 0; current_file := ""; start_time := None;
     end_time := None |}.

Definition set_total_files (count : Z) (self : t) : t :=
  {| total_files := count; processed_files := processed_files self;
     successful_conversions := successful_conversions self;
     failed_conversions := failed_conversions self;
     current_file := current_file self; start_time := start_time self;
     end_time := end_time self |}.

Definition start_processing (now : float) (self : t) : t :=
  {| total_files := total_files self; processed_files := processed_files self;
     successful_conversions := successful_conversions self;
     failed_conversions := failed_conversions self;
     current_file := current_file self; start_time := Some now;
     end_time := end_time self |}.

Definition update_current_file (filename : string) (self : t) : t :=
  {| total_files := total_files self; processed_files := processed_files self;
     successful_conversions := successful_conversions self;
     failed_conversions := failed_conversions self;
     current_file := filename; start_time := start_time self;
     end_time := end_time self |}.

Definition mark_file_processed (success : bool) (self : t) : t :=
  {| total_files := total_files self;
     processed_files := processed_files self + 1;
     successful_conversions :=
       if success then successful_conversions self + 1 else successful_conversions self;
     failed_conversions :=
       if success then failed_conversions self else failed_conversions self + 1;
     current_file := current_file self; start_time := start_time self;
     end_time := end_time self |}.

Definition finish_processing (now : float) (self : t) : t :=
  {| total_files := total_files self; processed_files := processed_files self;
     successful_conversions := successful_conversions self;
     failed_conversions := failed_conversions self;
     current_file := current_file self; start_time := start_time self;
     end_time := Some now |}.

Definition get_progress_percentage (self : t) : Res float :=
  if total_files self =? 0 then Ok 0%float
  else
    res_bind (int_truediv (processed_files self) (total_files self))
      (fun r => Ok (PrimFloat.mul r (Binary64.of_int 100))).

Definition get_estimated_time_remaining (now : float) (self : t) : Res (option float) :=
  if negb (truthy_time (start_time self)) || (processed_files self =? 0) then Ok None
  else
    let elapsed_time := PrimFloat.sub now (default PrimFloat.zero (start_time self)) in
    res_bind (float_div_int elapsed_time (processed_files self))
      (fun avg_time_per_file =>
         let remaining_files := total_files self - processed_files self in
         Ok (Some (PrimFloat.mul avg_time_per_file (Binary64.of_int remaining_files)))).

(** The dictionary of [get_summary]; the last three keys are there or
    not. *)
Record Summary := mkSummary {
  s_total_files : Z;
  s_processed_files : Z;
  s_successful_conversions : Z;
  s_failed_conversions : Z;
  s_success_rate : float;
  s_current_file : string;
  s_total_time : option float;
  s_avg_time_per_file : option float;
  s_elapsed_time : option float
}.

Definition get_summary (now : float) (self : t) : Res Summary :=
  res_bind (int_truediv (successful_conversions self) (Z.max (total_files self) 1))
    (fun r =>
       let success_rate := PrimFloat.mul r (Binary64.of_int 100) in
       if truthy_time (start_time self) && truthy_time (end_time self) then
         let total_time :=
           PrimFloat.sub (default PrimFloat.zero (end_time self))
                         (default PrimFloat.zero (start_time self)) in
         res_bind (float_div_int total_time (Z.max (processed_files self) 1))
           (fun avg =>
              Ok (mkSummary (total_files self) (processed_files self)
                    (successful_conversions self) (failed_conversions self)
                    success_rate (current_file self) (Some total_time) (Some avg) None))
       else if truthy_time (start_time self) then
         Ok (mkSummary (total_files self) (processed_files self)
               (successful_conversions self) (failed_conversions self)
               success_rate (current_file self) None None
               (Some (PrimFloat.sub now (default PrimFloat.zero (start_time self)))))
       else
         Ok (mkSummary (total_files self) (processed_files self)
               (successful_conversions self) (failed_conversions self)
               success_rate (current_file self) None None None)).

(** A method call that changes the tracker. *)
Inductive Call :=
| Reset
| SetTotalFiles (count : Z)
| StartProcessing (now : float)
| UpdateCurrentFile (filename : string)
| MarkFileProcessed (success : bool)
| FinishProcessing (now : float).

Definition call (c : Call) (self : t) : t :=
  match c with
  | Reset => reset self
  | SetTotalFiles count => set_total_files count self
  | StartProcessing now => start_processing now self
  | UpdateCurrentFile filename => update_current_file filename self
  | MarkFileProcessed success => mark_file_processed success self
  | FinishProcessing now => finish_processing now self
  end.

(** [ProgressTracker()] followed by the calls, in order. *)
Definition after (calls : list Call) : t :=
  fold_left (fun self c => call c self) calls (reset (mk 0 0 0 0 "" None None)).

(** The files marked since the last [reset], successes and failures. *)
Fixpoint marked (calls : list Call) (acc : Z * Z) : Z * Z :=
  match calls with
  | [] => acc
  | Reset :: rest => marked rest (0, 0)
  | MarkFileProcessed true :: rest => marked rest (fst acc + 1, snd acc)
  | MarkFileProcessed false :: rest => marked rest (fst acc, snd acc + 1)
  | _ :: rest => marked rest acc
  end.

End ProgressTracker.

(** ** [ConversionHistory]

    [datetime.datetime.now()] is the argument [now]. *)

Module ConversionHistory.

Record Entry := mkEntry {
  timestamp : Z;
  source_path : string;
  target_path : string;
  source_filename : string;
  target_filename : string;
  success : bool;
  conversion_time : float;
  file_size_before : Z;
  file_size_after : Z;
  compression_ratio : float
}.

(** The arguments of one [add_conversion] call, with the clock. *)
Record Args := mkArgs {
  a_now : Z;
  a_source_path : string;
  a_target_path : string;
  a_success : bool;
  a_conversion_time : float;
  a_file_size_before : Z;
  a_file_size_after : Z
}.

(** [l[-n:]] for a positive [n]. *)
Definition last_n {A} (n : nat) (l : list A) : list A :=
  drop (length l - n) l.

(** The [entry] dictionary. *)
Definition make_entry (a : Args) : Res Entry :=
  res_bind
    (if 0 <? a_file_size_before a
     then int_truediv (a_file_size_after a) (a_file_size_before a)
     else Ok 1%float)
    (fun ratio =>
       Ok {| timestamp := a_now a;
             source_path := a_source_path a;
             target_path := a_target_path a;
             source_filename := PyPath.basename (a_source_path a);
             target_filename := PyPath.basename (a_target_path a);
             success := a_success a;
             conversion_time := a_conversion_time a;
             file_size_before := a_file_size_before a;
             file_size_after := a_file_size_after a;
             compression_ratio := ratio |}).

(** [ConversionHistory.add_conversion] *)
Definition add_conversion (a : Args) (history : list Entry) : Res (list Entry) :=
  res_bind (make_entry a)
    (fun entry =>
       let history := history ++ [entry] in
       if (100 <? Z.of_nat (length history)) then Ok (last_n 100 history)
       else Ok history).

(** The calls of a list, in order, from the history given. *)
Fixpoint add_all (calls : list Args) (history : list Entry) : Res (list Entry) :=
  match calls with
  | [] => Ok history
  | a :: rest => res_bind (add_conversion a history) (add_all rest)
  end.

End ConversionHistory.

(** ** The specification's wording

    Definitions that follow the specification rather than the source,
    for the comparisons below. *)

Module Spec.

(** [round(x)]: to the nearest integer, a tie to the even one. *)
Definition round (q : Q) : Z :=
  let f := Qfloor q in
  match Qcompare (q - inject_Z f) (1 # 2) with
  | Lt => f
  | Gt => f + 1
  | Eq => if Z.even f then f else f + 1
  end.

(** scale factor = min(target_width/source_width, target_height/source_height) *)
Definition scale (size target : Z * Z) : Q :=
  Qmin (inject_Z (fst target) / inject_Z (fst size))
       (inject_Z (snd target) / inject_Z (snd size)).

(** new_width = round(source_width x scale), new_height = round(source_height x scale) *)
Definition resize_dimensions (size target : Z * Z) : Z * Z :=
  (round (inject_Z (fst size) * scale size target),
   round (inject_Z (snd size) * scale size target)).

(** Transparency normalization, then orientation correction, then the
    optional resize: the image the specification hands to the encoder. *)
Definition process (img : Image) (output_format : string) (resize : bool)
    (resize_dimensions : option (Z * Z)) : Res Image :=
  let normalized := _handle_transparency img output_format in
  let upright := Transposed normalized in
  match resize, resize_dimensions with
  | true, Some dims => _resize_image upright dims
  | _, _ => Ok upright
  end.

(** directory/stem.format for [k = 0], directory/stem_k.format for [k >= 1]. *)
Definition candidate (directory : PurePath) (stem format : string) (k : nat) : PurePath :=
  match k with
  | O => directory ++ [stem +:+ "." +:+ format]
  | S _ => directory ++ [stem +:+ "_" +:+ pretty (Z.of_nat k) +:+ "." +:+ format]
  end.

(** The error kinds of the specification's taxonomy. *)
Inductive ErrorKind :=
| InputNotFound
| UnsupportedInput
| UnsupportedOutput
| DecodeError
| EncodeError
| IOError.

(** The kind the taxonomy gives a call that stops at one of the gates
    before any path is computed: existence, input format, output format
    ([None] for a call that passes them). *)
Definition gate_kind (w : World) (input_path : string) (settings : Settings.t)
    : option ErrorKind :=
  if negb (PyStr.truthy input_path && FS.path_exists (fs w) (PyPath.Path input_path))
  then Some InputNotFound
  else if negb (bool_decide (PyStr.lower (PyPath.suffix (PyPath.Path input_path))
                               ∈ SUPPORTED_INPUT_FORMATS))
  then Some UnsupportedInput
  else match SUPPORTED_OUTPUT_FORMATS
               !! PyStr.lower (default "png" (Settings.output_format settings)) with
       | None => Some UnsupportedOutput
       | Some _ => None
       end.

Definition is_progress (m : Message) : bool :=
  match m with Progress _ _ => true | _ => false end.

Definition is_terminal (m : Message) : bool :=
  match m with Complete _ _ | ErrorMessage _ => true | Progress _ _ => false end.

(** One "progress" message per file, then exactly one terminal message. *)
Definition queue_shape (files : list string) (q : list Message) : bool :=
  (length q =? S (length files))%nat
  && forallb is_progress (take (length files) q)
  && forallb is_terminal (drop (length files) q).

(** A source whose pixel mode carries an alpha channel (RGBA or LA) or a
    palette transparency index (P with transparency). *)
Definition carries_transparency (img : Image) : Prop :=
  Img.mode img = "RGBA" \/ Img.mode img = "LA"
  \/ (Img.mode img = "P" /\ Img.has_transparency_info img = true).

(** A single path component: no separator, and neither empty nor a dot. *)
Definition simple_name (n : string) : Prop :=
  PyStr.contains "/" n = false /\ (2 <= String.length n)%nat.

(** The pure extension-membership test. *)
Definition is_image_file (file_path : string) : bool :=
  bool_decide (PyStr.lower (PyPath.suffix (PyPath.Path file_path)) ∈ IMAGE_EXTENSIONS).

End Spec.

(** ** Auxiliary definitions for the statements *)

(** What [_save_image] hands the encoder of a Pillow format. *)
Definition encoder_input (pil_format : string) (img : Image) : Image :=
  if String.eqb pil_format "JPEG" && negb (String.eqb (Img.mode img) "RGB")
  then Converted img "RGB" else img.

(** The optional resize of [convert_image]. *)
Definition resize_step (settings : Settings.t) (img : Image) : Res Image :=
  match default false (Settings.resize settings), Settings.resize_dimensions settings with
  | true, Some dims => _resize_image img dims
  | _, _ => Ok img
  end.

(** The records [convert_image] logs on a failure. *)
Definition failure_record (m : LogMsg) : bool :=
  match m with
  | InputDoesNotExist _ | UnsupportedInputFormat _ | UnsupportedOutputFormat _
  | ErrorSaving _ _ | ErrorConverting _ _ => true
  | _ => false
  end.

(** The "progress" message put before the file at index [i]. *)
Definition progress_message (total_files i : Z) (file_path : string) : Message :=
  Progress (fdiv (float_of_int i) (float_of_int total_files))
           ("Converting " +:+ PyPath.basename file_path +:+ "...").

Fixpoint progress_messages (total_files i : Z) (files : list string) : list Message :=
  match files with
  | [] => []
  | file_path :: rest =>
      progress_message total_files i file_path :: progress_messages total_files (i + 1) rest
  end.

(** The final "progress" message. *)
Definition summary_message (total_files : Z) (tally : Tally) : Message :=
  Progress 1%float
    ("Conversion complete: " +:+ pretty (successful_conversions tally)
       +:+ "/" +:+ pretty total_files +:+ " successful").

Definition tally0 : Tally := {| successful_conversions := 0; failed_conversions := [] |}.

(** ** Data for the examples *)

Definition all_codecs : string -> Image -> bool := fun _ _ => true.

Definition photo : Image := Decoded "RGB" (1600, 800) false 6 "pixels".

Definition w_photo : World :=
  {| fs := list_to_map [ (["pics"], Dir);
                         (["pics"; "photo.jpg"], File (Some photo));
                         (["pics"; "broken.png"], File None) ];
     log := []; queue := [] |}.

Definition to_png : Settings.t :=
  Settings.mk (Some "PNG") None None None None.
Definition to_xyz : Settings.t :=
  Settings.mk (Some "xyz") None None None None.
Definition to_png_800_600 : Settings.t :=
  Settings.mk (Some "png") None (Some true) (Some (800, 600)) None.

Definition w_taken : World :=
  {| fs := list_to_map [ (["out"], Dir);
                         (["out"; "name.png"], File None);
                         (["out"; "name_1.png"], File None) ];
     log := []; queue := [] |}.

Definition no_int : string -> option Z := fun _ => None.
Definition no_strip : string -> string := fun s => s.

Definition batch (files : list string) : App.t :=
  {| App.file_list := files;
     App.output_format := "PNG";
     App.output_folder := "Same as input";
     App.resize_option := false;
     App.resize_width := "1920";
     App.resize_height := "1080";
     App.quality_option := false;
     App.quality_value := "95" |}.

Definition three_files : list string :=
  ["pics/photo.jpg"; "pics/broken.png"; "pics/photo.jpg"].

Definition after_first : Tally * World :=
  match for_each_file all_codecs no_int no_strip (batch three_files) 3 0
          ["pics/photo.jpg"] tally0 w_photo with
  | (Ok t, w) => (t, w)
  | (Raise _, w) => (tally0, w)
  end.

Definition to_jpg_q0 : Settings.t :=
  Settings.mk (Some "JPG") None None None (Some 0).
Definition to_png_800_0 : Settings.t :=
  Settings.mk (Some "png") (Some "out") (Some true) (Some (800, 0)) None.

Definition batch_q (files : list string) (output_format quality_value : string) : App.t :=
  {| App.file_list := files;
     App.output_format := output_format;
     App.output_folder := "Same as input";
     App.resize_option := false;
     App.resize_width := "1920";
     App.resize_height := "1080";
     App.quality_option := true;
     App.quality_value := quality_value |}.

(** An [int] for the examples: the decimal numerals up to three digits
    that the examples use. *)
Definition small_int : string -> option Z := fun s =>
  if String.eqb s "250" then Some 250
  else if String.eqb s "80" then Some 80
  else if String.eqb s "0" then Some 0
  else None.

Definition batch_resize (files : list string) (resize_width resize_height : string) : App.t :=
  {| App.file_list := files;
     App.output_format := "PNG";
     App.output_folder := "Same as input";
     App.resize_option := true;
     App.resize_width := resize_width;
     App.resize_height := resize_height;
     App.quality_option := false;
     App.quality_value := "95" |}.

(** * Properties *)

(** ** Worked examples *)

Example suffix_upper : PyStr.lower (PyPath.suffix (PyPath.Path "/home/u/Photo.JPG")) = ".jpg".
Proof. reflexivity. Qed.

Example stem_dotfile : PyPath.stem (PyPath.Path "a/.bashrc") = ".bashrc".
Proof. reflexivity. Qed.

Example path_normalised : PyPath.Path "/a//b/./c.png" = ["/"; "a"; "b"; "c.png"].
Proof. reflexivity. Qed.

Example basename_ex : PyPath.basename "/a/b/c.png" = "c.png".
Proof. reflexivity. Qed.

Example int_of_float_trunc :
  map Binary64.to_int [2.75%float; (-2.75)%float; 800%float; 0.5%float] = [2; -2; 800; 0].
Proof. vm_compute. reflexivity. Qed.

Example resize_4_3 : resize_target (F := float) (1600, 1200) (800, 600) = Ok (800, 600).
Proof. vm_compute. reflexivity. Qed.

Example resize_2_1 : resize_target (F := float) (1600, 800) (800, 800) = Ok (800, 400).
Proof. vm_compute. reflexivity. Qed.

Example resize_narrow_float : resize_target (F := float) (1, 49) (1, 49) = Ok (0, 49).
Proof. vm_compute. reflexivity. Qed.

(** In binary64 the quotient [9 / (9/7)] falls just below 7: the float
    instance truncates to 6 where exact arithmetic gives 7. *)
Example resize_float_below_exact :
  resize_target (F := float) (9, 7) (9, 8) = Ok (9, 6)
  /\ resize_target (F := Q) (9, 7) (9, 8) = Ok (9, 7).
Proof. split; vm_compute; reflexivity. Qed.

Example transparency_rgba_jpeg :
  _handle_transparency (Decoded "RGBA" (4, 4) false 1 "px") "jpeg"
  = Pasted (New "RGB" (4, 4) "white") (Decoded "RGBA" (4, 4) false 1 "px")
      (LastBand (Decoded "RGBA" (4, 4) false 1 "px")).
Proof. vm_compute. reflexivity. Qed.

Example transparency_png_keeps_alpha :
  _handle_transparency (Decoded "RGBA" (4, 4) false 1 "px") "png"
  = Decoded "RGBA" (4, 4) false 1 "px".
Proof. vm_compute. reflexivity. Qed.

(** ** File classification and transparency *)

(** Claim C9.  [is_image_file] returns true exactly when the path's
    lower-cased extension is in [IMAGE_EXTENSIONS]: whatever
    [mimetypes.guess_type] answers, the result is that of the pure
    extension-membership test. *)
Theorem is_image_file_is_extension_test (guess_type : string -> option string * option string)
    (file_path : string) :
  is_image_file guess_type file_path = Spec.is_image_file file_path.
Proof.
  unfold is_image_file, Spec.is_image_file.
  destruct (bool_decide _) eqn:Hext; simpl; [|reflexivity].
  destruct (guess_type file_path) as [[m|] enc]; [|reflexivity].
  destruct (PyStr.truthy m && bool_decide (m ∈ IMAGE_MIME_TYPES)); reflexivity.
Qed.

(** Claim C4.  When the destination format does not support transparency
    and the image carries it (mode RGBA or LA, or mode P with a
    transparency entry), the step pastes the image (converted to RGBA
    first for mode P) onto a new white RGB image of the same size with its
    last band, the alpha channel, as mask, and the result has mode RGB;
    when the destination supports transparency or the image carries none,
    the image is returned unchanged. *)


(** ** Resizing *)

Lemma inject_Z_pos (z : Z) : 1 <= z -> (0 < inject_Z z)%Q.
Proof. intros H. unfold Qlt, inject_Z. simpl. lia. Qed.

Lemma to_int_nonneg (q : Q) : (0 <= q)%Q -> ExactQ.to_int q = Qfloor q.
Proof.
  intros H. unfold ExactQ.to_int.
  destruct (Qle_bool 0 q) eqn:E; [reflexivity|].
  apply Qle_bool_iff in H. congruence.
Qed.

Lemma Qdiv_pos (a b : Q) : (0 < a)%Q -> (0 < b)%Q -> (0 < a / b)%Q.
Proof.
  intros Ha Hb. unfold Qdiv. apply Qmult_lt_0_compat; [exact Ha|].
  apply Qinv_lt_0_compat. exact Hb.
Qed.

Lemma cross_le (a b c d : Q) :
  (0 < b)%Q -> (0 < d)%Q -> ((a / b <= c / d)%Q <-> (a * d <= c * b)%Q).
Proof.
  intros Hb Hd.
  assert (Hbd : (0 < b * d)%Q) by (apply Qmult_lt_0_compat; assumption).
  assert (E1 : (a / b * (b * d) == a * d)%Q) by (field; lra).
  assert (E2 : (c / d * (b * d) == c * b)%Q) by (field; lra).
  rewrite <- E1, <- E2. symmetry. apply Qmult_le_r. exact Hbd.
Qed.

Lemma ratio_order (sw sh tw th : Q) :
  (0 < sw)%Q -> (0 < sh)%Q -> (0 < tw)%Q -> (0 < th)%Q ->
  ((sw / sh <= tw / th)%Q <-> (th / sh <= tw / sw)%Q).
Proof.
  intros Hsw Hsh Htw Hth.
  rewrite (cross_le sw sh tw th), (cross_le th sh tw sw) by assumption.
  assert (E : (th * sw == sw * th)%Q) by ring. rewrite E. reflexivity.
Qed.




(** ** The output path *)

(** *** Strings *)

Lemma str_app_nil (b : string) : "" +:+ b = b.
Proof. reflexivity. Qed.

Lemma str_app_cons (x : ascii) (a b : string) : String x a +:+ b = String x (a +:+ b).
Proof. reflexivity. Qed.

Lemma str_length_app (a b : string) :
  String.length (a +:+ b) = (String.length a + String.length b)%nat.
Proof.
  induction a as [|c a IH]; [reflexivity|].
  rewrite str_app_cons. simpl. now rewrite IH.
Qed.

Lemma str_app_cancel_r (a b c : string) : a +:+ c = b +:+ c -> a = b.
Proof.
  revert b. induction a as [|x a IH]; intros [|y b] H.
  - reflexivity.
  - exfalso. apply (f_equal String.length) in H.
    rewrite !str_length_app in H. simpl in H. lia.
  - exfalso. apply (f_equal String.length) in H.
    rewrite !str_length_app in H. simpl in H. lia.
  - rewrite !str_app_cons in H. injection H as -> H. f_equal. now apply IH.
Qed.

Lemma contains_app (c : ascii) (a b : string) :
  PyStr.contains c (a +:+ b) = PyStr.contains c a || PyStr.contains c b.
Proof.
  induction a as [|x a IH]; [reflexivity|].
  rewrite str_app_cons. simpl. rewrite IH. now rewrite orb_assoc.
Qed.

Lemma contains_take (c : ascii) (i : nat) (s : string) :
  PyStr.contains c s = false -> PyStr.contains c (PyStr.take i s) = false.
Proof.
  revert i. induction s as [|x s IH]; intros [|i] H; simpl in *; try reflexivity.
  apply orb_false_iff in H as [Hx Hs]. rewrite Hx. simpl. now apply IH.
Qed.

Lemma split_components (sep : ascii) (s : string) :
  Forall (fun c => PyStr.contains sep c = false) (PyStr.split sep s).
Proof.
  induction s as [|a s IH]; simpl.
  - repeat constructor.
  - destruct (Ascii.eqb a sep) eqn:E.
    + constructor; [reflexivity|exact IH].
    + destruct (PyStr.split sep s) as [|h r].
      * repeat constructor. simpl. now rewrite E.
      * inversion IH; subst. constructor; [|assumption]. simpl. now rewrite E.
Qed.

Lemma split_whole (sep : ascii) (s : string) :
  PyStr.contains sep s = false -> PyStr.split sep s = [s].
Proof.
  induction s as [|a s IH]; simpl; intros H; [reflexivity|].
  apply orb_false_iff in H as [Ha Hs]. rewrite Ha, (IH Hs). reflexivity.
Qed.

(** Decimal digits are no separators. *)
Lemma pretty_N_go_no_slash (x : N) (s : string) :
  PyStr.contains "/" s = false -> PyStr.contains "/" (pretty_N_go x s) = false.
Proof.
  revert s. induction (N.lt_wf_0 x) as [x _ IH]. intros s Hs.
  destruct (N.eq_dec x 0%N) as [->|Hx].
  - now rewrite pretty_N_go_0.
  - rewrite pretty_N_go_step by lia. apply IH.
    + apply N.div_lt; lia.
    + simpl. rewrite Hs.
      unfold pretty_N_char. repeat case_match; reflexivity.
Qed.

Lemma pretty_Z_no_slash (k : nat) : PyStr.contains "/" (pretty (Z.of_nat k)) = false.
Proof.
  unfold pretty, pretty_Z. destruct (Z.of_nat k) eqn:E; [reflexivity| |lia].
  unfold pretty, pretty_positive, pretty, pretty_N.
  case_decide; [reflexivity|]. now apply pretty_N_go_no_slash.
Qed.

(** *** Paths *)

Lemma joinpath_simple (p : PurePath) (n : string) :
  Spec.simple_name n -> PyPath.joinpath p n = p ++ [n].
Proof.
  intros [Hs Hl]. unfold PyPath.joinpath.
  assert (PyStr.startswith "/" n = false) as ->.
  { destruct n as [|a n]; [reflexivity|]. simpl in *.
    now apply orb_false_iff in Hs as [-> _]. }
  rewrite split_whole by exact Hs. simpl.
  assert (PyPath.is_component n = true) as ->; [|reflexivity].
  destruct n as [|a [|b n]]; simpl in Hl; try lia.
  unfold PyPath.is_component. simpl. destruct (Ascii.eqb a "."); reflexivity.
Qed.

Lemma simple_name_not_root (p : PurePath) (n : string) :
  Spec.simple_name n -> PyPath.is_root (p ++ [n]) = false.
Proof.
  intros [Hs Hl]. destruct p as [|a [|b p]]; simpl.
  - destruct (String.eqb_spec n "/") as [->|]; [simpl in Hl; lia|reflexivity].
  - reflexivity.
  - reflexivity.
Qed.

Lemma parent_snoc (p : PurePath) (n : string) :
  Spec.simple_name n -> PyPath.parent (p ++ [n]) = p.
Proof.
  intros H. unfold PyPath.parent. rewrite simple_name_not_root by exact H.
  apply removelast_last.
Qed.

Lemma last_no_slash (l : list string) :
  Forall (fun c => PyStr.contains "/" c = false) l ->
  PyStr.contains "/" (List.last l "") = false.
Proof.
  induction l as [|a [|b l] IH]; intros H; simpl; [reflexivity| |].
  - now inversion H.
  - inversion H; subst. now apply IH.
Qed.

Lemma name_of_Path_no_slash (s : string) :
  PyStr.contains "/" (PyPath.name (PyPath.Path s)) = false.
Proof.
  assert (Hf : Forall (fun c => PyStr.contains "/" c = false)
                 (List.filter PyPath.is_component (PyStr.split "/" s))).
  { apply Forall_forall. intros c Hc. apply list_elem_of_In, filter_In in Hc as [Hc _].
    pose proof (split_components "/" s) as H. rewrite Forall_forall in H.
    apply H. apply list_elem_of_In. exact Hc. }
  unfold PyPath.name. destruct (PyPath.is_root (PyPath.Path s)) eqn:Hr; [reflexivity|].
  unfold PyPath.Path in *. destruct (PyStr.startswith "/" s); simpl in *.
  - destruct (List.filter PyPath.is_component (PyStr.split "/" s)) as [|a l] eqn:E.
    + discriminate.
    + apply (last_no_slash (a :: l)). exact Hf.
  - apply last_no_slash. exact Hf.
Qed.

Lemma stem_of_Path_no_slash (s : string) :
  PyStr.contains "/" (PyPath.stem (PyPath.Path s)) = false.
Proof.
  unfold PyPath.stem. pose proof (name_of_Path_no_slash s) as H.
  destruct (PyPath.splits_at _); [now apply contains_take|exact H].
Qed.

(** *** The free-name search *)

Lemma supported_format_cases (output_format : string) :
  is_Some (SUPPORTED_OUTPUT_FORMATS !! output_format) ->
  output_format ∈ ["png"; "jpg"; "jpeg"; "webp"; "tiff"; "bmp"; "gif"; "ico"].
Proof.
  intros [x Hx]. unfold SUPPORTED_OUTPUT_FORMATS in Hx.
  apply elem_of_list_to_map_2 in Hx.
  repeat (apply elem_of_cons in Hx as [Hx|Hx]; [injection Hx as -> _; set_solver|]).
  now apply elem_of_nil in Hx.
Qed.

Lemma supported_format_simple (output_format : string) :
  is_Some (SUPPORTED_OUTPUT_FORMATS !! output_format) ->
  PyStr.contains "/" output_format = false /\ (1 <= String.length output_format)%nat.
Proof.
  intros H. apply supported_format_cases in H.
  repeat (apply elem_of_cons in H as [->|H]; [split; [reflexivity|simpl; lia]|]).
  now apply elem_of_nil in H.
Qed.

Section Candidates.

Variable directory : PurePath.
Variable base_name : string.
Variable output_format : string.
Hypothesis base_ok : PyStr.contains "/" base_name = false.
Hypothesis format_ok : is_Some (SUPPORTED_OUTPUT_FORMATS !! output_format).

Let extension := "." +:+ output_format.

Lemma first_name_simple : Spec.simple_name (base_name +:+ extension).
Proof.
  destruct (supported_format_simple _ format_ok) as [Hc Hl]. split.
  - subst extension. rewrite !contains_app, base_ok, Hc. reflexivity.
  - subst extension. rewrite !str_length_app. simpl. lia.
Qed.

Lemma numbered_name_simple (k : nat) :
  Spec.simple_name (base_name +:+ "_" +:+ pretty (Z.of_nat k) +:+ extension).
Proof.
  destruct (supported_format_simple _ format_ok) as [Hc Hl]. split.
  - subst extension. rewrite !contains_app, base_ok, Hc, pretty_Z_no_slash. reflexivity.
  - subst extension. rewrite !str_length_app. simpl. lia.
Qed.

Lemma candidate_0 :
  PyPath.joinpath directory (base_name +:+ extension)
  = Spec.candidate directory base_name output_format 0.
Proof. rewrite joinpath_simple by apply first_name_simple. reflexivity. Qed.

Lemma candidate_parent (k : nat) :
  PyPath.parent (Spec.candidate directory base_name output_format k) = directory.
Proof.
  destruct k; simpl; apply parent_snoc.
  - apply first_name_simple.
  - apply numbered_name_simple.
Qed.

Lemma candidate_next (k : nat) :
  PyPath.joinpath (PyPath.parent (Spec.candidate directory base_name output_format k))
    (base_name +:+ "_" +:+ pretty (Z.of_nat k + 1) +:+ extension)
  = Spec.candidate directory base_name output_format (S k).
Proof.
  replace (Z.of_nat k + 1) with (Z.of_nat (S k)) by lia.
  rewrite candidate_parent.
  rewrite joinpath_simple by apply numbered_name_simple. reflexivity.
Qed.

Lemma candidate_inj (i j : nat) :
  Spec.candidate directory base_name output_format i
  = Spec.candidate directory base_name output_format j -> i = j.
Proof.
  destruct i as [|i], j as [|j]; simpl; intros H; [reflexivity| | |].
  - apply app_inv_head in H. injection H as H. apply String.app_inj in H.
    apply (f_equal String.length) in H. rewrite !str_length_app in H. simpl in H. lia.
  - apply app_inv_head in H. injection H as H. apply String.app_inj in H.
    apply (f_equal String.length) in H. rewrite !str_length_app in H. simpl in H. lia.
  - apply app_inv_head in H. injection H as H. apply String.app_inj in H.
    apply (String.app_inj "_") in H. apply str_app_cancel_r in H.
    apply pretty_Z_inj in H. lia.
Qed.

Lemma candidate_lookup (f : gmap PurePath Node) (k : nat) :
  FS.lookup f (Spec.candidate directory base_name output_format k)
  = f !! Spec.candidate directory base_name output_format k.
Proof.
  unfold FS.lookup.
  assert (PyPath.is_root (Spec.candidate directory base_name output_format k) = false) as ->.
  { destruct k; simpl; apply simple_name_not_root.
    - apply first_name_simple.
    - apply numbered_name_simple. }
  destruct (Spec.candidate directory base_name output_format k) eqn:E; [|reflexivity].
  destruct k; simpl in E; now destruct directory.
Qed.

(** The loop walks the candidates in order and stops at the first free one. *)
Lemma next_free_finds (f : gmap PurePath Node) (d k n : nat) :
  (forall i, (k <= i < k + d)%nat ->
     FS.path_exists f (Spec.candidate directory base_name output_format i) = true) ->
  FS.path_exists f (Spec.candidate directory base_name output_format (k + d)) = false ->
  (d < n)%nat ->
  next_free n f base_name extension
    (Spec.candidate directory base_name output_format k) (Z.of_nat k + 1)
  = Some (Spec.candidate directory base_name output_format (k + d)).
Proof.
  revert k n. induction d as [|d IH]; intros k n Hbusy Hfree Hn.
  - destruct n as [|n]; [lia|]. simpl. rewrite Nat.add_0_r in Hfree. rewrite Hfree.
    now rewrite Nat.add_0_r.
  - destruct n as [|n]; [lia|]. simpl.
    rewrite (Hbusy k) by lia. rewrite candidate_next.
    replace (Z.of_nat k + 1 + 1) with (Z.of_nat (S k) + 1) by lia.
    replace (k + S d)%nat with (S k + d)%nat in * by lia.
    apply IH; [|exact Hfree|lia]. intros i Hi. apply Hbusy. lia.
Qed.

(** Some candidate among the first [size f + 1] is free. *)
Lemma some_candidate_free (f : gmap PurePath Node) :
  exists k, (k <= size f)%nat
    /\ FS.path_exists f (Spec.candidate directory base_name output_format k) = false.
Proof.
  set (cand := Spec.candidate directory base_name output_format).
  destruct (forallb (fun k => FS.path_exists f (cand k)) (seq 0 (S (size f)))) eqn:Hall.
  - exfalso. rewrite forallb_forall in Hall.
    set (l := cand <$> seq 0 (S (size f))).
    assert (Hnd : NoDup l).
    { apply NoDup_fmap_2_strong; [|apply NoDup_seq].
      intros i j _ _ Hij. now apply candidate_inj. }
    assert (Hsub : (list_to_set l : gset PurePath) ⊆ dom f).
    { intros p Hp. apply elem_of_list_to_set in Hp.
      apply list_elem_of_fmap in Hp as [k [-> Hk]].
      apply list_elem_of_In in Hk. specialize (Hall _ Hk).
      unfold FS.path_exists in Hall. subst cand. rewrite candidate_lookup in Hall.
      apply elem_of_dom. destruct (f !! _); [eauto|discriminate]. }
    apply subseteq_size in Hsub.
    rewrite size_list_to_set in Hsub by exact Hnd.
    rewrite size_dom in Hsub. subst l. rewrite length_fmap, length_seq in Hsub. lia.
  - apply not_true_iff_false in Hall. 
    destruct (List.existsb (fun k => negb (FS.path_exists f (cand k))) (seq 0 (S (size f)))) eqn:Hex.
    + apply existsb_exists in Hex as [k [Hk Hf]]. apply in_seq in Hk.
      exists k. split; [lia|]. now apply negb_true_iff in Hf.
    + exfalso. apply Hall. apply forallb_forall. intros k Hk.
      destruct (FS.path_exists f (cand k)) eqn:E; [reflexivity|].
      assert (List.existsb (fun k => negb (FS.path_exists f (cand k))) (seq 0 (S (size f))) = true).
      { apply existsb_exists. exists k. rewrite E. auto. }
      congruence.
Qed.

(** Hence a least free candidate, within the bound. *)
Lemma least_candidate_free (f : gmap PurePath Node) :
  exists k, (k <= size f)%nat
    /\ FS.path_exists f (Spec.candidate directory base_name output_format k) = false
    /\ forall i, (i < k)%nat ->
         FS.path_exists f (Spec.candidate directory base_name output_format i) = true.
Proof.
  destruct (some_candidate_free f) as [k0 [Hk0 Hfree0]].
  revert Hk0 Hfree0. induction (lt_wf k0) as [k0 _ IH]. intros Hk0 Hfree0.
  destruct (forallb (fun i => FS.path_exists f
                      (Spec.candidate directory base_name output_format i)) (seq 0 k0)) eqn:Hall.
  - exists k0. split; [exact Hk0|]. split; [exact Hfree0|].
    intros i Hi. rewrite forallb_forall in Hall. apply Hall. apply in_seq. lia.
  - assert (exists i, (i < k0)%nat /\ FS.path_exists f
               (Spec.candidate directory base_name output_format i) = false) as [i [Hi Hf]].
    { clear IH Hfree0 Hk0. induction k0 as [|k IHk]; [discriminate|].
      rewrite seq_S, forallb_app in Hall. simpl in Hall.
      destruct (forallb _ (seq 0 k)) eqn:E.
      - exists k. split; [lia|]. simpl in Hall.
        destruct (FS.path_exists f _); [discriminate|reflexivity].
      - destruct (IHk eq_refl) as [i [Hi Hf]]. exists i. split; [lia|exact Hf]. }
    apply (IH i); [exact Hi|lia|exact Hf].
Qed.

Lemma next_free_terminates (f : gmap PurePath Node) :
  exists k, (k <= size f)%nat
    /\ next_free (S (size f)) f base_name extension
         (PyPath.joinpath directory (base_name +:+ extension)) 1
       = Some (Spec.candidate directory base_name output_format k)
    /\ FS.path_exists f (Spec.candidate directory base_name output_format k) = false
    /\ forall i, (i < k)%nat ->
         FS.path_exists f (Spec.candidate directory base_name output_format i) = true.
Proof.
  destruct (least_candidate_free f) as [k [Hk [Hfree Hbusy]]].
  exists k. split; [exact Hk|]. split; [|split; assumption].
  rewrite candidate_0.
  apply (next_free_finds f k 0 (S (size f))); [|exact Hfree|lia].
  intros i Hi. apply Hbusy. lia.
Qed.

End Candidates.

(** *** The monad *)

Lemma bind_ok {A B} (m : M A) (k : A -> M B) (w w' : World) (a : A) :
  m w = (Ok a, w') -> (m ≫= k) w = k a w'.
Proof. intros H. unfold mbind, M_bind. now rewrite H. Qed.

Lemma bind_raise {A B} (m : M A) (k : A -> M B) (w w' : World) (e : Exn) :
  m w = (Raise e, w') -> (m ≫= k) w = (Raise e, w').
Proof. intros H. unfold mbind, M_bind. now rewrite H. Qed.

Lemma mkdir_keeps_log_queue (p : PurePath) (w w' : World) (r : Res unit) :
  FS.mkdir p w = (r, w') -> log w' = log w /\ queue w' = queue w.
Proof.
  unfold FS.mkdir. intros H.
  destruct (match p with [] => _ | _ => _ end); injection H as <- <-; auto.
Qed.

(** Claim C3.  For a supported output format and an output directory that
    [mkdir] can provide, [_get_output_path] returns directory/stem.format
    when that path is free, and otherwise directory/stem_k.format for the
    least [k >= 1] whose path is free: the returned path does not exist, and
    every candidate before it does. *)
Theorem get_output_path_least_free (input : string) (output_format : string)
    (output_folder : option string) (w w1 : World) :
  is_Some (SUPPORTED_OUTPUT_FORMATS !! output_format) ->
  let input_path := PyPath.Path input in
  let directory := output_dir_for input_path output_folder in
  let candidate := Spec.candidate directory (PyPath.stem input_path) output_format in
  FS.mkdir directory w = (Ok tt, w1) ->
  exists k : nat,
    _get_output_path input_path output_format output_folder w = (Ok (candidate k), w1)
    /\ FS.path_exists (fs w1) (candidate k) = false
    /\ forall i, (i < k)%nat -> FS.path_exists (fs w1) (candidate i) = true.
Proof.
  intros Hfmt input_path directory candidate Hmk.
  destruct (next_free_terminates directory (PyPath.stem input_path) output_format
              (stem_of_Path_no_slash input) Hfmt (fs w1)) as [k [_ [Hnf [Hfree Hbusy]]]].
  exists k. split; [|split; assumption].
  unfold _get_output_path. fold input_path. fold directory.
  rewrite (bind_ok _ _ _ _ _ Hmk).
  unfold mbind, M_bind, get_world. fold input_path in Hnf. rewrite Hnf. reflexivity.
Qed.

Lemma get_output_path_least_free_witness :
  exists k : nat,
    _get_output_path (PyPath.Path "in/name.jpg") "png" (Some "out") w_taken
      = (Ok (Spec.candidate ["out"] "name" "png" k), w_taken)
    /\ FS.path_exists (fs w_taken) (Spec.candidate ["out"] "name" "png" k) = false
    /\ forall i, (i < k)%nat ->
         FS.path_exists (fs w_taken) (Spec.candidate ["out"] "name" "png" i) = true.
Proof.
  apply (get_output_path_least_free "in/name.jpg" "png" (Some "out") w_taken w_taken).
  - vm_compute. eauto.
  - vm_compute. reflexivity.
Defined.

Example third_free_name :
  fst (_get_output_path (PyPath.Path "in/name.jpg") "png" (Some "out") w_taken)
  = Ok ["out"; "name_2.png"].
Proof. vm_compute. reflexivity. Qed.

(** ** The conversion *)

Section ConverterFacts.

Variable encodable : string -> Image -> bool.

(** [_save_image] never raises: it writes one file and returns [True], or
    logs one error and returns [False] with the file system as it was. *)
Lemma save_image_cases (img : Image) (output_path : PurePath) (output_format : string)
    (quality : option Z) (w : World) :
  (exists pil kwargs,
      SUPPORTED_OUTPUT_FORMATS !! output_format = Some pil
      /\ _save_image encodable img output_path output_format quality w
         = (Ok true, set_fs (<[output_path := Written pil kwargs (encoder_input pil img)]> (fs w)) w))
  \/ (exists e,
      _save_image encodable img output_path output_format quality w
      = (Ok false, add_log (ERROR, ErrorSaving output_path e) w)).
Proof.
  unfold _save_image, try_except.
  destruct (SUPPORTED_OUTPUT_FORMATS !! output_format) as [pil|] eqn:Hpil.
  2:{ right. eexists. unfold mbind, M_bind, raise. simpl. reflexivity. }
  unfold mbind, M_bind, mret, M_ret. cbv beta iota.
  set (pr := if String.eqb pil "JPEG" then _ else _).
  assert (Hpr : fst pr = encoder_input pil img).
  { subst pr. unfold encoder_input.
    destruct (String.eqb pil "JPEG"); simpl.
    - destruct (negb (String.eqb (Img.mode img) "RGB")); reflexivity.
    - destruct (String.eqb pil "PNG"); [reflexivity|].
      destruct (String.eqb pil "WEBP"); [reflexivity|].
      destruct (String.eqb pil "TIFF"); reflexivity. }
  destruct pr as [img' kw]. simpl in Hpr. subst img'.
  unfold save.
  destruct (negb (FS.is_dir (fs w) (PyPath.parent output_path))).
  { right. eexists. reflexivity. }
  destruct (FS.is_dir (fs w) output_path).
  { right. eexists. reflexivity. }
  destruct (encodable pil (encoder_input pil img)).
  - left. exists pil, kw. split; reflexivity.
  - right. eexists. reflexivity.
Qed.

(** [convert_image] stage by stage: the three gates, then the output path,
    the decoding, the optional resize, the orientation and the encoding,
    with every exception turned into [False] and one error record. *)
Lemma convert_image_eq (input : string) (settings : Settings.t) (w : World) :
  let input_path := PyPath.Path input in
  let output_format := PyStr.lower (default "png" (Settings.output_format settings)) in
  convert_image encodable input settings w =
  if negb (PyStr.truthy input && FS.path_exists (fs w) input_path) then
    (Ok false, add_log (ERROR, InputDoesNotExist input) w)
  else if negb (bool_decide (PyStr.lower (PyPath.suffix input_path) ∈ SUPPORTED_INPUT_FORMATS)) then
    (Ok false, add_log (ERROR, UnsupportedInputFormat (PyPath.suffix input_path)) w)
  else
    match SUPPORTED_OUTPUT_FORMATS !! output_format with
    | None => (Ok false, add_log (ERROR, UnsupportedOutputFormat output_format) w)
    | Some _ =>
        match _get_output_path input_path output_format (Settings.output_folder settings) w with
        | (Raise e, w1) => (Ok false, add_log (ERROR, ErrorConverting input_path e) w1)
        | (Ok output_path, w1) =>
            match FS.open_image input_path w1 with
            | (Raise e, w2) => (Ok false, add_log (ERROR, ErrorConverting input_path e) w2)
            | (Ok img, w2) =>
                match resize_step settings (_handle_transparency img output_format) with
                | Raise e => (Ok false, add_log (ERROR, ErrorConverting input_path e) w2)
                | Ok resized =>
                    match _save_image encodable (Transposed resized) output_path
                            output_format (Settings.quality settings) w2 with
                    | (Ok true, w3) =>
                        (Ok true,
                         add_log (INFO, SuccessfullyConverted (PyPath.name input_path) output_path) w3)
                    | (Ok false, w3) => (Ok false, w3)
                    | (Raise e, w3) =>
                        (Ok false, add_log (ERROR, ErrorConverting input_path e) w3)
                    end
                end
            end
        end
    end.
Proof.
  intros input_path output_format.
  unfold convert_image, try_except, FS.os_path_exists, Logger.error, Logger.info, Logger.emit.
  unfold mbind, M_bind, mret, M_ret. cbv beta iota.
  fold input_path. fold output_format.
  destruct (negb (PyStr.truthy input && FS.path_exists (fs w) input_path)); [reflexivity|].
  destruct (negb (bool_decide _)); [reflexivity|].
  destruct (SUPPORTED_OUTPUT_FORMATS !! output_format); [|reflexivity].
  destruct (_get_output_path _ _ _ w) as [[output_path|e] w1]; [|reflexivity].
  destruct (FS.open_image input_path w1) as [[img|e] w2]; [|reflexivity].
  unfold resize_step, lift.
  destruct (default false (Settings.resize settings));
    destruct (Settings.resize_dimensions settings) as [dims|];
    try destruct (_resize_image _ dims); try reflexivity;
    destruct (_save_image _ _ _ _ _ w2) as [[[]|e] w3]; reflexivity.
Qed.

(** *** Frame properties *)

Lemma mkdir_from_keeps (rest : list string) (done : PurePath)
    (f f' : gmap PurePath Node) (p : PurePath) (n : Node) :
  FS.mkdir_from done rest f = Ok f' -> FS.lookup f p = Some n -> FS.lookup f' p = Some n.
Proof.
  revert done f. induction rest as [|c rest IH]; intros done f Hmk Hp; simpl in Hmk.
  - now injection Hmk as <-.
  - destruct (FS.lookup f (done ++ [c])) as [[]|] eqn:Hq; try discriminate.
    + eapply IH; eauto.
    + eapply IH; [exact Hmk|].
      unfold FS.lookup in *. destruct p as [|a p]; [exact Hp|].
      destruct (PyPath.is_root (a :: p)); [exact Hp|].
      rewrite lookup_insert_ne; [exact Hp|].
      intros E. rewrite <- E in Hp.
      destruct (done ++ [c]) as [|x y] eqn:Ed; [now destruct done|].
      destruct (PyPath.is_root (x :: y)); congruence.
Qed.

Lemma mkdir_keeps (d : PurePath) (w w' : World) (p : PurePath) (n : Node) :
  FS.mkdir d w = (Ok tt, w') -> FS.lookup (fs w) p = Some n -> FS.lookup (fs w') p = Some n.
Proof.
  unfold FS.mkdir. intros H Hp.
  destruct d as [|c rest].
  - injection H as <-. exact Hp.
  - destruct (String.eqb c "/").
    + destruct (FS.mkdir_from ["/"] rest (fs w)) eqn:E; [|discriminate].
      injection H as <-. simpl. eapply mkdir_from_keeps; eauto.
    + destruct (FS.mkdir_from [] (c :: rest) (fs w)) eqn:E; [|discriminate].
      injection H as <-. simpl. eapply mkdir_from_keeps; eauto.
Qed.

Lemma get_output_path_frame (input_path : PurePath) (output_format : string)
    (output_folder : option string) (w w1 : World) (r : Res PurePath) :
  _get_output_path input_path output_format output_folder w = (r, w1) ->
  log w1 = log w /\ queue w1 = queue w
  /\ (forall out, r = Ok out ->
        FS.mkdir (output_dir_for input_path output_folder) w = (Ok tt, w1)).
Proof.
  unfold _get_output_path, mbind, M_bind. intros H.
  destruct (FS.mkdir _ w) as [[[]|e] w0] eqn:Hmk.
  - destruct (mkdir_keeps_log_queue _ _ _ _ Hmk) as [Hl Hq].
    unfold get_world in H.
    destruct (next_free _ _ _ _ _ _); injection H as <- <-; repeat split; auto.
  - destruct (mkdir_keeps_log_queue _ _ _ _ Hmk) as [Hl Hq].
    injection H as <- <-. repeat split; auto. intros out [=].
Qed.

Lemma open_image_frame (p : PurePath) (w w' : World) (r : Res Image) :
  FS.open_image p w = (r, w') -> w' = w.
Proof.
  unfold FS.open_image. intros H.
  destruct (FS.lookup (fs w) p) as [[|[img|]|? ? img]|]; now injection H as <- <-.
Qed.

Lemma open_image_lookup (p : PurePath) (w w0 : World) (img : Image) :
  fst (FS.open_image p w) = Ok img ->
  (forall n, FS.lookup (fs w0) p = Some n -> FS.lookup (fs w) p = Some n) ->
  FS.lookup (fs w0) p <> None ->
  fst (FS.open_image p w0) = Ok img.
Proof.
  unfold FS.open_image. intros H Hk Hne.
  destruct (FS.lookup (fs w0) p) as [n|] eqn:E; [|congruence].
  rewrite (Hk n eq_refl) in H.
  destruct n as [|[i|]|? ? i]; simpl in *; congruence.
Qed.

End ConverterFacts.

Section ConverterTheorems.

Variable encodable : string -> Image -> bool.

(** Claim C7.  For an existing input with a supported extension, when the
    requested output format is not a key of [SUPPORTED_OUTPUT_FORMATS] the
    call returns [False] at the output-format gate (the specification's
    kind UnsupportedOutputFormat): its only effect is the error record
    handed to the logger, and the file system is exactly as before (no
    directory made, no file written). *)
Theorem unsupported_output_format_leaves_fs (input : string) (settings : Settings.t)
    (w : World) :
  fst (FS.os_path_exists input w) = Ok true ->
  PyStr.lower (PyPath.suffix (PyPath.Path input)) ∈ SUPPORTED_INPUT_FORMATS ->
  SUPPORTED_OUTPUT_FORMATS
    !! PyStr.lower (default "png" (Settings.output_format settings)) = None ->
  convert_image encodable input settings w
  = (Ok false,
     add_log (ERROR, UnsupportedOutputFormat
                       (PyStr.lower (default "png" (Settings.output_format settings)))) w)
  /\ fs (snd (convert_image encodable input settings w)) = fs w
  /\ Spec.gate_kind w input settings = Some Spec.UnsupportedOutput.
Proof.
  intros Hex Hin Hout. unfold FS.os_path_exists in Hex. simpl in Hex.
  injection Hex as Hex.
  assert (E : convert_image encodable input settings w
              = (Ok false,
                 add_log (ERROR, UnsupportedOutputFormat
                            (PyStr.lower (default "png" (Settings.output_format settings)))) w)).
  { rewrite convert_image_eq. cbv zeta. rewrite Hex.
    rewrite (bool_decide_eq_true_2 _ Hin), Hout. reflexivity. }
  split; [exact E|]. split.
  - rewrite E. reflexivity.
  - unfold Spec.gate_kind. rewrite Hex, (bool_decide_eq_true_2 _ Hin), Hout. reflexivity.
Qed.

(** [convert_image] always returns a boolean, never raises, leaves the
    queue alone and logs exactly one record. *)
Lemma convert_image_total (input : string) (settings : Settings.t) (w : World) :
  exists (b : bool) (w' : World),
    convert_image encodable input settings w = (Ok b, w')
    /\ queue w' = queue w
    /\ if b then exists n p, log w' = log w ++ [(INFO, SuccessfullyConverted n p)]
       else exists m, log w' = log w ++ [(ERROR, m)] /\ failure_record m = true.
Proof.
  rewrite convert_image_eq. cbv zeta.
  destruct (negb _).
  { exists false, (add_log (ERROR, InputDoesNotExist input) w). simpl. eauto. }
  destruct (negb _).
  { eexists false, _. split; [reflexivity|]. simpl. eauto. }
  destruct (SUPPORTED_OUTPUT_FORMATS !! _).
  2:{ eexists false, _. split; [reflexivity|]. simpl. eauto. }
  destruct (_get_output_path _ _ _ w) as [[output_path|e] w1] eqn:Hgo;
    destruct (get_output_path_frame _ _ _ _ _ _ Hgo) as [Hl [Hq _]].
  2:{ eexists false, _. split; [reflexivity|]. simpl. rewrite Hl, Hq. eauto. }
  destruct (FS.open_image _ w1) as [[img|e] w2] eqn:Hop;
    apply open_image_frame in Hop; subst w2.
  2:{ eexists false, _. split; [reflexivity|]. simpl. rewrite Hl, Hq. eauto. }
  destruct (resize_step _ _) as [resized|e].
  2:{ eexists false, _. split; [reflexivity|]. simpl. rewrite Hl, Hq. eauto. }
  destruct (save_image_cases encodable (Transposed resized) output_path
              (PyStr.lower (default "png" (Settings.output_format settings)))
              (Settings.quality settings) w1) as [[pil [kw [_ Hs]]]|[e Hs]]; rewrite Hs.
  - eexists true, _. split; [reflexivity|]. simpl. rewrite Hl, Hq. eauto.
  - eexists false, _. split; [reflexivity|]. simpl. rewrite Hl, Hq. eauto.
Qed.

(** Claim C6, as the code has it.  [convert_image] returns a bare boolean
    and never raises.  [True] comes with one INFO record, [False] with
    exactly one ERROR record, from one of the five failure templates; the
    cause of a failure is in that record and not in the returned value,
    which is [False] whatever the kind. *)
Theorem convert_image_returns_bare_bool (input : string) (settings : Settings.t) (w : World) :
  exists (b : bool) (w' : World),
    convert_image encodable input settings w = (Ok b, w')
    /\ queue w' = queue w
    /\ (if b then exists n p, log w' = log w ++ [(INFO, SuccessfullyConverted n p)]
        else exists m, log w' = log w ++ [(ERROR, m)] /\ failure_record m = true)
    /\ (forall kind, Spec.gate_kind w input settings = Some kind ->
          b = false /\ fs w' = fs w).
Proof.
  destruct (convert_image_total input settings w) as [b [w' [Hc [Hq Hlog]]]].
  exists b, w'. split; [exact Hc|]. split; [exact Hq|]. split; [exact Hlog|].
  intros kind Hk. rewrite convert_image_eq in Hc. cbv zeta in Hc.
  unfold Spec.gate_kind in Hk.
  destruct (negb (PyStr.truthy input && _)).
  { injection Hc as <- <-. split; reflexivity. }
  destruct (negb (bool_decide _)).
  { injection Hc as <- <-. split; reflexivity. }
  destruct (SUPPORTED_OUTPUT_FORMATS !! _); [discriminate|].
  injection Hc as <- <-. split; reflexivity.
Qed.

(** Claim C10.  An empty [output_folder] selects the parent directory of
    the input path, exactly as an absent one: the same output directory,
    the same [_get_output_path], a returned path inside that parent, and
    the same [convert_image]. *)
Theorem empty_output_folder_is_absent (input_path : string) (output_format : string)
    (settings : Settings.t) :
  output_dir_for (PyPath.Path input_path) (Some "") = PyPath.parent (PyPath.Path input_path)
  /\ _get_output_path (PyPath.Path input_path) output_format (Some "")
     = _get_output_path (PyPath.Path input_path) output_format None
  /\ (forall w w' output_path,
        is_Some (SUPPORTED_OUTPUT_FORMATS !! output_format) ->
        _get_output_path (PyPath.Path input_path) output_format (Some "") w
        = (Ok output_path, w') ->
        PyPath.parent output_path = PyPath.parent (PyPath.Path input_path))
  /\ (Settings.output_folder settings = Some "" ->
      convert_image encodable input_path settings
      = convert_image encodable input_path
          {| Settings.output_format := Settings.output_format settings;
             Settings.output_folder := None;
             Settings.resize := Settings.resize settings;
             Settings.resize_dimensions := Settings.resize_dimensions settings;
             Settings.quality := Settings.quality settings |}).
Proof.
  split; [reflexivity|]. split; [reflexivity|]. split.
  - intros w w' output_path Hfmt Hgo.
    destruct (get_output_path_frame _ _ _ _ _ _ Hgo) as [_ [_ Hmk]].
    specialize (Hmk _ eq_refl).
    destruct (next_free_terminates (PyPath.parent (PyPath.Path input_path))
                (PyPath.stem (PyPath.Path input_path)) output_format
                (stem_of_Path_no_slash input_path) Hfmt (fs w'))
      as [k [_ [Hnf _]]].
    unfold _get_output_path in Hgo. rewrite (bind_ok _ _ _ _ _ Hmk) in Hgo.
    unfold mbind, M_bind, get_world in Hgo.
    change (output_dir_for (PyPath.Path input_path) (Some ""))
      with (PyPath.parent (PyPath.Path input_path)) in Hgo.
    rewrite Hnf in Hgo. injection Hgo as <-.
    apply candidate_parent; [apply stem_of_Path_no_slash|exact Hfmt].
  - intros H. unfold convert_image. simpl. rewrite H. reflexivity.
Qed.

(** Claim C2, as the code has it.  In every successful conversion the
    encoder receives [exif_transpose] of the resize step's result, which
    is the optional resize of the transparency step's result on the
    decoded source: transparency normalization, then the optional resize,
    then orientation correction, then encoding. *)
Theorem resize_then_orientation (input : string) (settings : Settings.t) (w w' : World) :
  convert_image encodable input settings w = (Ok true, w') ->
  let output_format := PyStr.lower (default "png" (Settings.output_format settings)) in
  exists img resized output_path pil kwargs,
    fst (FS.open_image (PyPath.Path input) w) = Ok img
    /\ resize_step settings (_handle_transparency img output_format) = Ok resized
    /\ fs w' !! output_path
       = Some (Written pil kwargs (encoder_input pil (Transposed resized))).
Proof.
  rewrite convert_image_eq. cbv zeta.
  destruct (negb _) eqn:Hex; [discriminate|].
  destruct (negb (bool_decide _)); [discriminate|].
  destruct (SUPPORTED_OUTPUT_FORMATS !! _); [|discriminate].
  destruct (_get_output_path _ _ _ w) as [[output_path|e] w1] eqn:Hgo; [|discriminate].
  destruct (get_output_path_frame _ _ _ _ _ _ Hgo) as [_ [_ Hmk]].
  specialize (Hmk _ eq_refl).
  destruct (FS.open_image _ w1) as [[img|e] w2] eqn:Hop; [|discriminate].
  pose proof (open_image_frame _ _ _ _ Hop) as ->.
  destruct (resize_step _ _) as [resized|e] eqn:Hrs; [|discriminate].
  destruct (save_image_cases encodable (Transposed resized) output_path
              (PyStr.lower (default "png" (Settings.output_format settings)))
              (Settings.quality settings) w1) as [[pil [kw [_ Hs]]]|[e Hs]]; rewrite Hs;
    [|discriminate].
  intros H. injection H as <-.
  exists img, resized, output_path, pil, kw. split; [|split].
  - apply (open_image_lookup _ w1).
    + now rewrite Hop.
    + intros n Hn. eapply mkdir_keeps; eauto.
    + apply negb_false_iff, andb_true_iff in Hex as [_ Hex].
      unfold FS.path_exists in Hex. destruct (FS.lookup (fs w) _); congruence.
  - exact Hrs.
  - simpl. apply lookup_insert_eq.
Qed.

End ConverterTheorems.

Lemma unsupported_output_format_leaves_fs_witness :
  convert_image all_codecs "pics/photo.jpg" to_xyz w_photo
  = (Ok false, add_log (ERROR, UnsupportedOutputFormat "xyz") w_photo)
  /\ fs (snd (convert_image all_codecs "pics/photo.jpg" to_xyz w_photo)) = fs w_photo
  /\ Spec.gate_kind w_photo "pics/photo.jpg" to_xyz = Some Spec.UnsupportedOutput.
Proof.
  apply (unsupported_output_format_leaves_fs all_codecs "pics/photo.jpg" to_xyz w_photo).
  - vm_compute. reflexivity.
  - vm_compute. reflexivity.
  - vm_compute. reflexivity.
Defined.

Lemma resize_then_orientation_witness :
  exists img resized output_path pil kwargs,
    fst (FS.open_image (PyPath.Path "pics/photo.jpg") w_photo) = Ok img
    /\ resize_step to_png_800_600 (_handle_transparency img "png") = Ok resized
    /\ fs (snd (convert_image all_codecs "pics/photo.jpg" to_png_800_600 w_photo))
         !! output_path
       = Some (Written pil kwargs (encoder_input pil (Transposed resized))).
Proof.
  apply (resize_then_orientation all_codecs "pics/photo.jpg" to_png_800_600 w_photo).
  vm_compute. reflexivity.
Defined.

(** Claim C2 fails as stated: for a 1600 x 800 source tagged with EXIF
    orientation 6 and a target box of 800 x 600 the code resizes first
    (to 800 x 400) and rotates afterwards, writing a 400 x 800 image, where
    orientation before resize gives 300 x 600. *)
Lemma orientation_is_not_before_resize :
  fst (convert_image all_codecs "pics/photo.jpg" to_png_800_600 w_photo) = Ok true
  /\ fs (snd (convert_image all_codecs "pics/photo.jpg" to_png_800_600 w_photo))
       !! ["pics"; "photo.png"]
     = Some (Written "PNG" [("optimize", KwBool true)]
               (Transposed (Resized photo (800, 400) "LANCZOS")))
  /\ Spec.process photo "png" true (Some (800, 600))
     = Ok (Resized (Transposed photo) (300, 600) "LANCZOS")
  /\ Img.size (Transposed (Resized photo (800, 400) "LANCZOS")) = (400, 800)
  /\ Img.size (Resized (Transposed photo) (300, 600) "LANCZOS") = (300, 600).
Proof. repeat split; vm_compute; reflexivity. Qed.

(** Claim C6 fails as stated: a missing input and an unsupported output
    format are different kinds of failure, and both calls return the same
    value [False]; no failure reason can be read off what is returned. *)
Lemma returned_value_carries_no_reason :
  Spec.gate_kind w_photo "pics/missing.png" to_png = Some Spec.InputNotFound
  /\ Spec.gate_kind w_photo "pics/photo.jpg" to_xyz = Some Spec.UnsupportedOutput
  /\ fst (convert_image all_codecs "pics/missing.png" to_png w_photo) = Ok false
  /\ fst (convert_image all_codecs "pics/photo.jpg" to_xyz w_photo) = Ok false
  /\ ~ exists failure_reason : Res bool -> Spec.ErrorKind,
         failure_reason (fst (convert_image all_codecs "pics/missing.png" to_png w_photo))
           = Spec.InputNotFound
         /\ failure_reason (fst (convert_image all_codecs "pics/photo.jpg" to_xyz w_photo))
           = Spec.UnsupportedOutput.
Proof.
  assert (E1 : fst (convert_image all_codecs "pics/missing.png" to_png w_photo) = Ok false)
    by (vm_compute; reflexivity).
  assert (E2 : fst (convert_image all_codecs "pics/photo.jpg" to_xyz w_photo) = Ok false)
    by (vm_compute; reflexivity).
  repeat split; try (vm_compute; reflexivity).
  intros [f [H1 H2]]. rewrite E1 in H1. rewrite E2 in H2. congruence.
Qed.

(** ** The batch worker *)

Section WorkerFacts.

Variable encodable : string -> Image -> bool.
Variable int_of_str : string -> option Z.
Variable strip : string -> string.

(** One file: the tally gains a success or the file's basename, the queue
    is left alone, and nothing is raised. *)
Lemma convert_file_cases (app : App.t) (file_path : string) (tally : Tally) (w : World) :
  exists tally' w',
    convert_file encodable int_of_str strip app file_path tally w = (Ok tally', w')
    /\ queue w' = queue w
    /\ ((fst (convert_image encodable file_path (read_settings int_of_str strip app) w) = Ok true
         /\ tally' = {| successful_conversions := successful_conversions tally + 1;
                        failed_conversions := failed_conversions tally |})
        \/ (fst (convert_image encodable file_path (read_settings int_of_str strip app) w) <> Ok true
            /\ tally' = {| successful_conversions := successful_conversions tally;
                           failed_conversions :=
                             failed_conversions tally ++ [PyPath.basename file_path] |})).
Proof.
  destruct (convert_image_total encodable file_path (read_settings int_of_str strip app) w)
    as [b [w' [Hc [Hq _]]]].
  unfold convert_file, try_except, mbind, M_bind. rewrite Hc.
  destruct b; eexists _, w'; (split; [reflexivity|]); (split; [exact Hq|]).
  - left. split; reflexivity.
  - right. split; [discriminate|reflexivity].
Qed.

Lemma for_each_file_app (app : App.t) (total_files : Z) (l1 l2 : list string)
    (i : Z) (tally : Tally) (w : World) :
  for_each_file encodable int_of_str strip app total_files i (l1 ++ l2) tally w
  = match for_each_file encodable int_of_str strip app total_files i l1 tally w with
    | (Ok t1, w1) => for_each_file encodable int_of_str strip app total_files (i + Z.of_nat (length l1)) l2 t1 w1
    | (Raise e, w1) => (Raise e, w1)
    end.
Proof.
  revert i tally w. induction l1 as [|f l1 IH]; intros i tally w.
  - simpl. unfold mret, M_ret. now rewrite Z.add_0_r.
  - cbn [List.app for_each_file length]. unfold mbind, M_bind.
    destruct (lift _ w) as [[progress|e] w0]; [|reflexivity].
    destruct (Queue.put _ w0) as [[[]|e] w1]; [|reflexivity].
    destruct (convert_file encodable int_of_str strip app f tally w1) as [[t1|e] w2]; [|reflexivity].
    rewrite IH. replace (i + 1 + Z.of_nat (length l1)) with (i + Z.of_nat (S (length l1))) by lia.
    reflexivity.
Qed.

Lemma for_each_file_step (app : App.t) (total_files i : Z) (file_path : string)
    (rest : list string) (tally : Tally) (w : World) :
  total_files <> 0 ->
  for_each_file encodable int_of_str strip app total_files i (file_path :: rest) tally w
  = match convert_file encodable int_of_str strip app file_path tally
            (enqueue (progress_message total_files i file_path) w) with
    | (Ok t1, w1) => for_each_file encodable int_of_str strip app total_files (i + 1) rest t1 w1
    | (Raise e, w1) => (Raise e, w1)
    end.
Proof.
  intros Ht. cbn [for_each_file]. unfold mbind, M_bind, lift, int_truediv, Queue.put.
  destruct (Z.eqb_spec total_files 0) as [?|_]; [contradiction|]. reflexivity.
Qed.

(** The loop: every file gets its "progress" message, in order, and adds
    at most its own basename to the failures. *)
Lemma for_each_file_runs (app : App.t) (total_files : Z) (files : list string) :
  total_files <> 0 ->
  forall (i : Z) (tally : Tally) (w : World),
  exists tally' w' failed,
    for_each_file encodable int_of_str strip app total_files i files tally w = (Ok tally', w')
    /\ queue w' = queue w ++ progress_messages total_files i files
    /\ failed_conversions tally' = failed_conversions tally ++ failed
    /\ sublist failed (PyPath.basename <$> files).
Proof.
  intros Ht. induction files as [|f files IH]; intros i tally w.
  - exists tally, w, []. simpl. rewrite !app_nil_r. repeat split. constructor.
  - rewrite for_each_file_step by exact Ht.
    destruct (convert_file_cases app f tally (enqueue (progress_message total_files i f) w))
      as [t1 [w1 [Hc [Hq Hcase]]]].
    rewrite Hc.
    destruct (IH (i + 1) t1 w1) as [t2 [w2 [failed [Hrun [Hq2 [Hf2 Hsub]]]]]].
    destruct Hcase as [[_ ->]|[_ ->]]; simpl in Hf2.
    + exists t2, w2, failed. split; [exact Hrun|]. split; [|split].
      * rewrite Hq2, Hq. simpl. now rewrite <- app_assoc.
      * exact Hf2.
      * simpl. now apply sublist_cons.
    + exists t2, w2, (PyPath.basename f :: failed). split; [exact Hrun|]. split; [|split].
      * rewrite Hq2, Hq. simpl. now rewrite <- app_assoc.
      * rewrite Hf2. now rewrite <- app_assoc.
      * simpl. now apply sublist_skip.
Qed.

Lemma progress_messages_app (total_files i : Z) (l1 l2 : list string) :
  progress_messages total_files i (l1 ++ l2)
  = progress_messages total_files i l1
    ++ progress_messages total_files (i + Z.of_nat (length l1)) l2.
Proof.
  revert i. induction l1 as [|f l1 IH]; intros i; simpl.
  - now rewrite Z.add_0_r.
  - rewrite IH. do 3 f_equal. lia.
Qed.

Lemma convert_images_eq (app : App.t) (w : World) (tally : Tally) (w' : World) :
  for_each_file encodable int_of_str strip app (Z.of_nat (length (App.file_list app))) 0 (App.file_list app) tally0 w
  = (Ok tally, w') ->
  convert_images encodable int_of_str strip app w
  = (Ok tt,
     enqueue (Complete (successful_conversions tally) (failed_conversions tally))
       (enqueue (summary_message (Z.of_nat (length (App.file_list app))) tally) w')).
Proof.
  intros H. unfold convert_images, try_except, mbind, M_bind.
  fold tally0. rewrite H. reflexivity.
Qed.

(** The loop over the whole list never raises. *)
Lemma whole_loop_runs (app : App.t) (w : World) :
  exists tally w' failed,
    for_each_file encodable int_of_str strip app (Z.of_nat (length (App.file_list app))) 0 (App.file_list app) tally0 w
    = (Ok tally, w')
    /\ queue w' = queue w
         ++ progress_messages (Z.of_nat (length (App.file_list app))) 0 (App.file_list app)
    /\ failed_conversions tally = failed
    /\ sublist failed (PyPath.basename <$> App.file_list app).
Proof.
  destruct (App.file_list app) as [|f files] eqn:E.
  - exists tally0, w, []. simpl. rewrite app_nil_r. repeat split. constructor.
  - destruct (for_each_file_runs app (Z.of_nat (length (f :: files))) (f :: files))
      with (i := 0) (tally := tally0) (w := w) as [t [w' [failed [H1 [H2 [H3 H4]]]]]].
    { simpl. lia. }
    exists t, w', failed. simpl in H3. auto.
Qed.

End WorkerFacts.

Section WorkerTheorems.

Variable encodable : string -> Image -> bool.
Variable int_of_str : string -> option Z.
Variable strip : string -> string.

(** Claim C8, as the code has it.  The worker never raises; it puts one
    "progress" message per file, in file-list order and each before that
    file's conversion starts, then one more "progress" message (1.0, the
    summary), then exactly one "complete" message. *)
Theorem queue_of_a_batch (app : App.t) (w : World) :
  let total_files := Z.of_nat (length (App.file_list app)) in
  exists tally w0,
    for_each_file encodable int_of_str strip app total_files 0 (App.file_list app) tally0 w
    = (Ok tally, w0)
    /\ convert_images encodable int_of_str strip app w
       = (Ok tt,
          enqueue (Complete (successful_conversions tally) (failed_conversions tally))
            (enqueue (summary_message total_files tally) w0))
    /\ queue (snd (convert_images encodable int_of_str strip app w))
       = queue w ++ progress_messages total_files 0 (App.file_list app)
           ++ [summary_message total_files tally;
               Complete (successful_conversions tally) (failed_conversions tally)]
    /\ forall pre file_path post,
         App.file_list app = pre ++ file_path :: post ->
         exists t_k w_k,
           for_each_file encodable int_of_str strip app total_files 0 pre tally0 w
           = (Ok t_k, w_k)
           /\ queue w_k = queue w ++ progress_messages total_files 0 pre
           /\ for_each_file encodable int_of_str strip app total_files 0
                (App.file_list app) tally0 w
              = match convert_file encodable int_of_str strip app file_path t_k
                        (enqueue (progress_message total_files (Z.of_nat (length pre)) file_path)
                           w_k) with
                | (Ok t1, w1) =>
                    for_each_file encodable int_of_str strip app total_files
                      (Z.of_nat (length pre) + 1) post t1 w1
                | (Raise e, w1) => (Raise e, w1)
                end.
Proof.
  intros total_files.
  destruct (whole_loop_runs encodable int_of_str strip app w)
    as [tally [w0 [failed [Hrun [Hq _]]]]].
  fold total_files in Hrun, Hq.
  exists tally, w0. split; [exact Hrun|].
  pose proof (convert_images_eq encodable int_of_str strip app w tally w0 Hrun) as Hci.
  fold total_files in Hci.
  split; [exact Hci|]. split.
  - rewrite Hci. simpl. rewrite Hq. now rewrite <- !app_assoc.
  - intros pre f post Hsplit.
    assert (Ht : total_files <> 0).
    { subst total_files. rewrite Hsplit, length_app. simpl. lia. }
    destruct (for_each_file_runs encodable int_of_str strip app total_files pre Ht 0 tally0 w)
      as [t_k [w_k [fk [Hpre [Hqk _]]]]].
    exists t_k, w_k. split; [exact Hpre|]. split; [exact Hqk|].
    rewrite Hsplit. rewrite for_each_file_app, Hpre.
    rewrite for_each_file_step by exact Ht. reflexivity.
Qed.


End WorkerTheorems.


Example three_files_report :
  queue (snd (convert_images all_codecs no_int no_strip (batch three_files) w_photo))
  = [ Progress 0%float "Converting photo.jpg...";
      Progress (1 / 3)%float "Converting broken.png...";
      Progress (2 / 3)%float "Converting photo.jpg...";
      Progress 1%float "Conversion complete: 2/3 successful";
      Complete 2 ["broken.png"] ].
Proof. vm_compute. reflexivity. Qed.

(** Claim C8 fails as stated: for a batch of one file the queue holds two
    "progress" messages before the terminal one. *)
Lemma final_progress_message_is_extra :
  queue (snd (convert_images all_codecs no_int no_strip (batch ["pics/photo.jpg"]) w_photo))
  = [ Progress 0%float "Converting photo.jpg...";
      Progress 1%float "Conversion complete: 1/1 successful";
      Complete 1 [] ]
  /\ Spec.queue_shape ["pics/photo.jpg"]
       (queue (snd (convert_images all_codecs no_int no_strip
                      (batch ["pics/photo.jpg"]) w_photo))) = false.
Proof. split; vm_compute; reflexivity. Qed.

(** * Further properties *)

(** ** What a conversion does to the file system *)

Lemma lookup_none_raw (f : gmap PurePath Node) (p : PurePath) :
  FS.lookup f p = None -> f !! p = None.
Proof.
  unfold FS.lookup. destruct p as [|c r]; [discriminate|].
  destruct (PyPath.is_root (c :: r)); [discriminate|]. auto.
Qed.

Lemma path_free_raw (f : gmap PurePath Node) (p : PurePath) :
  FS.path_exists f p = false -> f !! p = None.
Proof.
  unfold FS.path_exists. intros H. apply lookup_none_raw.
  destruct (FS.lookup f p); [discriminate|reflexivity].
Qed.

Lemma mkdir_from_grows (rest : list string) (done : PurePath) (f f' : gmap PurePath Node) :
  FS.mkdir_from done rest f = Ok f' -> f ⊆ f'.
Proof.
  revert done f. induction rest as [|c rest IH]; intros done f H; simpl in H.
  - injection H as <-. reflexivity.
  - destruct (FS.lookup f (done ++ [c])) as [[]|] eqn:Hq; try discriminate.
    + eapply IH; eauto.
    + etrans; [|eapply IH; eauto].
      apply insert_subseteq. now apply lookup_none_raw.
Qed.

Lemma mkdir_from_only_dirs (rest : list string) (done : PurePath)
    (f f' : gmap PurePath Node) (p : PurePath) (n : Node) :
  FS.mkdir_from done rest f = Ok f' -> f' !! p = Some n -> f !! p = Some n \/ n = Dir.
Proof.
  revert done f. induction rest as [|c rest IH]; intros done f H Hp; simpl in H.
  - injection H as <-. now left.
  - destruct (FS.lookup f (done ++ [c])) as [[]|] eqn:Hq; try discriminate.
    + eapply IH; eauto.
    + destruct (IH _ _ H Hp) as [Hold|Hd]; [|now right].
      destruct (decide (done ++ [c] = p)) as [<-|Hne].
      * rewrite lookup_insert_eq in Hold. injection Hold as <-. now right.
      * rewrite lookup_insert_ne in Hold by exact Hne. now left.
Qed.

Lemma mkdir_only_dirs (d : PurePath) (w w' : World) (r : Res unit)
    (p : PurePath) (n : Node) :
  FS.mkdir d w = (r, w') -> fs w' !! p = Some n -> fs w !! p = Some n \/ n = Dir.
Proof.
  unfold FS.mkdir. intros H Hp. destruct d as [|c rest].
  - injection H as _ <-. now left.
  - destruct (String.eqb c "/").
    + destruct (FS.mkdir_from ["/"] rest (fs w)) eqn:E; injection H as _ <-;
        [simpl in Hp; eapply mkdir_from_only_dirs; eauto|now left].
    + destruct (FS.mkdir_from [] (c :: rest) (fs w)) eqn:E; injection H as _ <-;
        [simpl in Hp; eapply mkdir_from_only_dirs; eauto|now left].
Qed.

Lemma mkdir_grows (d : PurePath) (w w' : World) (r : Res unit) :
  FS.mkdir d w = (r, w') -> fs w ⊆ fs w'.
Proof.
  unfold FS.mkdir. intros H. destruct d as [|c rest].
  - injection H as _ <-. reflexivity.
  - destruct (String.eqb c "/").
    + destruct (FS.mkdir_from ["/"] rest (fs w)) eqn:E; injection H as _ <-;
        [simpl; eapply mkdir_from_grows; eauto|reflexivity].
    + destruct (FS.mkdir_from [] (c :: rest) (fs w)) eqn:E; injection H as _ <-;
        [simpl; eapply mkdir_from_grows; eauto|reflexivity].
Qed.

Lemma next_free_is_free (n : nat) (f : gmap PurePath Node) (b e : string)
    (p : PurePath) (c : Z) (q : PurePath) :
  next_free n f b e p c = Some q -> FS.path_exists f q = false.
Proof.
  revert p c. induction n as [|n IH]; intros p c H; simpl in H; [discriminate|].
  destruct (FS.path_exists f p) eqn:E.
  - eapply IH; eauto.
  - now injection H as <-.
Qed.

(** [_get_output_path] only adds directories, and the path it returns is free. *)
Lemma get_output_path_grows (input_path : PurePath) (output_format : string)
    (output_folder : option string) (w w1 : World) (r : Res PurePath) :
  _get_output_path input_path output_format output_folder w = (r, w1) ->
  fs w ⊆ fs w1
  /\ (forall out, r = Ok out -> fs w1 !! out = None).
Proof.
  unfold _get_output_path, mbind, M_bind. intros H.
  destruct (FS.mkdir _ w) as [[[]|e] w0] eqn:Hmk.
  - pose proof (mkdir_grows _ _ _ _ Hmk) as Hsub. unfold get_world in H.
    destruct (next_free _ _ _ _ _ _) as [q|] eqn:Hnf; injection H as <- <-.
    + split; [exact Hsub|]. intros out [= <-].
      apply path_free_raw. eapply next_free_is_free; eauto.
    + split; [exact Hsub|]. intros out [=].
  - injection H as <- <-. split; [eapply mkdir_grows; eauto|]. intros out [=].
Qed.

Lemma get_output_path_only_dirs (input_path : PurePath) (output_format : string)
    (output_folder : option string) (w w1 : World) (r : Res PurePath) :
  _get_output_path input_path output_format output_folder w = (r, w1) ->
  forall p n, fs w1 !! p = Some n -> fs w !! p = Some n \/ n = Dir.
Proof.
  unfold _get_output_path, mbind, M_bind. intros H p n Hp.
  destruct (FS.mkdir _ w) as [[[]|e] w0] eqn:Hmk.
  - unfold get_world in H.
    destruct (next_free _ _ _ _ _ _); injection H as _ <-;
      eapply mkdir_only_dirs; eauto.
  - injection H as _ <-. eapply mkdir_only_dirs; eauto.
Qed.

Section Overwrite.

Variable encodable : string -> Image -> bool.

(** [_save_image] with the keyword arguments spelled out. *)
Lemma save_image_written (img : Image) (output_path : PurePath) (output_format : string)
    (quality : option Z) (w w' : World) :
  _save_image encodable img output_path output_format quality w = (Ok true, w') ->
  exists pil,
    SUPPORTED_OUTPUT_FORMATS !! output_format = Some pil
    /\ w' = set_fs (<[output_path := Written pil (save_kwargs_for pil quality)
                                      (encoder_input pil img)]> (fs w)) w.
Proof.
  unfold _save_image, try_except.
  destruct (SUPPORTED_OUTPUT_FORMATS !! output_format) as [pil|] eqn:Hpil.
  2:{ unfold mbind, M_bind, raise, Logger.error, Logger.emit, mret, M_ret. simpl.
      discriminate. }
  unfold mbind, M_bind, mret, M_ret. cbv beta iota.
  set (pr := if String.eqb pil "JPEG" then _ else _).
  assert (Hpr : pr = (encoder_input pil img, save_kwargs_for pil quality)).
  { subst pr. unfold encoder_input, save_kwargs_for.
    destruct (String.eqb pil "JPEG"); simpl.
    - destruct (negb (String.eqb (Img.mode img) "RGB")); reflexivity.
    - destruct (String.eqb pil "PNG"); [reflexivity|].
      destruct (String.eqb pil "WEBP"); [reflexivity|].
      destruct (String.eqb pil "TIFF"); reflexivity. }
  rewrite Hpr. unfold save, Logger.error, Logger.emit.
  destruct (negb (FS.is_dir (fs w) (PyPath.parent output_path))); [discriminate|].
  destruct (FS.is_dir (fs w) output_path); [discriminate|].
  destruct (encodable pil (encoder_input pil img)); [|discriminate].
  intros [= <-]. exists pil. split; reflexivity.
Qed.

(** What one call leaves behind: the old entries, and on success one new
    file where there was none. *)
Lemma convert_image_effect (input : string) (settings : Settings.t) (w : World) :
  let output_format := PyStr.lower (default "png" (Settings.output_format settings)) in
  fs w ⊆ fs (snd (convert_image encodable input settings w))
  /\ (fst (convert_image encodable input settings w) = Ok true ->
      exists out pil img,
        fs w !! out = None
        /\ SUPPORTED_OUTPUT_FORMATS !! output_format = Some pil
        /\ fs (snd (convert_image encodable input settings w)) !! out
           = Some (Written pil (save_kwargs_for pil (Settings.quality settings))
                     (encoder_input pil img))).
Proof.
  rewrite convert_image_eq. cbv zeta.
  destruct (negb (PyStr.truthy input && _)); [split; [reflexivity|discriminate]|].
  destruct (negb (bool_decide _)); [split; [reflexivity|discriminate]|].
  destruct (SUPPORTED_OUTPUT_FORMATS !! _) as [pil0|] eqn:Hpil;
    [|split; [reflexivity|discriminate]].
  destruct (_get_output_path _ _ _ w) as [[out|e] w1] eqn:Hgo;
    destruct (get_output_path_grows _ _ _ _ _ _ Hgo) as [Hsub Hfree];
    [|split; [exact Hsub|discriminate]].
  specialize (Hfree _ eq_refl).
  destruct (FS.open_image _ w1) as [[img|e] w2] eqn:Hop;
    apply open_image_frame in Hop; subst w2; [|split; [exact Hsub|discriminate]].
  destruct (resize_step _ _) as [resized|e]; [|split; [exact Hsub|discriminate]].
  destruct (_save_image encodable (Transposed resized) out _ _ w1) as [[[]|e] w3] eqn:Hs.
  - apply save_image_written in Hs as [pil [Hp ->]]. simpl. split.
    + etrans; [exact Hsub|]. now apply insert_subseteq.
    + intros _. exists out, pil, (Transposed resized).
      split; [|split; [congruence|apply lookup_insert_eq]].
      eapply lookup_weaken_None; eauto.
  - destruct (save_image_cases encodable (Transposed resized) out
              (PyStr.lower (default "png" (Settings.output_format settings)))
              (Settings.quality settings) w1) as [[pil [kw [Hp Hs']]]|[e Hs']];
      rewrite Hs' in Hs; [discriminate|].
    injection Hs as <-. simpl. split; [exact Hsub|discriminate].
  - destruct (save_image_cases encodable (Transposed resized) out
              (PyStr.lower (default "png" (Settings.output_format settings)))
              (Settings.quality settings) w1) as [[pil [kw [Hp Hs']]]|[e' Hs']];
      rewrite Hs' in Hs; discriminate.
Qed.

(** A successful call, taken apart: the output path computed, the file
    written there, the INFO record. *)
Lemma convert_image_success_inv (input : string) (settings : Settings.t) (w w' : World) :
  let output_format := PyStr.lower (default "png" (Settings.output_format settings)) in
  convert_image encodable input settings w = (Ok true, w') ->
  exists out w1 pil img,
    _get_output_path (PyPath.Path input) output_format
      (Settings.output_folder settings) w = (Ok out, w1)
    /\ SUPPORTED_OUTPUT_FORMATS !! output_format = Some pil
    /\ w' = add_log (INFO, SuccessfullyConverted (PyPath.name (PyPath.Path input)) out)
              (set_fs (<[out := Written pil (save_kwargs_for pil (Settings.quality settings))
                                  (encoder_input pil img)]> (fs w1)) w1).
Proof.
  rewrite convert_image_eq. cbv zeta.
  destruct (negb (PyStr.truthy input && _)); [discriminate|].
  destruct (negb (bool_decide _)); [discriminate|].
  destruct (SUPPORTED_OUTPUT_FORMATS !! _) as [pil0|] eqn:Hpil; [|discriminate].
  destruct (_get_output_path _ _ _ w) as [[out|e] w1] eqn:Hgo; [|discriminate].
  destruct (FS.open_image _ w1) as [[img|e] w2] eqn:Hop;
    apply open_image_frame in Hop; subst w2; [|discriminate].
  destruct (resize_step _ _) as [resized|e]; [|discriminate].
  destruct (_save_image encodable (Transposed resized) out _ _ w1) as [[[]|e] w3] eqn:Hs;
    try discriminate.
  apply save_image_written in Hs as [pil [Hp ->]].
  intros [= <-]. exists out, w1, pil, (Transposed resized).
  split; [reflexivity|]. split; [congruence|reflexivity].
Qed.

(** Property X1.  [convert_image] never removes or replaces anything: every path of
    the file system keeps what it held, whatever the call returns. *)
Theorem convert_image_keeps_every_entry (input : string) (settings : Settings.t)
    (w : World) :
  fs w ⊆ fs (snd (convert_image encodable input settings w)).
Proof.
  destruct (convert_image_effect input settings w) as [H _]. exact H.
Qed.

(** Property X2.  A call that returns [True] has written exactly one file, at a path
    that was free before, in the Pillow format of the requested extension
    and with the keyword arguments of [_save_image]; any other path that
    was free is still free or has become a directory. *)
Theorem successful_conversion_writes_new_file (input : string) (settings : Settings.t)
    (w w' : World) :
  convert_image encodable input settings w = (Ok true, w') ->
  exists out pil img,
    fs w !! out = None
    /\ SUPPORTED_OUTPUT_FORMATS
         !! PyStr.lower (default "png" (Settings.output_format settings)) = Some pil
    /\ fs w' !! out
       = Some (Written pil (save_kwargs_for pil (Settings.quality settings))
                 (encoder_input pil img))
    /\ forall p, p <> out -> fs w !! p = None -> fs w' !! p = None \/ fs w' !! p = Some Dir.
Proof.
  intros H.
  destruct (convert_image_success_inv input settings w w' H)
    as [out [w1 [pil [img [Hgo [Hp ->]]]]]].
  destruct (get_output_path_grows _ _ _ _ _ _ Hgo) as [Hsub Hfree].
  pose proof (get_output_path_only_dirs _ _ _ _ _ _ Hgo) as Hdirs.
  exists out, pil, img. split; [|split; [exact Hp|split]].
  - eapply lookup_weaken_None; [apply Hfree; reflexivity|exact Hsub].
  - simpl. apply lookup_insert_eq.
  - intros p Hne Hnone. simpl. rewrite lookup_insert_ne by congruence.
    destruct (fs w1 !! p) as [n|] eqn:E; [|now left].
    right. destruct (Hdirs p n E) as [Hold| ->]; [congruence|reflexivity].
Qed.

End Overwrite.

Lemma candidate_lookup_root (directory : PurePath) (base_name output_format : string)
    (k : nat) :
  PyStr.contains "/" base_name = false ->
  is_Some (SUPPORTED_OUTPUT_FORMATS !! output_format) ->
  PyPath.is_root (Spec.candidate directory base_name output_format k) = false.
Proof.
  intros Hb Hf. destruct k; simpl; apply simple_name_not_root.
  - now apply first_name_simple.
  - now apply numbered_name_simple.
Qed.

Lemma path_exists_mono (f f' : gmap PurePath Node) (p : PurePath) :
  f ⊆ f' -> FS.path_exists f p = true -> FS.path_exists f' p = true.
Proof.
  unfold FS.path_exists, FS.lookup. intros Hsub H.
  destruct p as [|c r]; [reflexivity|].
  destruct (PyPath.is_root (c :: r)); [reflexivity|].
  destruct (f !! (c :: r)) as [n|] eqn:E; [|discriminate].
  now rewrite (lookup_weaken _ _ _ _ E Hsub).
Qed.

Lemma raw_exists (f : gmap PurePath Node) (p : PurePath) (n : Node) :
  f !! p = Some n -> FS.path_exists f p = true.
Proof.
  unfold FS.path_exists, FS.lookup. intros H.
  destruct p as [|c r]; [reflexivity|].
  destruct (PyPath.is_root (c :: r)); [reflexivity|]. now rewrite H.
Qed.

(** The path [_get_output_path] returns is the least free candidate. *)
Lemma get_output_path_candidate (input output_format : string)
    (output_folder : option string) (w w1 : World) (out : PurePath) :
  is_Some (SUPPORTED_OUTPUT_FORMATS !! output_format) ->
  _get_output_path (PyPath.Path input) output_format output_folder w = (Ok out, w1) ->
  exists k,
    out = Spec.candidate (output_dir_for (PyPath.Path input) output_folder)
            (PyPath.stem (PyPath.Path input)) output_format k
    /\ forall i, (i < k)%nat ->
         FS.path_exists (fs w1)
           (Spec.candidate (output_dir_for (PyPath.Path input) output_folder)
              (PyPath.stem (PyPath.Path input)) output_format i) = true.
Proof.
  intros Hfmt Hgo.
  destruct (get_output_path_frame _ _ _ _ _ _ Hgo) as [_ [_ Hmk]].
  specialize (Hmk _ eq_refl).
  destruct (next_free_terminates (output_dir_for (PyPath.Path input) output_folder)
              (PyPath.stem (PyPath.Path input)) output_format
              (stem_of_Path_no_slash input) Hfmt (fs w1)) as [k [_ [Hnf [_ Hbusy]]]].
  unfold _get_output_path in Hgo. rewrite (bind_ok _ _ _ _ _ Hmk) in Hgo.
  unfold mbind, M_bind, get_world in Hgo. rewrite Hnf in Hgo. injection Hgo as <-.
  exists k. split; [reflexivity|exact Hbusy].
Qed.

Section Repeat.

Variable encodable : string -> Image -> bool.

(** Property X3.  Converting the same input twice with the same settings never
    overwrites the first output: the two calls write the candidates
    [k1 < k2] of the same name sequence, and the first output is still
    there, unchanged, after the second call. *)
Theorem second_conversion_takes_next_name (input : string) (settings : Settings.t)
    (w w1 w2 : World) :
  let candidate :=
    Spec.candidate (output_dir_for (PyPath.Path input) (Settings.output_folder settings))
      (PyPath.stem (PyPath.Path input))
      (PyStr.lower (default "png" (Settings.output_format settings))) in
  convert_image encodable input settings w = (Ok true, w1) ->
  convert_image encodable input settings w1 = (Ok true, w2) ->
  exists k1 k2 n1 n2,
    (k1 < k2)%nat
    /\ fs w !! candidate k1 = None
    /\ fs w1 !! candidate k1 = Some n1
    /\ fs w2 !! candidate k1 = Some n1
    /\ fs w1 !! candidate k2 = None
    /\ fs w2 !! candidate k2 = Some n2.
Proof.
  intros candidate H1 H2.
  destruct (convert_image_success_inv encodable input settings w w1 H1)
    as [out1 [wa [pil1 [img1 [Hgo1 [Hp1 ->]]]]]].
  destruct (convert_image_success_inv encodable input settings _ w2 H2)
    as [out2 [wb [pil2 [img2 [Hgo2 [Hp2 ->]]]]]].
  destruct (get_output_path_grows _ _ _ _ _ _ Hgo1) as [Hsub1 Hfree1].
  destruct (get_output_path_grows _ _ _ _ _ _ Hgo2) as [Hsub2 Hfree2].
  specialize (Hfree1 _ eq_refl). specialize (Hfree2 _ eq_refl).
  destruct (get_output_path_candidate _ _ _ _ _ _ (ex_intro _ pil1 Hp1) Hgo1)
    as [k1 [E1 Hbusy1]].
  destruct (get_output_path_candidate _ _ _ _ _ _ (ex_intro _ pil2 Hp2) Hgo2)
    as [k2 [E2 Hbusy2]].
  fold candidate in E1, E2, Hbusy1, Hbusy2. subst out1 out2.
  simpl in Hsub2, Hgo2.
  assert (Hw1 : (<[candidate k1 := Written pil1
                    (save_kwargs_for pil1 (Settings.quality settings))
                    (encoder_input pil1 img1)]> (fs wa)) !! candidate k1
                = Some (Written pil1 (save_kwargs_for pil1 (Settings.quality settings))
                          (encoder_input pil1 img1))) by apply lookup_insert_eq.
  assert (Hlt : (k1 < k2)%nat).
  { destruct (Nat.lt_ge_cases k1 k2) as [Hlt|Hge]; [exact Hlt|exfalso].
    assert (Hex : FS.path_exists (fs wb) (candidate k2) = true).
    { apply (path_exists_mono _ _ _ Hsub2).
      destruct (Nat.eq_dec k2 k1) as [->|Hne].
      - eapply raw_exists; eauto.
      - apply (path_exists_mono (fs wa)); [now apply insert_subseteq|].
        apply Hbusy1. lia. }
    unfold FS.path_exists, FS.lookup in Hex.
    destruct (candidate k2) as [|c r] eqn:Ec.
    - destruct k2; simpl in Ec;
        destruct (output_dir_for (PyPath.Path input) (Settings.output_folder settings));
        discriminate.
    - destruct (PyPath.is_root (c :: r)) eqn:Hr.
      + rewrite <- Ec in Hr. unfold candidate in Hr.
        rewrite candidate_lookup_root in Hr; [discriminate| |eauto].
        apply stem_of_Path_no_slash.
      + now rewrite Hfree2 in Hex. }
  exists k1, k2. eexists. eexists. split; [exact Hlt|]. split; [|split; [|split; [|split]]].
  - eapply lookup_weaken_None; eauto.
  - simpl. exact Hw1.
  - simpl. rewrite lookup_insert_ne.
    + eapply lookup_weaken; eauto.
    + pose proof (lookup_weaken _ _ _ _ Hw1 Hsub2) as Hc.
      intros E. rewrite <- E in Hc. congruence.
  - simpl. eapply lookup_weaken_None; [exact Hfree2|exact Hsub2].
  - simpl. apply lookup_insert_eq.
Qed.

End Repeat.

Section Gates.

Variable encodable : string -> Image -> bool.

(** Property X4.  A successful conversion to jpg or jpeg writes a JPEG whose image
    is in mode RGB, with [optimize=True] and the given quality - 95 when
    none, or 0, is given. *)
Theorem jpeg_output_is_rgb (input : string) (settings : Settings.t) (w w' : World) :
  PyStr.lower (default "png" (Settings.output_format settings)) ∈ ["jpg"; "jpeg"] ->
  convert_image encodable input settings w = (Ok true, w') ->
  exists out img,
    fs w' !! out
    = Some (Written "JPEG"
              [("quality", KwInt (quality_or_default (Settings.quality settings)));
               ("optimize", KwBool true)] img)
    /\ Img.mode img = "RGB".
Proof.
  intros Hfmt H.
  destruct (convert_image_success_inv encodable input settings w w' H)
    as [out [w1 [pil [img [_ [Hp ->]]]]]].
  assert (pil = "JPEG") as ->.
  { apply elem_of_cons in Hfmt as [E|Hfmt]; [rewrite E in Hp; vm_compute in Hp; congruence|].
    apply elem_of_cons in Hfmt as [E|Hfmt]; [rewrite E in Hp; vm_compute in Hp; congruence|].
    now apply elem_of_nil in Hfmt. }
  exists out, (encoder_input "JPEG" img). split.
  - simpl. apply lookup_insert_eq.
  - unfold encoder_input. simpl.
    destruct (String.eqb (Img.mode img) "RGB") eqn:E; simpl; [|reflexivity].
    now apply String.eqb_eq in E.
Qed.

(** Property X6.  With resizing on and a target height of 0 the call returns [False]
    for every input (for an image that was opened, the division by the
    target height raises) and writes no file: only directories can have
    been added. *)
Theorem zero_target_height_fails (input : string) (settings : Settings.t) (w : World)
    (target_width : Z) :
  Settings.resize settings = Some true ->
  Settings.resize_dimensions settings = Some (target_width, 0) ->
  fst (convert_image encodable input settings w) = Ok false
  /\ forall p n,
       fs (snd (convert_image encodable input settings w)) !! p = Some n ->
       fs w !! p = Some n \/ n = Dir.
Proof.
  intros Hr Hd.
  assert (Hrs : forall img, exists e, resize_step settings img = Raise e).
  { intros img. unfold resize_step. rewrite Hr, Hd. simpl.
    unfold _resize_image, resize_target, int_truediv.
    destruct (Img.size img) as [ow oh].
    destruct (oh =? 0); simpl; eauto. }
  rewrite convert_image_eq. cbv zeta.
  destruct (negb (PyStr.truthy input && _)); [split; [reflexivity|simpl; auto]|].
  destruct (negb (bool_decide _)); [split; [reflexivity|simpl; auto]|].
  destruct (SUPPORTED_OUTPUT_FORMATS !! _) as [pil0|] eqn:Hpil;
    [|split; [reflexivity|simpl; auto]].
  destruct (_get_output_path _ _ _ w) as [[out|e] w1] eqn:Hgo;
    pose proof (get_output_path_only_dirs _ _ _ _ _ _ Hgo) as Hdirs;
    [|split; [reflexivity|simpl; auto]].
  destruct (FS.open_image _ w1) as [[img|e] w2] eqn:Hop;
    apply open_image_frame in Hop; subst w2; [|split; [reflexivity|simpl; auto]].
  destruct (Hrs (_handle_transparency img
                   (PyStr.lower (default "png" (Settings.output_format settings)))))
    as [e ->].
  split; [reflexivity|simpl; auto].
Qed.

End Gates.

(** Property X7.  [FileHandler.is_image_file] and
    [ImageConverter.is_supported_format] agree on every path, whatever
    [mimetypes] answers: the two classes list the same extensions. *)
Theorem classifier_agrees_with_converter
    (guess_type : string -> option string * option string) (file_path : string) :
  is_image_file guess_type file_path = is_supported_format file_path.
Proof.
  unfold is_image_file, is_supported_format.
  change IMAGE_EXTENSIONS with SUPPORTED_INPUT_FORMATS.
  destruct (bool_decide _); simpl; [|reflexivity].
  destruct (guess_type file_path) as [[m|] enc]; [|reflexivity].
  destruct (PyStr.truthy m && bool_decide (m ∈ IMAGE_MIME_TYPES)); reflexivity.
Qed.

Lemma successful_conversion_writes_new_file_witness :
  exists out pil img,
    fs w_photo !! out = None
    /\ SUPPORTED_OUTPUT_FORMATS
         !! PyStr.lower (default "png" (Settings.output_format to_png)) = Some pil
    /\ fs (snd (convert_image all_codecs "pics/photo.jpg" to_png w_photo)) !! out
       = Some (Written pil (save_kwargs_for pil (Settings.quality to_png))
                 (encoder_input pil img))
    /\ forall p, p <> out -> fs w_photo !! p = None ->
         fs (snd (convert_image all_codecs "pics/photo.jpg" to_png w_photo)) !! p = None
         \/ fs (snd (convert_image all_codecs "pics/photo.jpg" to_png w_photo)) !! p
            = Some Dir.
Proof.
  apply (successful_conversion_writes_new_file all_codecs "pics/photo.jpg" to_png w_photo).
  vm_compute. reflexivity.
Defined.

Lemma second_conversion_takes_next_name_witness :
  exists k1 k2 n1 n2,
    (k1 < k2)%nat
    /\ fs w_photo !! Spec.candidate ["pics"] "photo" "png" k1 = None
    /\ fs (snd (convert_image all_codecs "pics/photo.jpg" to_png w_photo))
         !! Spec.candidate ["pics"] "photo" "png" k1 = Some n1
    /\ fs (snd (convert_image all_codecs "pics/photo.jpg" to_png
                  (snd (convert_image all_codecs "pics/photo.jpg" to_png w_photo))))
         !! Spec.candidate ["pics"] "photo" "png" k1 = Some n1
    /\ fs (snd (convert_image all_codecs "pics/photo.jpg" to_png w_photo))
         !! Spec.candidate ["pics"] "photo" "png" k2 = None
    /\ fs (snd (convert_image all_codecs "pics/photo.jpg" to_png
                  (snd (convert_image all_codecs "pics/photo.jpg" to_png w_photo))))
         !! Spec.candidate ["pics"] "photo" "png" k2 = Some n2.
Proof.
  apply (second_conversion_takes_next_name all_codecs "pics/photo.jpg" to_png w_photo).
  - vm_compute. reflexivity.
  - vm_compute. reflexivity.
Defined.

Lemma jpeg_output_is_rgb_witness :
  exists out img,
    fs (snd (convert_image all_codecs "pics/photo.jpg" to_jpg_q0 w_photo)) !! out
    = Some (Written "JPEG"
              [("quality", KwInt (quality_or_default (Settings.quality to_jpg_q0)));
               ("optimize", KwBool true)] img)
    /\ Img.mode img = "RGB".
Proof.
  apply (jpeg_output_is_rgb all_codecs "pics/photo.jpg" to_jpg_q0 w_photo).
  - vm_compute. apply elem_of_cons. now left.
  - vm_compute. reflexivity.
Defined.

Lemma zero_target_height_fails_witness :
  fst (convert_image all_codecs "pics/photo.jpg" to_png_800_0 w_photo) = Ok false
  /\ forall p n,
       fs (snd (convert_image all_codecs "pics/photo.jpg" to_png_800_0 w_photo)) !! p
       = Some n ->
       fs w_photo !! p = Some n \/ n = Dir.
Proof.
  apply (zero_target_height_fails all_codecs "pics/photo.jpg" to_png_800_0 w_photo 800);
    reflexivity.
Defined.

Example zero_target_height_still_makes_the_directory :
  fs (snd (convert_image all_codecs "pics/photo.jpg" to_png_800_0 w_photo)) !! ["out"]
  = Some Dir.
Proof. vm_compute. reflexivity. Qed.

(** ** The file list of the window *)

Section WindowFacts.

Variable guess_type : string -> option string * option string.

Lemma add_files_loop_spec (f : gmap PurePath Node) (files : list string) :
  forall (file_list : list string) (c : AddCounts),
  exists added,
    fst (add_files_loop guess_type f files file_list c) = file_list ++ added
    /\ NoDup added
    /\ (forall p, p ∈ added -> (p ∉ file_list) /\ p ∈ files /\ admitted guess_type f p = true)
    /\ (forall p, p ∈ files -> admitted guess_type f p = true -> p ∈ (file_list ++ added))
    /\ added_count (snd (add_files_loop guess_type f files file_list c))
       = added_count c + Z.of_nat (length added)
    /\ added_count (snd (add_files_loop guess_type f files file_list c))
       + duplicate_count (snd (add_files_loop guess_type f files file_list c))
       = added_count c + duplicate_count c
         + Z.of_nat (length (filter (fun p => admitted guess_type f p = true) files))
    /\ invalid_count (snd (add_files_loop guess_type f files file_list c))
       = invalid_count c
         + Z.of_nat (length (filter (fun p => turned_down guess_type f p = true) files)).
Proof.
  induction files as [|p0 files IH]; intros file_list c.
  - exists []. simpl. rewrite app_nil_r. split_and!; try lia.
    + reflexivity.
    + constructor.
    + intros p Hp. inversion Hp.
    + intros p Hp. inversion Hp.
  - cbn [add_files_loop]. rewrite !filter_cons.
    destruct (OsPath.isfile f p0) eqn:Hfile.
    2:{ assert (Ea : admitted guess_type f p0 = false) by (unfold admitted; now rewrite Hfile).
        assert (Et : turned_down guess_type f p0 = false) by (unfold turned_down; now rewrite Hfile).
        destruct (IH file_list c) as [added (H1 & H2 & H3 & H4 & H5 & H6 & H7)].
        exists added. split_and!; try assumption.
        - intros p Hp. destruct (H3 p Hp) as (Ha & Hb & Hc). split_and!; [assumption| |assumption].
          now right.
        - intros q Hq Hv. apply elem_of_cons in Hq as [->|Hq]; [|now apply H4].
          congruence.
        - rewrite H6. simpl. rewrite decide_False by congruence. reflexivity.
        - rewrite H7. simpl. rewrite decide_False by congruence. reflexivity. }
    destruct (is_image_file guess_type p0) eqn:Himg.
    2:{ assert (Ea : admitted guess_type f p0 = false) by (unfold admitted; now rewrite Hfile, Himg).
        assert (Et : turned_down guess_type f p0 = true) by (unfold turned_down; now rewrite Hfile, Himg).
        destruct (IH file_list {| added_count := added_count c;
                                  duplicate_count := duplicate_count c;
                                  invalid_count := invalid_count c + 1 |})
          as [added (H1 & H2 & H3 & H4 & H5 & H6 & H7)].
        exists added. split_and!; try assumption.
        - intros p Hp. destruct (H3 p Hp) as (Ha & Hb & Hc). split_and!; [assumption| |assumption].
          now right.
        - intros q Hq Hv. apply elem_of_cons in Hq as [->|Hq]; [|now apply H4].
          congruence.
        - rewrite H6. simpl. rewrite decide_False by congruence. reflexivity.
        - rewrite H7. simpl. rewrite decide_True by congruence. simpl length. lia. }
    assert (Ea : admitted guess_type f p0 = true) by (unfold admitted; now rewrite Hfile, Himg).
    assert (Et : turned_down guess_type f p0 = false) by (unfold turned_down; now rewrite Hfile, Himg).
    destruct (bool_decide (p0 ∈ file_list)) eqn:Hin; cbn [negb].
    + apply bool_decide_eq_true in Hin.
      destruct (IH file_list {| added_count := added_count c;
                                duplicate_count := duplicate_count c + 1;
                                invalid_count := invalid_count c |})
        as [added (H1 & H2 & H3 & H4 & H5 & H6 & H7)].
      exists added. split_and!; try assumption.
      * intros p Hp. destruct (H3 p Hp) as (Ha & Hb & Hc). split_and!; [assumption| |assumption].
        now right.
      * intros q Hq Hv. apply elem_of_cons in Hq as [->|Hq]; [|now apply H4].
        apply elem_of_app. now left.
      * rewrite H6. simpl. rewrite decide_True by congruence. simpl length. lia.
      * rewrite H7. simpl. rewrite decide_False by congruence. reflexivity.
    + apply bool_decide_eq_false in Hin.
      destruct (IH (file_list ++ [p0]) {| added_count := added_count c + 1;
                                          duplicate_count := duplicate_count c;
                                          invalid_count := invalid_count c |})
        as [added (H1 & H2 & H3 & H4 & H5 & H6 & H7)].
      exists (p0 :: added). rewrite H1, <- app_assoc. simpl.
      split_and!.
      * reflexivity.
      * constructor; [|assumption]. intros Hp. apply H3 in Hp as [Hp _].
        apply Hp, elem_of_app. right. constructor.
      * intros p Hp. apply elem_of_cons in Hp as [->|Hq].
        -- split_and!; [assumption|left|assumption].
        -- destruct (H3 p Hq) as (Ha & Hb & Hc). split_and!; [|now right|assumption].
           intros Hc'. apply Ha, elem_of_app. now left.
      * intros q Hq Hv. apply elem_of_cons in Hq as [->|Hq].
        -- apply elem_of_app. right. left.
        -- specialize (H4 q Hq Hv). rewrite <- app_assoc in H4. exact H4.
      * rewrite H5. simpl. lia.
      * rewrite H6. simpl. rewrite decide_True by congruence. simpl length. lia.
      * rewrite H7. simpl. rewrite decide_False by congruence. reflexivity.
Qed.

Lemma admitted_eq (f : gmap PurePath Node) (p : string) :
  admitted guess_type f p = OsPath.isfile f p && is_supported_format p.
Proof.
  unfold admitted, is_image_file, is_supported_format.
  change IMAGE_EXTENSIONS with SUPPORTED_INPUT_FORMATS.
  destruct (OsPath.isfile f p); [|reflexivity]. simpl.
  destruct (bool_decide _); simpl; [|reflexivity].
  destruct (guess_type p) as [[m|] enc]; [|reflexivity].
  destruct (PyStr.truthy m && bool_decide (m ∈ IMAGE_MIME_TYPES)); reflexivity.
Qed.

Lemma add_files_eq (f : gmap PurePath Node) (files file_list : list string) (u : UI.t) :
  add_files guess_type f files file_list u
  = (fst (add_files_loop guess_type f files file_list (mkAddCounts 0 0 0)),
     add_files_report (snd (add_files_loop guess_type f files file_list (mkAddCounts 0 0 0)))
       (fst (add_files_loop guess_type f files file_list (mkAddCounts 0 0 0)))
       (update_file_count
          (fst (add_files_loop guess_type f files file_list (mkAddCounts 0 0 0))) u)).
Proof.
  unfold add_files. now destruct (add_files_loop _ _ _ _ _).
Qed.

Lemma update_file_count_frame (file_list : list string) (u : UI.t) :
  UI.progress_label (update_file_count file_list u) = UI.progress_label u
  /\ UI.progress_bar (update_file_count file_list u) = UI.progress_bar u
  /\ UI.convert_btn (update_file_count file_list u) = UI.convert_btn u
  /\ UI.dialogs (update_file_count file_list u) = UI.dialogs u
  /\ UI.after_calls (update_file_count file_list u) = UI.after_calls u.
Proof.
  unfold update_file_count.
  destruct (_ =? 0); [|destruct (_ =? 1)]; repeat split.
Qed.

Lemma update_file_count_label (l1 l2 : list string) (u1 u2 : UI.t) :
  length l1 = length l2 ->
  UI.file_count_label (update_file_count l1 u1)
  = UI.file_count_label (update_file_count l2 u2).
Proof.
  intros E. unfold update_file_count. rewrite E.
  destruct (_ =? 0); [|destruct (_ =? 1)]; reflexivity.
Qed.

Lemma add_files_report_label (c : AddCounts) (file_list : list string) (u : UI.t) :
  UI.file_count_label (add_files_report c file_list u) = UI.file_count_label u.
Proof.
  unfold add_files_report.
  destruct (0 <? added_count c); [reflexivity|].
  destruct (0 <? duplicate_count c); [reflexivity|].
  destruct (0 <? invalid_count c); reflexivity.
Qed.

Lemma list_remove_split (p : string) (l : list string) :
  p ∈ l ->
  exists l1 l2, l = l1 ++ p :: l2 /\ (p ∉ l1) /\ list_remove p l = l1 ++ l2.
Proof.
  induction l as [|y l IH]; intros Hin; [inversion Hin|].
  simpl. destruct (String.eqb_spec y p) as [->|Hne].
  - exists [], l. split_and!; [reflexivity| |reflexivity]. intros H. inversion H.
  - apply elem_of_cons in Hin as [->|Hin]; [congruence|].
    destruct (IH Hin) as (l1 & l2 & -> & Hn & ->).
    exists (y :: l1), l2. split_and!; [reflexivity| |reflexivity].
    intros H. apply elem_of_cons in H as [->|H]; [congruence|contradiction].
Qed.

Lemma filter_absent (p : string) (l : list string) :
  p ∉ l -> filter (fun q => q <> p) l = l.
Proof.
  induction l as [|y l IH]; intros Hn; [reflexivity|].
  apply not_elem_of_cons in Hn as [Hne Hn].
  rewrite filter_cons, decide_True by congruence. now rewrite IH.
Qed.

Lemma list_remove_filter (p : string) (l : list string) :
  NoDup l -> list_remove p l = filter (fun q => q <> p) l.
Proof.
  induction l as [|y l IH]; intros Hnd; [reflexivity|].
  apply NoDup_cons in Hnd as [Hy Hnd].
  simpl. rewrite filter_cons. destruct (String.eqb_spec y p) as [->|Hne].
  - rewrite decide_False by (intros H; now apply H). now rewrite filter_absent.
  - rewrite decide_True by exact Hne. now rewrite IH.
Qed.

End WindowFacts.

Section WindowTheorems.

Variable guess_type : string -> option string * option string.

(** Property X8.  [add_files] only appends: the paths it adds are pairwise distinct,
    were not in the list, come from the selection, are regular files and
    carry an extension [convert_image] accepts; and every such path of
    the selection is in the list afterwards. *)
Theorem add_files_appends_new_images (f : gmap PurePath Node)
    (files file_list : list string) (u : UI.t) :
  exists added,
    fst (add_files guess_type f files file_list u) = file_list ++ added
    /\ NoDup added
    /\ (forall p, p ∈ added ->
          (p ∉ file_list) /\ p ∈ files
          /\ OsPath.isfile f p = true /\ is_supported_format p = true)
    /\ (forall p, p ∈ files -> OsPath.isfile f p = true -> is_supported_format p = true ->
          p ∈ fst (add_files guess_type f files file_list u)).
Proof.
  rewrite add_files_eq. cbn [fst].
  destruct (add_files_loop_spec guess_type f files file_list (mkAddCounts 0 0 0))
    as [added (H1 & H2 & H3 & H4 & _)].
  exists added. split_and!; [exact H1|exact H2| |].
  - intros p Hp. destruct (H3 p Hp) as (Ha & Hb & Hc).
    rewrite admitted_eq in Hc. apply andb_true_iff in Hc as [Hc1 Hc2]. auto.
  - intros p Hp Hfile Hsup. rewrite H1. apply H4; [exact Hp|].
    rewrite admitted_eq, Hfile, Hsup. reflexivity.
Qed.

(** Property X9.  [add_files] answers every call once: when it added [k > 0] paths the
    progress label reports [k] and the new total and no dialog is shown;
    when it added none the list is unchanged, the progress label is left
    alone and exactly one dialog is shown. *)
Theorem add_files_reports_once (f : gmap PurePath Node)
    (files file_list : list string) (u : UI.t) :
  let file_list' := fst (add_files guess_type f files file_list u) in
  let u' := snd (add_files guess_type f files file_list u) in
  let k := (length file_list' - length file_list)%nat in
  length file_list' = (length file_list + k)%nat
  /\ (k <> 0%nat ->
        UI.dialogs u' = UI.dialogs u
        /\ UI.progress_label u'
           = "✓ " +:+ pretty (Z.of_nat k) +:+ " files added • "
               +:+ pretty (Z.of_nat (length file_list')) +:+ " total files ready")
  /\ (k = 0%nat ->
        file_list' = file_list
        /\ UI.progress_label u' = UI.progress_label u
        /\ exists d, UI.dialogs u' = UI.dialogs u ++ [d]).
Proof.
  rewrite add_files_eq. cbn [fst snd].
  destruct (add_files_loop_spec guess_type f files file_list (mkAddCounts 0 0 0))
    as [added (H1 & _ & _ & _ & H5 & _)].
  rewrite H1, length_app. cbn zeta.
  replace (length file_list + length added - length file_list)%nat
    with (length added) by lia.
  destruct (update_file_count_frame (file_list ++ added) u) as (Fl & _ & _ & Fd & _).
  simpl in H5. unfold add_files_report. rewrite H5.
  split_and!; [reflexivity| |].
  - intros Hk. destruct (Z.ltb_spec 0 (0 + Z.of_nat (length added))) as [_|?]; [|lia].
    cbn [set_progress_label UI.dialogs UI.progress_label].
    rewrite Fd, length_app, Z.add_0_l. split; reflexivity.
  - intros Hk. destruct added; [|discriminate]. rewrite app_nil_r in *.
    split; [reflexivity|]. change (0 <? 0 + Z.of_nat (length (@nil string))) with false.
    cbv iota.
    destruct (0 <? duplicate_count _); [|destruct (0 <? invalid_count _)];
      cbn [show UI.dialogs UI.progress_label]; rewrite Fl, Fd; eauto.
Qed.

(** Property X10.  Adding the same selection a second time (the disk unchanged) adds
    nothing: the list and the progress label stay, and one dialog says
    how many selected files were already listed (or, when none was an
    image file, how many were turned down, or that nothing was valid). *)
Theorem adding_twice_adds_nothing (f : gmap PurePath Node)
    (files file_list : list string) (u : UI.t) :
  let st1 := add_files guess_type f files file_list u in
  let st2 := add_files guess_type f files (fst st1) (snd st1) in
  let n := Z.of_nat (length (filter (fun p => admitted guess_type f p = true) files)) in
  let m := Z.of_nat (length (filter (fun p => turned_down guess_type f p = true) files)) in
  fst st2 = fst st1
  /\ UI.progress_label (snd st2) = UI.progress_label (snd st1)
  /\ UI.file_count_label (snd st2) = UI.file_count_label (snd st1)
  /\ UI.dialogs (snd st2)
     = UI.dialogs (snd st1)
       ++ [if 0 <? n then
             ShowInfo "Duplicate Files" (pretty n +:+ " files were already in the list.")
           else if 0 <? m then
             ShowWarning "Invalid Files" (pretty m +:+ " files are not supported image formats.")
           else ShowWarning "No Files" "No valid image files were selected."].
Proof.
  cbn zeta.
  destruct (add_files_loop_spec guess_type f files file_list (mkAddCounts 0 0 0))
    as [added (H1 & _ & _ & H4 & _)].
  assert (E1 : fst (add_files guess_type f files file_list u) = file_list ++ added).
  { rewrite add_files_eq. exact H1. }
  rewrite E1. set (u1 := snd (add_files guess_type f files file_list u)).
  assert (Hlab : UI.file_count_label u1
                 = UI.file_count_label (update_file_count (file_list ++ added) u)).
  { unfold u1. rewrite add_files_eq. cbn [snd]. rewrite add_files_report_label, H1.
    reflexivity. }
  destruct (add_files_loop_spec guess_type f files (file_list ++ added) (mkAddCounts 0 0 0))
    as [added2 (G1 & G2 & G3 & _ & G5 & G6 & G7)].
  assert (added2 = []) as ->.
  { destruct added2 as [|q added2]; [reflexivity|]. exfalso.
    destruct (G3 q) as (Ha & Hb & Hc); [left|]. apply Ha. now apply H4. }
  rewrite app_nil_r in G1. simpl in G5, G6, G7.
  rewrite add_files_eq. cbn [fst snd]. rewrite G1.
  destruct (update_file_count_frame (file_list ++ added) u1) as (Fl & _ & _ & Fd & _).
  unfold add_files_report. rewrite G5, G7.
  replace (duplicate_count _) with
    (Z.of_nat (length (filter (fun p => admitted guess_type f p = true) files))) by lia.
  change (0 <? 0 + Z.of_nat 0) with false. cbv iota.
  split_and!; [reflexivity| | |].
  - destruct (0 <? _); [|destruct (0 <? _)]; cbn [show UI.progress_label]; exact Fl.
  - rewrite Hlab.
    destruct (0 <? _); [|destruct (0 <? _)]; cbn [show UI.file_count_label];
      apply update_file_count_label; reflexivity.
  - rewrite Z.add_0_l.
    destruct (0 <? _); [|destruct (0 <? _)]; cbn [show UI.dialogs]; now rewrite Fd.
Qed.

(** Property X11.  On a duplicate-free list [remove_file] takes out exactly the given
    path and keeps the others in their order; the count label and the
    progress label follow the new length, and at length zero the
    progress bar goes back to 0. *)
Theorem remove_file_takes_out_the_path (file_path : string) (file_list : list string)
    (u : UI.t) :
  NoDup file_list ->
  file_path ∈ file_list ->
  let file_list' := fst (remove_file file_path file_list u) in
  let u' := snd (remove_file file_path file_list u) in
  file_list' = filter (fun q => q <> file_path) file_list
  /\ (file_path ∉ file_list')
  /\ S (length file_list') = length file_list
  /\ UI.file_count_label u' = UI.file_count_label (update_file_count file_list' u)
  /\ (file_list' = [] ->
        UI.progress_label u' = "Ready to convert images" /\ UI.progress_bar u' = IntNum 0)
  /\ (file_list' <> [] ->
        UI.progress_label u'
        = pretty (Z.of_nat (length file_list')) +:+ " files ready for conversion"
        /\ UI.progress_bar u' = UI.progress_bar u).
Proof.
  intros Hnd Hin. cbn zeta. unfold remove_file.
  rewrite bool_decide_eq_true_2 by exact Hin.
  destruct (list_remove_split file_path file_list Hin) as (l1 & l2 & E & Hn1 & Er).
  pose proof (list_remove_filter file_path file_list Hnd) as Ef.
  destruct (update_file_count_frame (list_remove file_path file_list) u)
    as (_ & Fb & _).
  destruct (Z.ltb_spec 0 (Z.of_nat (length (list_remove file_path file_list)))) as [Hlen|Hlen];
    cbn [fst snd].
  - split_and!.
    + exact Ef.
    + rewrite Ef. intros H. apply list_elem_of_filter in H as [H _]. now apply H.
    + rewrite Er, E, !length_app. simpl. lia.
    + reflexivity.
    + intros H0. rewrite H0 in Hlen. simpl in Hlen. lia.
    + intros _. split; [reflexivity|exact Fb].
  - split_and!.
    + exact Ef.
    + rewrite Ef. intros H. apply list_elem_of_filter in H as [H _]. now apply H.
    + rewrite Er, E, !length_app. simpl. lia.
    + reflexivity.
    + intros _. split; reflexivity.
    + intros H0. destruct (list_remove file_path file_list); [congruence|simpl in Hlen; lia].
Qed.

(** Property X12.  Whatever the user does with the list, in any order and on any disk
    (adding selections, removing a path, clearing with either answer),
    the file list never holds a path twice, and the count label shows
    the text of [update_file_count] for its length - except that it
    still reads "0 files" while nothing has ever been added. *)
Theorem file_list_never_holds_duplicates (actions : list UserAction) :
  let file_list := fst (session guess_type actions) in
  let u := snd (session guess_type actions) in
  NoDup file_list
  /\ ((file_list = [] /\ UI.file_count_label u = "0 files")
      \/ UI.file_count_label u = UI.file_count_label (update_file_count file_list u)).
Proof.
  cbn zeta. unfold session.
  assert (Hinv : forall (st : list string * UI.t),
            NoDup (fst st)
            /\ ((fst st = [] /\ UI.file_count_label (snd st) = "0 files")
                \/ UI.file_count_label (snd st)
                   = UI.file_count_label (update_file_count (fst st) (snd st))) ->
            forall a,
            NoDup (fst (act guess_type a st))
            /\ ((fst (act guess_type a st) = []
                 /\ UI.file_count_label (snd (act guess_type a st)) = "0 files")
                \/ UI.file_count_label (snd (act guess_type a st))
                   = UI.file_count_label
                       (update_file_count (fst (act guess_type a st))
                          (snd (act guess_type a st))))).
  { intros [fl u] [Hnd Hlab] a. cbn [fst snd] in *. destruct a as [f files|p|result].
    - cbn [act fst snd].
      destruct (add_files_loop_spec guess_type f files fl (mkAddCounts 0 0 0))
        as [added (H1 & H2 & H3 & _)].
      rewrite add_files_eq. cbn [fst snd]. split.
      + rewrite H1. apply NoDup_app. split_and!; [exact Hnd| |exact H2].
        intros x Hx Hx'. now apply (H3 x Hx').
      + right. rewrite add_files_report_label. now apply update_file_count_label.
    - cbn [act fst snd]. unfold remove_file.
      destruct (bool_decide (p ∈ fl)); [|now split].
      pose proof (list_remove_filter p fl Hnd) as Ef.
      assert (Hnd' : NoDup (list_remove p fl)).
      { rewrite Ef. now apply NoDup_filter. }
      destruct (0 <? _); cbn [fst snd]; (split; [exact Hnd'|]); right;
        now apply update_file_count_label.
    - cbn [act fst snd]. unfold clear_files. destruct fl as [|x fl]; [now split|].
      destruct result; [|now split]. cbn [fst snd]. split; [constructor|].
      right. reflexivity. }
  induction actions as [|a actions IH] using rev_ind.
  - simpl. split; [constructor|]. left. split; reflexivity.
  - rewrite fold_left_app. simpl. apply Hinv. exact IH.
Qed.

End WindowTheorems.

(** ** Polling the queue *)

Lemma drain_app (q1 q2 : list Message) (u : UI.t) :
  drain (q1 ++ q2) u = drain q2 (drain q1 u).
Proof.
  revert u. induction q1 as [|m q1 IH]; intros u; [reflexivity|]. simpl. apply IH.
Qed.

Lemma drain_root_after (q : list Message) (ms : Z) (callback : string) (u : UI.t) :
  drain q (root_after ms callback u) = root_after ms callback (drain q u).
Proof.
  revert u. induction q as [|m q IH]; intros u; [reflexivity|]. simpl.
  rewrite <- IH. f_equal. destruct m as [x t|s [|x l]|e]; reflexivity.
Qed.

Lemma drain_progress_frame (total_files : Z) (files : list string) :
  forall (i : Z) (u : UI.t),
  UI.convert_btn (drain (progress_messages total_files i files) u) = UI.convert_btn u
  /\ UI.dialogs (drain (progress_messages total_files i files) u) = UI.dialogs u
  /\ UI.after_calls (drain (progress_messages total_files i files) u) = UI.after_calls u
  /\ UI.file_count_label (drain (progress_messages total_files i files) u)
     = UI.file_count_label u.
Proof.
  induction files as [|f files IH]; intros i u; [now repeat split|].
  cbn [progress_messages drain].
  destruct (IH (i + 1) (handle_message (progress_message total_files i f) u))
    as (H1 & H2 & H3 & H4).
  rewrite H1, H2, H3, H4. now repeat split.
Qed.

Section BatchFacts.

Variable encodable : string -> Image -> bool.
Variable int_of_str : string -> option Z.
Variable strip : string -> string.

(** The loop counts every file once: as a success or as a failure. *)
Lemma for_each_file_counts (app : App.t) (total_files : Z) (files : list string) :
  total_files <> 0 ->
  forall (i : Z) (tally : Tally) (w : World),
  exists tally' w',
    for_each_file encodable int_of_str strip app total_files i files tally w = (Ok tally', w')
    /\ successful_conversions tally' + Z.of_nat (length (failed_conversions tally'))
       = successful_conversions tally + Z.of_nat (length (failed_conversions tally))
         + Z.of_nat (length files)
    /\ successful_conversions tally <= successful_conversions tally'.
Proof.
  intros Ht. induction files as [|f files IH]; intros i tally w.
  - exists tally, w. simpl. split_and!; [reflexivity|lia|lia].
  - rewrite for_each_file_step by exact Ht.
    destruct (convert_file_cases encodable int_of_str strip app f tally
                (enqueue (progress_message total_files i f) w))
      as [t1 [w1 [Hc [_ Hcase]]]].
    rewrite Hc.
    destruct (IH (i + 1) t1 w1) as [t2 [w2 (Hrun & Hsum & Hle)]].
    exists t2, w2. split; [exact Hrun|].
    destruct Hcase as [[_ ->]|[_ ->]]; cbn [successful_conversions failed_conversions] in *.
    + simpl length. lia.
    + rewrite length_app in Hsum. simpl length in *. lia.
Qed.

(** The whole batch: what is on the queue at the end, and the counts. *)
Lemma batch_outcome (app : App.t) (w : World) :
  let total_files := Z.of_nat (length (App.file_list app)) in
  exists tally w',
    convert_images encodable int_of_str strip app w = (Ok tt, w')
    /\ queue w' = queue w ++ progress_messages total_files 0 (App.file_list app)
                    ++ [summary_message total_files tally;
                        Complete (successful_conversions tally) (failed_conversions tally)]
    /\ successful_conversions tally + Z.of_nat (length (failed_conversions tally))
       = total_files
    /\ 0 <= successful_conversions tally
    /\ sublist (failed_conversions tally) (PyPath.basename <$> App.file_list app).
Proof.
  intros total_files.
  destruct (whole_loop_runs encodable int_of_str strip app w)
    as [tally [w0 [failed [Hrun [Hq [Hf Hsub]]]]]].
  fold total_files in Hrun, Hq.
  pose proof (convert_images_eq encodable int_of_str strip app w tally w0 Hrun) as Hci.
  fold total_files in Hci.
  exists tally. eexists. split; [exact Hci|].
  split; [cbn [queue enqueue]; rewrite Hq; now rewrite <- !app_assoc|].
  assert (Hcount : successful_conversions tally + Z.of_nat (length (failed_conversions tally))
                   = total_files /\ 0 <= successful_conversions tally).
  { destruct (App.file_list app) as [|f files] eqn:E.
    - simpl in Hrun. injection Hrun as <- <-. subst total_files. simpl. lia.
    - assert (Ht : total_files <> 0) by (subst total_files; simpl; lia).
      destruct (for_each_file_counts app total_files (f :: files) Ht 0 tally0 w)
        as [t' [w' (Hrun' & Hsum & Hle)]].
      rewrite Hrun in Hrun'. injection Hrun' as <- <-.
      simpl in Hsum, Hle. subst total_files. simpl length. lia. }
  destruct Hcount as [Hsum Hle]. split_and!; [exact Hsum|exact Hle|].
  rewrite Hf. exact Hsub.
Qed.

End BatchFacts.

Section BatchTheorems.

Variable encodable : string -> Image -> bool.
Variable int_of_str : string -> option Z.
Variable strip : string -> string.

(** Property X13.  The "complete" message accounts for every file of the list: the
    number of successes plus the number of failed names is the number of
    files, and the failed names are basenames of listed files, in list
    order. *)
Theorem complete_message_accounts_for_every_file (app : App.t) (w : World) :
  exists successful failed,
    last (queue (snd (convert_images encodable int_of_str strip app w)))
    = Some (Complete successful failed)
    /\ successful + Z.of_nat (length failed) = Z.of_nat (length (App.file_list app))
    /\ 0 <= successful
    /\ sublist failed (PyPath.basename <$> App.file_list app).
Proof.
  destruct (batch_outcome encodable int_of_str strip app w)
    as [tally [w' (Hci & Hq & Hsum & Hle & Hsub)]].
  exists (successful_conversions tally), (failed_conversions tally).
  rewrite Hci. cbn [snd]. rewrite Hq.
  split_and!; [|exact Hsum|exact Hle|exact Hsub].
  rewrite !app_assoc.
  change [summary_message (Z.of_nat (length (App.file_list app))) tally;
          Complete (successful_conversions tally) (failed_conversions tally)]
    with ([summary_message (Z.of_nat (length (App.file_list app))) tally]
            ++ [Complete (successful_conversions tally) (failed_conversions tally)]).
  rewrite app_assoc. apply last_snoc.
Qed.

(** Property X16.  A run from the button to the dialog.  With files in the list and an
    empty queue, [start_conversion] disables the button and starts the
    worker; once the worker is done and the queue has been read, the
    button is enabled again with its first text, the bar is at 1.0, the
    progress label shows the summary, the queue is empty, and exactly one
    dialog has been added: the information box when nothing failed, else
    the warning with the failed names. *)
Theorem batch_ends_with_one_dialog (app : App.t) (w : World) (u : UI.t) :
  App.file_list app <> [] ->
  queue w = [] ->
  let total_files := Z.of_nat (length (App.file_list app)) in
  let u1 := fst (start_conversion (App.file_list app) u) in
  let w' := snd (convert_images encodable int_of_str strip app w) in
  let u2 := snd (check_conversion_queue (queue w') u1) in
  snd (start_conversion (App.file_list app) u) = true
  /\ UI.convert_btn u1 = ("disabled", "Converting...")
  /\ fst (check_conversion_queue (queue w') u1) = []
  /\ exists successful failed,
       successful + Z.of_nat (length failed) = total_files
       /\ sublist failed (PyPath.basename <$> App.file_list app)
       /\ UI.convert_btn u2 = ("normal", "🚀 Start Conversion")
       /\ UI.progress_bar u2 = FloatNum 1
       /\ UI.progress_label u2
          = "Conversion complete: " +:+ pretty successful +:+ "/"
              +:+ pretty total_files +:+ " successful"
       /\ UI.dialogs u2
          = UI.dialogs u
            ++ [match failed with
                | [] => ShowInfo "Conversion Complete"
                          ("Successfully converted all " +:+ pretty successful +:+ " images!")
                | _ :: _ =>
                    ShowWarning "Conversion Complete with Errors"
                      ("Successfully converted: " +:+ pretty successful +:+ "\nFailed: "
                         +:+ pretty (Z.of_nat (length failed)) +:+ "\n\nFailed files:\n"
                         +:+ PyStr.join "\n" failed)
                end].
Proof.
  intros Hne Hq0. cbn zeta.
  destruct (batch_outcome encodable int_of_str strip app w)
    as [tally [w' (Hci & Hq & Hsum & Hle & Hsub)]].
  rewrite Hci. cbn [snd]. rewrite Hq, Hq0. cbn [List.app].
  destruct (App.file_list app) as [|f files] eqn:E; [congruence|].
  cbn [start_conversion fst snd check_conversion_queue].
  split_and!; [reflexivity|reflexivity|reflexivity|].
  exists (successful_conversions tally), (failed_conversions tally).
  split; [exact Hsum|]. split; [exact Hsub|].
  rewrite drain_app.
  set (u1 := set_convert_btn "disabled" "Converting..." u).
  destruct (drain_progress_frame (Z.of_nat (length (f :: files))) (f :: files) 0 u1)
    as (_ & Hd & _).
  set (u' := drain (progress_messages _ 0 (f :: files)) u1) in *.
  cbn [drain handle_message summary_message].
  destruct (failed_conversions tally) as [|x l];
    cbn [root_after show set_convert_btn set_progress_label set_progress_bar
         UI.convert_btn UI.progress_bar UI.progress_label UI.dialogs];
    rewrite Hd; split_and!; reflexivity.
Qed.

End BatchTheorems.

(** Property X17.  The window does not depend on when the queue is read: reading it
    after [q1] and again after [q2] leaves what one reading of
    [q1 ++ q2] leaves, but for the one more scheduled check. *)
Theorem polling_is_compositional (q1 q2 : list Message) (u : UI.t) :
  snd (check_conversion_queue q2 (snd (check_conversion_queue q1 u)))
  = root_after 100 "check_conversion_queue" (snd (check_conversion_queue (q1 ++ q2) u)).
Proof.
  unfold check_conversion_queue. cbn [snd].
  now rewrite drain_root_after, drain_app.
Qed.

(** ** Choosing the files *)

Section FilterFacts.

Variable guess_type : string -> option string * option string.

Lemma filter_image_files_from_eq (f : gmap PurePath Node) (file_paths : list string) :
  forall image_files,
  filter_image_files_from guess_type f file_paths image_files
  = image_files
    ++ List.filter (fun p => OsPath.isfile f p && is_supported_format p) file_paths.
Proof.
  induction file_paths as [|p l IH]; intros acc; simpl.
  - now rewrite app_nil_r.
  - fold (admitted guess_type f p). rewrite admitted_eq.
    destruct (OsPath.isfile f p && is_supported_format p).
    + rewrite IH, <- app_assoc. reflexivity.
    + apply IH.
Qed.

Lemma filter_filter (P : string -> bool) (l : list string) :
  List.filter P (List.filter P l) = List.filter P l.
Proof.
  induction l as [|x l IH]; [reflexivity|]. simpl.
  destruct (P x) eqn:E; [|exact IH]. simpl. rewrite E. now rewrite IH.
Qed.

End FilterFacts.

Section Admission.

Variable encodable : string -> Image -> bool.

(** Past its two input checks [convert_image] logs one record, and it is
    none of the two input rejections. *)
Lemma convert_image_past_gates (input : string) (settings : Settings.t) (w : World) :
  PyStr.truthy input && FS.path_exists (fs w) (PyPath.Path input) = true ->
  is_supported_format input = true ->
  exists (b : bool) (w' : World) (lvl : Level) (m : LogMsg),
    convert_image encodable input settings w = (Ok b, w')
    /\ log w' = log w ++ [(lvl, m)]
    /\ input_rejection m = false.
Proof.
  intros Hex Hsup. rewrite convert_image_eq. cbv zeta. rewrite Hex.
  unfold is_supported_format in Hsup. cbv zeta in Hsup. rewrite Hsup. cbn [negb].
  destruct (SUPPORTED_OUTPUT_FORMATS !! _).
  2:{ eexists false, _, _, _. split; [reflexivity|]. simpl. split; reflexivity. }
  destruct (_get_output_path _ _ _ w) as [[output_path|e] w1] eqn:Hgo;
    destruct (get_output_path_frame _ _ _ _ _ _ Hgo) as [Hl [Hq _]].
  2:{ eexists false, _, _, _. split; [reflexivity|]. simpl. rewrite Hl. split; reflexivity. }
  destruct (FS.open_image _ w1) as [[img|e] w2] eqn:Hop;
    apply open_image_frame in Hop; subst w2.
  2:{ eexists false, _, _, _. split; [reflexivity|]. simpl. rewrite Hl. split; reflexivity. }
  destruct (resize_step _ _) as [resized|e].
  2:{ eexists false, _, _, _. split; [reflexivity|]. simpl. rewrite Hl. split; reflexivity. }
  destruct (save_image_cases encodable (Transposed resized) output_path
              (PyStr.lower (default "png" (Settings.output_format settings)))
              (Settings.quality settings) w1) as [[pil [kw [_ Hs]]]|[e Hs]]; rewrite Hs.
  - eexists true, _, _, _. split; [reflexivity|]. simpl. rewrite Hl. split; reflexivity.
  - eexists false, _, _, _. split; [reflexivity|]. simpl. rewrite Hl. split; reflexivity.
Qed.

Lemma isfile_exists (f : gmap PurePath Node) (p : string) :
  OsPath.isfile f p = true ->
  PyStr.truthy p && FS.path_exists f (PyPath.Path p) = true.
Proof.
  unfold OsPath.isfile, FS.path_exists. intros H.
  apply andb_true_iff in H as [-> H]. simpl.
  destruct (FS.lookup f (PyPath.Path p)); [reflexivity|discriminate].
Qed.

End Admission.

Section AdmissionTheorems.

Variable guess_type : string -> option string * option string.
Variable encodable : string -> Image -> bool.

(** Property X18.  [filter_image_files] keeps, in their order, exactly the paths that
    are regular files and carry an extension [convert_image] accepts,
    whatever [mimetypes] says; filtering its result again changes
    nothing. *)
Theorem filter_image_files_keeps_convertible_files (f : gmap PurePath Node)
    (file_paths : list string) :
  filter_image_files guess_type f file_paths
  = List.filter (fun p => OsPath.isfile f p && is_supported_format p) file_paths
  /\ filter_image_files guess_type f (filter_image_files guess_type f file_paths)
     = filter_image_files guess_type f file_paths.
Proof.
  unfold filter_image_files. rewrite !filter_image_files_from_eq. cbn [List.app].
  split; [reflexivity|apply filter_filter].
Qed.

(** Property X19.  A path that [add_files] or [filter_image_files] lets through (a
    regular file that [is_image_file] accepts) is not turned down by the
    input checks of [convert_image] as long as the file is still there:
    the one record the conversion logs is neither "Input file does not
    exist" nor "Unsupported input format". *)
Theorem admitted_file_passes_input_checks (file_path : string) (settings : Settings.t)
    (w : World) :
  OsPath.isfile (fs w) file_path = true ->
  is_image_file guess_type file_path = true ->
  exists (b : bool) (w' : World) (lvl : Level) (m : LogMsg),
    convert_image encodable file_path settings w = (Ok b, w')
    /\ log w' = log w ++ [(lvl, m)]
    /\ input_rejection m = false.
Proof.
  intros Hfile Himg. apply convert_image_past_gates.
  - now apply isfile_exists.
  - pose proof (admitted_eq guess_type (fs w) file_path) as E.
    unfold admitted in E. rewrite Hfile, Himg in E. simpl in E. now symmetry.
Qed.

End AdmissionTheorems.

(** ** The progress tracker and the history *)

Lemma tracker_invariant_step (c : ProgressTracker.Call) (self : ProgressTracker.t)
    (acc : Z * Z) :
  ProgressTracker.processed_files self
  = ProgressTracker.successful_conversions self + ProgressTracker.failed_conversions self ->
  (ProgressTracker.successful_conversions self, ProgressTracker.failed_conversions self) = acc ->
  0 <= fst acc -> 0 <= snd acc ->
  let self' := ProgressTracker.call c self in
  let acc' := ProgressTracker.marked [c] acc in
  ProgressTracker.processed_files self'
  = ProgressTracker.successful_conversions self' + ProgressTracker.failed_conversions self'
  /\ (ProgressTracker.successful_conversions self', ProgressTracker.failed_conversions self')
     = acc'
  /\ 0 <= fst acc' /\ 0 <= snd acc'.
Proof.
  intros Hsum <- H1 H2. cbn [fst snd] in *.
  destruct c as [|n|x|f|[]|x]; cbn; split_and!; try reflexivity; lia.
Qed.

Lemma marked_cons (c : ProgressTracker.Call) (calls : list ProgressTracker.Call)
    (acc : Z * Z) :
  ProgressTracker.marked (c :: calls) acc
  = ProgressTracker.marked calls (ProgressTracker.marked [c] acc).
Proof.
  destruct c as [|n|x|f|[]|x]; reflexivity.
Qed.

(** Property X20.  From a new tracker and through any sequence of calls (resets
    included), the files processed are the successes plus the failures,
    and these are the counts of the files marked since the last reset;
    none is negative. *)
Theorem tracker_counts_add_up (calls : list ProgressTracker.Call) :
  let self := ProgressTracker.after calls in
  ProgressTracker.processed_files self
  = ProgressTracker.successful_conversions self + ProgressTracker.failed_conversions self
  /\ (ProgressTracker.successful_conversions self, ProgressTracker.failed_conversions self)
     = ProgressTracker.marked calls (0, 0)
  /\ 0 <= ProgressTracker.successful_conversions self
  /\ 0 <= ProgressTracker.failed_conversions self.
Proof.
  cbn zeta. unfold ProgressTracker.after.
  set (self0 := ProgressTracker.reset _).
  assert (H0 : ProgressTracker.processed_files self0
               = ProgressTracker.successful_conversions self0
                 + ProgressTracker.failed_conversions self0
               /\ (ProgressTracker.successful_conversions self0,
                   ProgressTracker.failed_conversions self0) = (0, 0)
               /\ 0 <= fst (0, 0) /\ 0 <= snd (0, 0)).
  { subst self0. cbn. split_and!; (reflexivity || lia). }
  revert H0. generalize self0. generalize (0, 0). clear self0.
  induction calls as [|c calls IH]; intros acc self (Hs & Ha & H1 & H2).
  - simpl. rewrite <- Ha in H1, H2. cbn [fst snd] in *. auto.
  - cbn [fold_left]. rewrite marked_cons. apply IH.
    now apply tracker_invariant_step.
Qed.


Lemma make_entry_ok (a : ConversionHistory.Args) :
  exists e, ConversionHistory.make_entry a = Ok e.
Proof.
  unfold ConversionHistory.make_entry, int_truediv.
  destruct (Z.ltb_spec 0 (ConversionHistory.a_file_size_before a)) as [H|H].
  - destruct (Z.eqb_spec (ConversionHistory.a_file_size_before a) 0) as [E|_]; [lia|].
    simpl. eauto.
  - simpl. eauto.
Qed.

Lemma last_n_short {A} (n : nat) (l : list A) :
  (length l <= n)%nat -> ConversionHistory.last_n n l = l.
Proof.
  intros H. unfold ConversionHistory.last_n.
  replace (length l - n)%nat with 0%nat by lia. reflexivity.
Qed.

Lemma last_n_length {A} (n : nat) (l : list A) :
  length (ConversionHistory.last_n n l) = Nat.min n (length l).
Proof.
  unfold ConversionHistory.last_n. rewrite length_drop. lia.
Qed.

Lemma last_n_app {A} (n : nat) (l r : list A) :
  ConversionHistory.last_n n (ConversionHistory.last_n n l ++ r)
  = ConversionHistory.last_n n (l ++ r).
Proof.
  destruct (Nat.le_gt_cases (length l) n) as [H|H].
  - now rewrite (last_n_short n l H).
  - unfold ConversionHistory.last_n at 1 3.
    rewrite length_app, last_n_length, length_app.
    replace (Nat.min n (length l) + length r - n)%nat with (length r) by lia.
    replace (length l + length r - n)%nat with ((length l - n) + length r)%nat by lia.
    rewrite <- drop_drop. f_equal.
    unfold ConversionHistory.last_n. rewrite drop_app_le by lia. reflexivity.
Qed.

Lemma add_all_from (calls : list ConversionHistory.Args) :
  forall (all : list ConversionHistory.Entry),
  exists entries,
    Forall2 (fun a e => ConversionHistory.make_entry a = Ok e) calls entries
    /\ ConversionHistory.add_all calls (ConversionHistory.last_n 100 all)
       = Ok (ConversionHistory.last_n 100 (all ++ entries)).
Proof.
  induction calls as [|a calls IH]; intros all.
  - exists []. split; [constructor|]. simpl. now rewrite app_nil_r.
  - destruct (make_entry_ok a) as [e He].
    destruct (IH (all ++ [e])) as [entries [HF Hrun]].
    exists (e :: entries). split; [now constructor|].
    cbn [ConversionHistory.add_all]. unfold ConversionHistory.add_conversion.
    rewrite He. cbn [res_bind].
    replace (if 100 <? _ then _ else _)
      with (Ok (ConversionHistory.last_n 100 (all ++ [e]))).
    + cbn [res_bind]. rewrite Hrun. now rewrite <- app_assoc.
    + destruct (Z.ltb_spec 100
                  (Z.of_nat (length (ConversionHistory.last_n 100 all ++ [e])))) as [H|H].
      * now rewrite last_n_app.
      * rewrite <- last_n_app. f_equal. apply last_n_short. lia.
Qed.


Section InputChecks.

Variable encodable : string -> Image -> bool.

(** Property X5.  [convert_image] turns its input down exactly when the path does not
    exist or its lower-cased extension is not a supported input format.
    It then returns [False], logs the one matching ERROR record (the
    missing path first), and leaves the disk as it was; in every other
    case the one record it logs is none of the two. *)
Theorem input_checks_decide_rejection (input : string) (settings : Settings.t) (w : World) :
  let there := PyStr.truthy input && FS.path_exists (fs w) (PyPath.Path input) in
  exists (b : bool) (w' : World) (lvl : Level) (m : LogMsg),
    convert_image encodable input settings w = (Ok b, w')
    /\ log w' = log w ++ [(lvl, m)]
    /\ input_rejection m = negb (there && is_supported_format input)
    /\ (input_rejection m = true ->
          b = false /\ fs w' = fs w /\ lvl = ERROR
          /\ m = if there then UnsupportedInputFormat (PyPath.suffix (PyPath.Path input))
                 else InputDoesNotExist input).
Proof.
  cbn zeta.
  destruct (PyStr.truthy input && FS.path_exists (fs w) (PyPath.Path input)) eqn:Hex.
  2:{ rewrite convert_image_eq. cbv zeta. rewrite Hex. cbn [negb andb].
      eexists false, _, ERROR, _. split; [reflexivity|]. simpl. now split_and!. }
  destruct (is_supported_format input) eqn:Hsup.
  - destruct (convert_image_past_gates encodable input settings w Hex Hsup)
      as (b & w' & lvl & m & Hc & Hl & Hr).
    exists b, w', lvl, m. split_and!; [exact Hc|exact Hl|exact Hr|].
    rewrite Hr. discriminate.
  - rewrite convert_image_eq. cbv zeta. rewrite Hex.
    unfold is_supported_format in Hsup. cbv zeta in Hsup. rewrite Hsup. cbn [negb andb].
    eexists false, _, ERROR, _. split; [reflexivity|]. simpl. now split_and!.
Qed.

End InputChecks.

Section Quality.

Variable encodable : string -> Image -> bool.
Variable int_of_str : string -> option Z.
Variable strip : string -> string.

Lemma read_quality_range (app : App.t) :
  match read_quality int_of_str strip app with
  | Some q => 1 <= q <= 100 /\ App.quality_option app = true
  | None => App.quality_option app = false
  end.
Proof.
  unfold read_quality. destruct (App.quality_option app); [|reflexivity].
  destruct (int_or _ _ _ _); split; (reflexivity || lia).
Qed.

(** Property X14.  Whatever stands in the quality field, a file the batch worker
    writes carries a [quality] argument between 1 and 100 (when its
    encoder takes one): the entry is clamped, a blank or non-numeric
    entry gives 95, and so does the option switched off. *)
Theorem batch_outputs_carry_quality_in_range (app : App.t) (file_path : string)
    (w w' : World) :
  convert_image encodable file_path (read_settings int_of_str strip app) w = (Ok true, w') ->
  exists out pil kwargs img,
    fs w !! out = None
    /\ fs w' !! out = Some (Written pil kwargs img)
    /\ forall q, ("quality", KwInt q) ∈ kwargs ->
         1 <= q <= 100 /\ (App.quality_option app = false -> q = 95).
Proof.
  intros H.
  destruct (convert_image_effect encodable file_path (read_settings int_of_str strip app) w)
    as [_ Heff].
  rewrite H in Heff. cbn [fst snd] in Heff.
  destruct (Heff eq_refl) as (out & pil & img & Hfree & _ & Hw).
  eexists out, pil, _, _. split_and!; [exact Hfree|exact Hw|].
  intros q Hq. cbn [read_settings Settings.quality] in Hq.
  assert (Hrange : 1 <= quality_or_default (read_quality int_of_str strip app) <= 100
                   /\ (App.quality_option app = false ->
                       quality_or_default (read_quality int_of_str strip app) = 95)).
  { pose proof (read_quality_range app) as Hr.
    destruct (read_quality int_of_str strip app) as [q0|]; simpl.
    - destruct Hr as [Hr Hon]. destruct (Z.eqb_spec q0 0); [lia|].
      split; [exact Hr|congruence].
    - split; [lia|reflexivity]. }
  unfold save_kwargs_for in Hq.
  destruct (String.eqb pil "JPEG").
  { apply elem_of_cons in Hq as [[= ->]|Hq]; [exact Hrange|].
    apply elem_of_cons in Hq as [Hq|Hq]; [discriminate|]. now apply elem_of_nil in Hq. }
  destruct (String.eqb pil "PNG").
  { apply elem_of_cons in Hq as [Hq|Hq]; [discriminate|]. now apply elem_of_nil in Hq. }
  destruct (String.eqb pil "WEBP").
  { apply elem_of_cons in Hq as [[= ->]|Hq]; [exact Hrange|].
    apply elem_of_cons in Hq as [Hq|Hq]; [discriminate|now apply elem_of_nil in Hq]. }
  destruct (String.eqb pil "TIFF").
  { apply elem_of_cons in Hq as [Hq|Hq]; [discriminate|]. now apply elem_of_nil in Hq. }
  now apply elem_of_nil in Hq.
Qed.

End Quality.

Lemma remove_file_takes_out_the_path_witness :
  fst (remove_file "b.png" ["a.png"; "b.png"; "c.png"] initial_ui)
  = filter (fun q => q <> "b.png") ["a.png"; "b.png"; "c.png"]
  /\ ("b.png" ∉ fst (remove_file "b.png" ["a.png"; "b.png"; "c.png"] initial_ui))
  /\ S (length (fst (remove_file "b.png" ["a.png"; "b.png"; "c.png"] initial_ui)))
     = length ["a.png"; "b.png"; "c.png"]
  /\ UI.file_count_label (snd (remove_file "b.png" ["a.png"; "b.png"; "c.png"] initial_ui))
     = UI.file_count_label
         (update_file_count
            (fst (remove_file "b.png" ["a.png"; "b.png"; "c.png"] initial_ui)) initial_ui)
  /\ (fst (remove_file "b.png" ["a.png"; "b.png"; "c.png"] initial_ui) = [] ->
        UI.progress_label (snd (remove_file "b.png" ["a.png"; "b.png"; "c.png"] initial_ui))
        = "Ready to convert images"
        /\ UI.progress_bar (snd (remove_file "b.png" ["a.png"; "b.png"; "c.png"] initial_ui))
           = IntNum 0)
  /\ (fst (remove_file "b.png" ["a.png"; "b.png"; "c.png"] initial_ui) <> [] ->
        UI.progress_label (snd (remove_file "b.png" ["a.png"; "b.png"; "c.png"] initial_ui))
        = pretty (Z.of_nat (length (fst (remove_file "b.png" ["a.png"; "b.png"; "c.png"]
                                           initial_ui))))
            +:+ " files ready for conversion"
        /\ UI.progress_bar (snd (remove_file "b.png" ["a.png"; "b.png"; "c.png"] initial_ui))
           = UI.progress_bar initial_ui).
Proof.
  apply (remove_file_takes_out_the_path "b.png" ["a.png"; "b.png"; "c.png"] initial_ui).
  - repeat constructor; intros H; repeat (apply elem_of_cons in H as [H|H]; [discriminate|]);
      now apply elem_of_nil in H.
  - apply elem_of_cons. right. apply elem_of_cons. now left.
Defined.

Example remove_file_example :
  remove_file "b.png" ["a.png"; "b.png"] initial_ui
  = (["a.png"],
     {| UI.file_count_label := "1 file";
        UI.progress_label := "1 files ready for conversion";
        UI.progress_bar := IntNum 0;
        UI.convert_btn := ("normal", "🚀 Start Conversion");
        UI.dialogs := [];
        UI.after_calls := [(100, "check_conversion_queue")] |}).
Proof. vm_compute. reflexivity. Qed.

Lemma batch_ends_with_one_dialog_witness :
  snd (start_conversion three_files initial_ui) = true
  /\ UI.convert_btn (fst (start_conversion three_files initial_ui))
     = ("disabled", "Converting...")
  /\ fst (check_conversion_queue
            (queue (snd (convert_images all_codecs no_int no_strip (batch three_files) w_photo)))
            (fst (start_conversion three_files initial_ui))) = []
  /\ exists successful failed,
       successful + Z.of_nat (length failed) = 3
       /\ sublist failed (PyPath.basename <$> three_files)
       /\ UI.convert_btn
            (snd (check_conversion_queue
                    (queue (snd (convert_images all_codecs no_int no_strip
                                   (batch three_files) w_photo)))
                    (fst (start_conversion three_files initial_ui))))
          = ("normal", "🚀 Start Conversion")
       /\ UI.progress_bar
            (snd (check_conversion_queue
                    (queue (snd (convert_images all_codecs no_int no_strip
                                   (batch three_files) w_photo)))
                    (fst (start_conversion three_files initial_ui))))
          = FloatNum 1
       /\ UI.progress_label
            (snd (check_conversion_queue
                    (queue (snd (convert_images all_codecs no_int no_strip
                                   (batch three_files) w_photo)))
                    (fst (start_conversion three_files initial_ui))))
          = "Conversion complete: " +:+ pretty successful +:+ "/"
              +:+ pretty 3 +:+ " successful"
       /\ UI.dialogs
            (snd (check_conversion_queue
                    (queue (snd (convert_images all_codecs no_int no_strip
                                   (batch three_files) w_photo)))
                    (fst (start_conversion three_files initial_ui))))
          = UI.dialogs initial_ui
            ++ [match failed with
                | [] => ShowInfo "Conversion Complete"
                          ("Successfully converted all " +:+ pretty successful +:+ " images!")
                | _ :: _ =>
                    ShowWarning "Conversion Complete with Errors"
                      ("Successfully converted: " +:+ pretty successful +:+ "\nFailed: "
                         +:+ pretty (Z.of_nat (length failed)) +:+ "\n\nFailed files:\n"
                         +:+ PyStr.join "\n" failed)
                end].
Proof.
  apply (batch_ends_with_one_dialog all_codecs no_int no_strip (batch three_files)
           w_photo initial_ui).
  - discriminate.
  - reflexivity.
Defined.

Example three_files_dialog :
  UI.dialogs
    (snd (check_conversion_queue
            (queue (snd (convert_images all_codecs no_int no_strip (batch three_files) w_photo)))
            (fst (start_conversion three_files initial_ui))))
  = [ShowWarning "Conversion Complete with Errors"
       "Successfully converted: 2\nFailed: 1\n\nFailed files:\nbroken.png"].
Proof. vm_compute. reflexivity. Qed.

Lemma admitted_file_passes_input_checks_witness :
  exists (b : bool) (w' : World) (lvl : Level) (m : LogMsg),
    convert_image all_codecs "pics/broken.png" to_png w_photo = (Ok b, w')
    /\ log w' = log w_photo ++ [(lvl, m)]
    /\ input_rejection m = false.
Proof.
  apply (admitted_file_passes_input_checks (fun _ => (None, None)) all_codecs
           "pics/broken.png" to_png w_photo).
  - vm_compute. reflexivity.
  - vm_compute. reflexivity.
Defined.

Lemma batch_outputs_carry_quality_in_range_witness :
  exists out pil kwargs img,
    fs w_photo !! out = None
    /\ fs (snd (convert_image all_codecs "pics/photo.jpg"
                  (read_settings small_int no_strip
                     (batch_q ["pics/photo.jpg"] "JPEG" "250")) w_photo)) !! out
       = Some (Written pil kwargs img)
    /\ forall q, ("quality", KwInt q) ∈ kwargs ->
         1 <= q <= 100
         /\ (App.quality_option (batch_q ["pics/photo.jpg"] "JPEG" "250") = false -> q = 95).
Proof.
  apply (batch_outputs_carry_quality_in_range all_codecs small_int no_strip
           (batch_q ["pics/photo.jpg"] "JPEG" "250") "pics/photo.jpg" w_photo).
  vm_compute. reflexivity.
Defined.

Example quality_250_is_written_as_100 :
  fs (snd (convert_image all_codecs "pics/photo.jpg"
             (read_settings small_int no_strip (batch_q ["pics/photo.jpg"] "JPEG" "250"))
             w_photo)) !! ["pics"; "photo.jpeg"]
  = Some (Written "JPEG" [("quality", KwInt 100); ("optimize", KwBool true)]
            (Transposed photo)).
Proof. vm_compute. reflexivity. Qed.

Section ZeroHeight.

Variable encodable : string -> Image -> bool.
Variable int_of_str : string -> option Z.
Variable strip : string -> string.

(** With resizing on and a target height of 0 no call returns [True]. *)
Lemma convert_image_zero_height (input : string) (settings : Settings.t) (w : World)
    (target_width : Z) :
  Settings.resize settings = Some true ->
  Settings.resize_dimensions settings = Some (target_width, 0) ->
  fst (convert_image encodable input settings w) = Ok false.
Proof.
  intros Hr Hd.
  assert (Hrs : forall img, exists e, resize_step settings img = Raise e).
  { intros img. unfold resize_step. rewrite Hr, Hd. simpl.
    unfold _resize_image, resize_target, int_truediv.
    destruct (Img.size img) as [ow oh].
    destruct (oh =? 0); simpl; eauto. }
  rewrite convert_image_eq. cbv zeta.
  destruct (negb (PyStr.truthy input && _)); [reflexivity|].
  destruct (negb (bool_decide _)); [reflexivity|].
  destruct (SUPPORTED_OUTPUT_FORMATS !! _) as [pil0|] eqn:Hpil; [|reflexivity].
  destruct (_get_output_path _ _ _ w) as [[out|e] w1] eqn:Hgo; [|reflexivity].
  destruct (FS.open_image _ w1) as [[img|e] w2] eqn:Hop;
    apply open_image_frame in Hop; subst w2; [|reflexivity].
  destruct (Hrs (_handle_transparency img
                   (PyStr.lower (default "png" (Settings.output_format settings)))))
    as [e ->].
  reflexivity.
Qed.

Lemma for_each_file_all_fail (app : App.t) (total_files : Z) (files : list string)
    (target_width : Z) :
  total_files <> 0 ->
  read_resize_dimensions int_of_str strip app = Some (target_width, 0) ->
  forall (i : Z) (tally : Tally) (w : World),
  exists w',
    for_each_file encodable int_of_str strip app total_files i files tally w
    = (Ok {| successful_conversions := successful_conversions tally;
             failed_conversions := failed_conversions tally ++ (PyPath.basename <$> files) |},
       w').
Proof.
  intros Ht Hd. induction files as [|f files IH]; intros i tally w.
  - exists w. simpl. rewrite app_nil_r. now destruct tally.
  - rewrite for_each_file_step by exact Ht.
    destruct (convert_file_cases encodable int_of_str strip app f tally
                (enqueue (progress_message total_files i f) w))
      as [t1 [w1 [Hc [_ Hcase]]]].
    rewrite Hc.
    assert (Hfalse : fst (convert_image encodable f (read_settings int_of_str strip app)
                            (enqueue (progress_message total_files i f) w)) = Ok false).
    { apply (convert_image_zero_height _ _ _ target_width).
      - cbn [read_settings Settings.resize]. f_equal.
        unfold read_resize_dimensions in Hd.
        destruct (App.resize_option app); [reflexivity|discriminate].
      - exact Hd. }
    destruct Hcase as [[Hok _]|[_ ->]]; [congruence|].
    destruct (IH (i + 1) {| successful_conversions := successful_conversions tally;
                            failed_conversions := failed_conversions tally ++ [PyPath.basename f] |}
                w1) as [w' Hrun].
    exists w'. rewrite Hrun. cbn [successful_conversions failed_conversions].
    rewrite fmap_cons, <- app_assoc. reflexivity.
Qed.

(** Property X15.  A height field that reads as 0, with resizing switched on, fails the
    whole batch: the division by the target height raises for every
    file, so the "complete" message reports no success and the basename
    of every listed file, in order. *)
Theorem zero_height_entry_fails_the_batch (app : App.t) (w : World) (target_width : Z) :
  read_resize_dimensions int_of_str strip app = Some (target_width, 0) ->
  last (queue (snd (convert_images encodable int_of_str strip app w)))
  = Some (Complete 0 (PyPath.basename <$> App.file_list app)).
Proof.
  intros Hd.
  assert (Hrun : exists w',
            for_each_file encodable int_of_str strip app
              (Z.of_nat (length (App.file_list app))) 0 (App.file_list app) tally0 w
            = (Ok {| successful_conversions := 0;
                     failed_conversions := PyPath.basename <$> App.file_list app |}, w')).
  { destruct (App.file_list app) as [|f files] eqn:E.
    - exists w. reflexivity.
    - apply (for_each_file_all_fail app _ (f :: files) target_width); [simpl; lia|exact Hd]. }
  destruct Hrun as [w' Hrun].
  rewrite (convert_images_eq encodable int_of_str strip app w _ w' Hrun).
  cbn [snd queue enqueue successful_conversions failed_conversions].
  apply last_snoc.
Qed.

End ZeroHeight.

Lemma zero_height_entry_fails_the_batch_witness :
  last (queue (snd (convert_images all_codecs small_int no_strip
                      (batch_resize three_files "80" "0") w_photo)))
  = Some (Complete 0 (PyPath.basename <$> App.file_list (batch_resize three_files "80" "0"))).
Proof.
  apply (zero_height_entry_fails_the_batch all_codecs small_int no_strip
           (batch_resize three_files "80" "0") w_photo 80).
  vm_compute. reflexivity.
Defined.

